(** * x86 speculative-execution mitigation selection (arch/x86/kernel/cpu/bugs.c)

    A shallow embedding of the boot-time mitigation selectors of [bugs.c]:
    the file-scope variables of the C file become the fields of one record
    [state], every [void f(void)] that updates them becomes a function
    [state -> state], and everything the selectors only read (CPUID
    capability bits, the ARCH_CAPABILITIES MSR, the vendor, the global
    [mitigations=] switch, the boot command line) is gathered in the record
    [cpu_facts].  Everything a selector does to the outside world (printk,
    forced capability bits, SMT disable requests, MSR writes) is appended to
    a trace kept in the state. *)

From Stdlib Require Import ZArith List String Ascii Bool Lia.
Import ListNotations.
Open Scope string_scope.
Open Scope list_scope.
Open Scope Z_scope.

(** ** Capability bits, vendors and the per-vulnerability enums *)

(** The X86_FEATURE_* and X86_BUG_* bits that the modelled functions test,
    set or clear. *)
Inductive x86_cap : Type :=
| X86_FEATURE_MD_CLEAR | X86_FEATURE_RTM | X86_FEATURE_FLUSH_L1D
| X86_FEATURE_HYPERVISOR | X86_FEATURE_SRBDS_CTRL | X86_FEATURE_SMAP
| X86_FEATURE_IBPB | X86_FEATURE_STIBP | X86_FEATURE_AVX
| X86_FEATURE_RETHUNK | X86_FEATURE_UNRET | X86_FEATURE_ENTRY_IBPB
| X86_FEATURE_FENCE_SWAPGS_USER | X86_FEATURE_FENCE_SWAPGS_KERNEL
| X86_FEATURE_LFENCE_RDTSC
| X86_BUG_CPU_MELTDOWN | X86_BUG_SPECTRE_V1 | X86_BUG_SPECTRE_V2
| X86_BUG_MDS | X86_BUG_MSBDS_ONLY | X86_BUG_SWAPGS | X86_BUG_TAA
| X86_BUG_SRBDS | X86_BUG_MMIO_STALE_DATA | X86_BUG_RETBLEED | X86_BUG_GDS.

Inductive x86_vendor_t : Type :=
| X86_VENDOR_INTEL | X86_VENDOR_AMD | X86_VENDOR_OTHER.

Inductive spectre_v2_mitigation : Type :=
| SPECTRE_V2_NONE | SPECTRE_V2_RETPOLINE_MINIMAL | SPECTRE_V2_RETPOLINE_NO_IBPB
| SPECTRE_V2_RETPOLINE_UNSAFE_MODULE | SPECTRE_V2_RETPOLINE_AMD
| SPECTRE_V2_RETPOLINE | SPECTRE_V2_RETPOLINE_IBRS_USER | SPECTRE_V2_IBRS
| SPECTRE_V2_IBRS_ALWAYS | SPECTRE_V2_IBP_DISABLED | SPECTRE_V2_IBRS_ENHANCED.

Inductive spectre_v2_mitigation_cmd : Type :=
| SPECTRE_V2_CMD_NONE | SPECTRE_V2_CMD_FORCE | SPECTRE_V2_CMD_AUTO
| SPECTRE_V2_CMD_RETPOLINE | SPECTRE_V2_CMD_RETPOLINE_AMD
| SPECTRE_V2_CMD_RETPOLINE_FORCE | SPECTRE_V2_CMD_RETPOLINE_IBRS_USER
| SPECTRE_V2_CMD_IBRS | SPECTRE_V2_CMD_IBRS_ALWAYS.

Inductive ssb_mitigation_cmd : Type :=
| SPEC_STORE_BYPASS_CMD_NONE | SPEC_STORE_BYPASS_CMD_AUTO
| SPEC_STORE_BYPASS_CMD_ON | SPEC_STORE_BYPASS_CMD_PRCTL
| SPEC_STORE_BYPASS_CMD_SECCOMP.

Inductive spectre_v1_mitigation_t : Type :=
| SPECTRE_V1_MITIGATION_NONE | SPECTRE_V1_MITIGATION_AUTO.

Inductive mds_mitigations : Type :=
| MDS_MITIGATION_OFF | MDS_MITIGATION_FULL | MDS_MITIGATION_VMWERV.

Inductive taa_mitigations : Type :=
| TAA_MITIGATION_OFF | TAA_MITIGATION_UCODE_NEEDED | TAA_MITIGATION_VERW
| TAA_MITIGATION_TSX_DISABLED.

Inductive mmio_mitigations : Type :=
| MMIO_MITIGATION_OFF | MMIO_MITIGATION_UCODE_NEEDED | MMIO_MITIGATION_VERW.

Inductive srbds_mitigations : Type :=
| SRBDS_MITIGATION_OFF | SRBDS_MITIGATION_UCODE_NEEDED | SRBDS_MITIGATION_FULL
| SRBDS_MITIGATION_TSX_OFF | SRBDS_MITIGATION_HYPERVISOR.

Inductive gds_mitigations : Type :=
| GDS_MITIGATION_OFF | GDS_MITIGATION_UCODE_NEEDED | GDS_MITIGATION_FORCE
| GDS_MITIGATION_FULL | GDS_MITIGATION_FULL_LOCKED | GDS_MITIGATION_HYPERVISOR.

Inductive retbleed_mitigation_t : Type :=
| RETBLEED_MITIGATION_NONE | RETBLEED_MITIGATION_UNRET
| RETBLEED_MITIGATION_IBPB | RETBLEED_MITIGATION_IBRS
| RETBLEED_MITIGATION_EIBRS.

Inductive retbleed_mitigation_cmd : Type :=
| RETBLEED_CMD_OFF | RETBLEED_CMD_AUTO | RETBLEED_CMD_UNRET | RETBLEED_CMD_IBPB.


(** ** The status-string tables *)

Definition LF : string := String "010"%char EmptyString.
Definition DQUOTE : string := String "034"%char EmptyString.

Definition mds_strings (m : mds_mitigations) : string :=
  match m with
  | MDS_MITIGATION_OFF => "Vulnerable"
  | MDS_MITIGATION_FULL => "Mitigation: Clear CPU buffers"
  | MDS_MITIGATION_VMWERV => "Vulnerable: Clear CPU buffers attempted, no microcode"
  end.

Definition taa_strings (m : taa_mitigations) : string :=
  match m with
  | TAA_MITIGATION_OFF => "Vulnerable"
  | TAA_MITIGATION_UCODE_NEEDED => "Vulnerable: Clear CPU buffers attempted, no microcode"
  | TAA_MITIGATION_VERW => "Mitigation: Clear CPU buffers"
  | TAA_MITIGATION_TSX_DISABLED => "Mitigation: TSX disabled"
  end.

Definition mmio_strings (m : mmio_mitigations) : string :=
  match m with
  | MMIO_MITIGATION_OFF => "Vulnerable"
  | MMIO_MITIGATION_UCODE_NEEDED => "Vulnerable: Clear CPU buffers attempted, no microcode"
  | MMIO_MITIGATION_VERW => "Mitigation: Clear CPU buffers"
  end.

Definition srbds_strings (m : srbds_mitigations) : string :=
  match m with
  | SRBDS_MITIGATION_OFF => "Vulnerable"
  | SRBDS_MITIGATION_UCODE_NEEDED => "Vulnerable: No microcode"
  | SRBDS_MITIGATION_FULL => "Mitigation: Microcode"
  | SRBDS_MITIGATION_TSX_OFF => "Mitigation: TSX disabled"
  | SRBDS_MITIGATION_HYPERVISOR => "Unknown: Dependent on hypervisor status"
  end.

Definition spectre_v1_strings (m : spectre_v1_mitigation_t) : string :=
  match m with
  | SPECTRE_V1_MITIGATION_NONE =>
      "Vulnerable: Load fences, __user pointer sanitization and usercopy barriers only; no swapgs barriers"
  | SPECTRE_V1_MITIGATION_AUTO =>
      "Mitigation: Load fences, usercopy/swapgs barriers and __user pointer sanitization"
  end.

Definition gds_strings (m : gds_mitigations) : string :=
  match m with
  | GDS_MITIGATION_OFF => "Vulnerable"
  | GDS_MITIGATION_UCODE_NEEDED => "Vulnerable: No microcode"
  | GDS_MITIGATION_FORCE => "Mitigation: AVX disabled, no microcode"
  | GDS_MITIGATION_FULL => "Mitigation: Microcode"
  | GDS_MITIGATION_FULL_LOCKED => "Mitigation: Microcode (locked)"
  | GDS_MITIGATION_HYPERVISOR => "Unknown: Dependent on hypervisor status"
  end.

Definition retbleed_strings (m : retbleed_mitigation_t) : string :=
  match m with
  | RETBLEED_MITIGATION_NONE => "Vulnerable"
  | RETBLEED_MITIGATION_UNRET => "Mitigation: untrained return thunk"
  | RETBLEED_MITIGATION_IBPB => "Mitigation: IBPB"
  | RETBLEED_MITIGATION_IBRS => "Mitigation: IBRS"
  | RETBLEED_MITIGATION_EIBRS => "Mitigation: Enhanced IBRS"
  end.

(** ** What the selectors read: detection facts and constants *)

(** The bit masks of <asm/msr-index.h>.  The header is not part of the
    sources at hand, so the masks are parameters of the development; the
    selectors only test, set and clear them. *)
Record msr_index : Type := {
  ARCH_CAP_MDS_NO : Z;
  ARCH_CAP_TSX_CTRL_MSR : Z;
  ARCH_CAP_FBSDP_NO : Z;
  ARCH_CAP_FB_CLEAR : Z;
  ARCH_CAP_GDS_CTRL : Z;
  RNGDS_MITG_DIS : Z;
  GDS_MITG_DIS : Z;
  GDS_MITG_LOCKED : Z;
  SPEC_CTRL_STIBP : Z
}.

(** The masks as the kernel's header defines them; used to run the model on
    concrete machines. *)
Definition x86_msr_index : msr_index := {|
  ARCH_CAP_MDS_NO := Z.shiftl 1 5;
  ARCH_CAP_TSX_CTRL_MSR := Z.shiftl 1 7;
  ARCH_CAP_FBSDP_NO := Z.shiftl 1 14;
  ARCH_CAP_FB_CLEAR := Z.shiftl 1 17;
  ARCH_CAP_GDS_CTRL := Z.shiftl 1 25;
  RNGDS_MITG_DIS := Z.shiftl 1 0;
  GDS_MITG_DIS := Z.shiftl 1 4;
  GDS_MITG_LOCKED := Z.shiftl 1 5;
  SPEC_CTRL_STIBP := Z.shiftl 1 1
|}.

(** DetectionFacts: everything that is fixed before selection starts.
    [cmdline_find_option_bool] and [cmdline_find_option] stand for the two
    lookups in [boot_command_line] (arch/x86/lib/cmdline.c): the second one
    returns the length of the argument, negative when the option is absent,
    together with the contents of the caller's buffer. *)
Record cpu_facts : Type := {
  cpu_caps : x86_cap -> bool;
  x86_vendor : x86_vendor_t;
  x86_arch_cap_msr : Z;
  cpu_mitigations_off : bool;
  cpu_mitigations_auto_nosmt : bool;
  CONFIG_RETPOLINE : bool;
  cmdline_find_option_bool : string -> bool;
  cmdline_find_option : string -> Z -> Z * string
}.

(** ** The trace of outward effects *)

Inductive loglevel : Type := KERN_ERR | KERN_WARNING | KERN_INFO.

Inductive msr_reg : Type := MSR_IA32_MCU_OPT_CTRL.

Inductive event : Type :=
| Printk (lvl : loglevel) (msg : string)
| WarnOn (what : string)
| SetupForceCpuCap (c : x86_cap)
| SetupClearCpuCap (c : x86_cap)
| CpuSmtDisable (force : bool)
| Wrmsrl (r : msr_reg) (v : Z).

(** ** Static keys *)

(** Modelled from the spec: the jump-label implementation
    (include/linux/jump_label.h) is not among the sources; the spec
    describes the switches [mds_user_clear], [mds_idle_clear] and
    [mmio_stale_data_clear] as reference counts, zero at start, that
    selectors increment and decrement and that are active when the count is
    positive. *)
Definition static_key : Type := Z.
Definition STATIC_KEY_INIT_FALSE : static_key := 0.
Definition static_key_enabled (k : static_key) : bool := 0 <? k.
Definition static_key_slow_inc (k : static_key) : static_key := k + 1.
Definition static_key_slow_dec (k : static_key) : static_key := k - 1.

(** ** The mutable state

    One field per file-scope variable of [bugs.c] that the modelled
    functions touch.  [spectre_v2_enabled] and [x86_spec_ctrl_base] are
    written by the spec_ctrl code, which runs before [retbleed_select_mitigation];
    here they are only read.  [mcu_opt_ctrl] is the content of the
    MSR_IA32_MCU_OPT_CTRL register and [sched_smt_active] the answer of the
    scheduler to [sched_smt_active()].  The four [_once] flags are the
    latches behind [pr_warn_once] and [WARN_ON_ONCE].  [ktrace] lists the
    outward effects, most recent first. *)
Record state : Type := {
  mds_mitigation : mds_mitigations;
  mds_nosmt : bool;
  taa_mitigation : taa_mitigations;
  taa_nosmt : bool;
  mmio_mitigation : mmio_mitigations;
  mmio_nosmt : bool;
  srbds_mitigation : srbds_mitigations;
  srbds_off : bool;
  spectre_v1_mitigation : spectre_v1_mitigation_t;
  spectre_v2_enabled : spectre_v2_mitigation;
  gds_mitigation : gds_mitigations;
  retbleed_mitigation : retbleed_mitigation_t;
  retbleed_cmd : retbleed_mitigation_cmd;
  retbleed_nosmt : bool;
  x86_spec_ctrl_base : Z;
  mds_user_clear : static_key;
  mds_idle_clear : static_key;
  mmio_stale_data_clear : static_key;
  mcu_opt_ctrl : Z;
  sched_smt_active : bool;
  mds_msg_smt_once : bool;
  taa_msg_smt_once : bool;
  mmio_msg_smt_once : bool;
  gds_msr_warn_once : bool;
  ktrace : list event
}.

Definition set_mds_mitigation (v : mds_mitigations) (s : state) : state :=
  {| mds_mitigation := v; mds_nosmt := mds_nosmt s; taa_mitigation :=
     taa_mitigation s; taa_nosmt := taa_nosmt s; mmio_mitigation :=
     mmio_mitigation s; mmio_nosmt := mmio_nosmt s; srbds_mitigation :=
     srbds_mitigation s; srbds_off := srbds_off s; spectre_v1_mitigation :=
     spectre_v1_mitigation s; spectre_v2_enabled := spectre_v2_enabled s;
     gds_mitigation := gds_mitigation s; retbleed_mitigation :=
     retbleed_mitigation s; retbleed_cmd := retbleed_cmd s; retbleed_nosmt
     := retbleed_nosmt s; x86_spec_ctrl_base := x86_spec_ctrl_base s;
     mds_user_clear := mds_user_clear s; mds_idle_clear := mds_idle_clear s;
     mmio_stale_data_clear := mmio_stale_data_clear s; mcu_opt_ctrl :=
     mcu_opt_ctrl s; sched_smt_active := sched_smt_active s;
     mds_msg_smt_once := mds_msg_smt_once s; taa_msg_smt_once :=
     taa_msg_smt_once s; mmio_msg_smt_once := mmio_msg_smt_once s;
     gds_msr_warn_once := gds_msr_warn_once s; ktrace := ktrace s |}.

Definition set_mds_nosmt (v : bool) (s : state) : state :=
  {| mds_mitigation := mds_mitigation s; mds_nosmt := v; taa_mitigation :=
     taa_mitigation s; taa_nosmt := taa_nosmt s; mmio_mitigation :=
     mmio_mitigation s; mmio_nosmt := mmio_nosmt s; srbds_mitigation :=
     srbds_mitigation s; srbds_off := srbds_off s; spectre_v1_mitigation :=
     spectre_v1_mitigation s; spectre_v2_enabled := spectre_v2_enabled s;
     gds_mitigation := gds_mitigation s; retbleed_mitigation :=
     retbleed_mitigation s; retbleed_cmd := retbleed_cmd s; retbleed_nosmt
     := retbleed_nosmt s; x86_spec_ctrl_base := x86_spec_ctrl_base s;
     mds_user_clear := mds_user_clear s; mds_idle_clear := mds_idle_clear s;
     mmio_stale_data_clear := mmio_stale_data_clear s; mcu_opt_ctrl :=
     mcu_opt_ctrl s; sched_smt_active := sched_smt_active s;
     mds_msg_smt_once := mds_msg_smt_once s; taa_msg_smt_once :=
     taa_msg_smt_once s; mmio_msg_smt_once := mmio_msg_smt_once s;
     gds_msr_warn_once := gds_msr_warn_once s; ktrace := ktrace s |}.

Definition set_taa_mitigation (v : taa_mitigations) (s : state) : state :=
  {| mds_mitigation := mds_mitigation s; mds_nosmt := mds_nosmt s;
     taa_mitigation := v; taa_nosmt := taa_nosmt s; mmio_mitigation :=
     mmio_mitigation s; mmio_nosmt := mmio_nosmt s; srbds_mitigation :=
     srbds_mitigation s; srbds_off := srbds_off s; spectre_v1_mitigation :=
     spectre_v1_mitigation s; spectre_v2_enabled := spectre_v2_enabled s;
     gds_mitigation := gds_mitigation s; retbleed_mitigation :=
     retbleed_mitigation s; retbleed_cmd := retbleed_cmd s; retbleed_nosmt
     := retbleed_nosmt s; x86_spec_ctrl_base := x86_spec_ctrl_base s;
     mds_user_clear := mds_user_clear s; mds_idle_clear := mds_idle_clear s;
     mmio_stale_data_clear := mmio_stale_data_clear s; mcu_opt_ctrl :=
     mcu_opt_ctrl s; sched_smt_active := sched_smt_active s;
     mds_msg_smt_once := mds_msg_smt_once s; taa_msg_smt_once :=
     taa_msg_smt_once s; mmio_msg_smt_once := mmio_msg_smt_once s;
     gds_msr_warn_once := gds_msr_warn_once s; ktrace := ktrace s |}.

Definition set_taa_nosmt (v : bool) (s : state) : state :=
  {| mds_mitigation := mds_mitigation s; mds_nosmt := mds_nosmt s;
     taa_mitigation := taa_mitigation s; taa_nosmt := v; mmio_mitigation :=
     mmio_mitigation s; mmio_nosmt := mmio_nosmt s; srbds_mitigation :=
     srbds_mitigation s; srbds_off := srbds_off s; spectre_v1_mitigation :=
     spectre_v1_mitigation s; spectre_v2_enabled := spectre_v2_enabled s;
     gds_mitigation := gds_mitigation s; retbleed_mitigation :=
     retbleed_mitigation s; retbleed_cmd := retbleed_cmd s; retbleed_nosmt
     := retbleed_nosmt s; x86_spec_ctrl_base := x86_spec_ctrl_base s;
     mds_user_clear := mds_user_clear s; mds_idle_clear := mds_idle_clear s;
     mmio_stale_data_clear := mmio_stale_data_clear s; mcu_opt_ctrl :=
     mcu_opt_ctrl s; sched_smt_active := sched_smt_active s;
     mds_msg_smt_once := mds_msg_smt_once s; taa_msg_smt_once :=
     taa_msg_smt_once s; mmio_msg_smt_once := mmio_msg_smt_once s;
     gds_msr_warn_once := gds_msr_warn_once s; ktrace := ktrace s |}.

Definition set_mmio_mitigation (v : mmio_mitigations) (s : state) : state :=
  {| mds_mitigation := mds_mitigation s; mds_nosmt := mds_nosmt s;
     taa_mitigation := taa_mitigation s; taa_nosmt := taa_nosmt s;
     mmio_mitigation := v; mmio_nosmt := mmio_nosmt s; srbds_mitigation :=
     srbds_mitigation s; srbds_off := srbds_off s; spectre_v1_mitigation :=
     spectre_v1_mitigation s; spectre_v2_enabled := spectre_v2_enabled s;
     gds_mitigation := gds_mitigation s; retbleed_mitigation :=
     retbleed_mitigation s; retbleed_cmd := retbleed_cmd s; retbleed_nosmt
     := retbleed_nosmt s; x86_spec_ctrl_base := x86_spec_ctrl_base s;
     mds_user_clear := mds_user_clear s; mds_idle_clear := mds_idle_clear s;
     mmio_stale_data_clear := mmio_stale_data_clear s; mcu_opt_ctrl :=
     mcu_opt_ctrl s; sched_smt_active := sched_smt_active s;
     mds_msg_smt_once := mds_msg_smt_once s; taa_msg_smt_once :=
     taa_msg_smt_once s; mmio_msg_smt_once := mmio_msg_smt_once s;
     gds_msr_warn_once := gds_msr_warn_once s; ktrace := ktrace s |}.

Definition set_mmio_nosmt (v : bool) (s : state) : state :=
  {| mds_mitigation := mds_mitigation s; mds_nosmt := mds_nosmt s;
     taa_mitigation := taa_mitigation s; taa_nosmt := taa_nosmt s;
     mmio_mitigation := mmio_mitigation s; mmio_nosmt := v; srbds_mitigation
     := srbds_mitigation s; srbds_off := srbds_off s; spectre_v1_mitigation
     := spectre_v1_mitigation s; spectre_v2_enabled := spectre_v2_enabled s;
     gds_mitigation := gds_mitigation s; retbleed_mitigation :=
     retbleed_mitigation s; retbleed_cmd := retbleed_cmd s; retbleed_nosmt
     := retbleed_nosmt s; x86_spec_ctrl_base := x86_spec_ctrl_base s;
     mds_user_clear := mds_user_clear s; mds_idle_clear := mds_idle_clear s;
     mmio_stale_data_clear := mmio_stale_data_clear s; mcu_opt_ctrl :=
     mcu_opt_ctrl s; sched_smt_active := sched_smt_active s;
     mds_msg_smt_once := mds_msg_smt_once s; taa_msg_smt_once :=
     taa_msg_smt_once s; mmio_msg_smt_once := mmio_msg_smt_once s;
     gds_msr_warn_once := gds_msr_warn_once s; ktrace := ktrace s |}.

Definition set_srbds_mitigation (v : srbds_mitigations) (s : state) : state :=
  {| mds_mitigation := mds_mitigation s; mds_nosmt := mds_nosmt s;
     taa_mitigation := taa_mitigation s; taa_nosmt := taa_nosmt s;
     mmio_mitigation := mmio_mitigation s; mmio_nosmt := mmio_nosmt s;
     srbds_mitigation := v; srbds_off := srbds_off s; spectre_v1_mitigation
     := spectre_v1_mitigation s; spectre_v2_enabled := spectre_v2_enabled s;
     gds_mitigation := gds_mitigation s; retbleed_mitigation :=
     retbleed_mitigation s; retbleed_cmd := retbleed_cmd s; retbleed_nosmt
     := retbleed_nosmt s; x86_spec_ctrl_base := x86_spec_ctrl_base s;
     mds_user_clear := mds_user_clear s; mds_idle_clear := mds_idle_clear s;
     mmio_stale_data_clear := mmio_stale_data_clear s; mcu_opt_ctrl :=
     mcu_opt_ctrl s; sched_smt_active := sched_smt_active s;
     mds_msg_smt_once := mds_msg_smt_once s; taa_msg_smt_once :=
     taa_msg_smt_once s; mmio_msg_smt_once := mmio_msg_smt_once s;
     gds_msr_warn_once := gds_msr_warn_once s; ktrace := ktrace s |}.

Definition set_srbds_off (v : bool) (s : state) : state :=
  {| mds_mitigation := mds_mitigation s; mds_nosmt := mds_nosmt s;
     taa_mitigation := taa_mitigation s; taa_nosmt := taa_nosmt s;
     mmio_mitigation := mmio_mitigation s; mmio_nosmt := mmio_nosmt s;
     srbds_mitigation := srbds_mitigation s; srbds_off := v;
     spectre_v1_mitigation := spectre_v1_mitigation s; spectre_v2_enabled :=
     spectre_v2_enabled s; gds_mitigation := gds_mitigation s;
     retbleed_mitigation := retbleed_mitigation s; retbleed_cmd :=
     retbleed_cmd s; retbleed_nosmt := retbleed_nosmt s; x86_spec_ctrl_base
     := x86_spec_ctrl_base s; mds_user_clear := mds_user_clear s;
     mds_idle_clear := mds_idle_clear s; mmio_stale_data_clear :=
     mmio_stale_data_clear s; mcu_opt_ctrl := mcu_opt_ctrl s;
     sched_smt_active := sched_smt_active s; mds_msg_smt_once :=
     mds_msg_smt_once s; taa_msg_smt_once := taa_msg_smt_once s;
     mmio_msg_smt_once := mmio_msg_smt_once s; gds_msr_warn_once :=
     gds_msr_warn_once s; ktrace := ktrace s |}.

Definition set_spectre_v1_mitigation (v : spectre_v1_mitigation_t) (s : state) : state :=
  {| mds_mitigation := mds_mitigation s; mds_nosmt := mds_nosmt s;
     taa_mitigation := taa_mitigation s; taa_nosmt := taa_nosmt s;
     mmio_mitigation := mmio_mitigation s; mmio_nosmt := mmio_nosmt s;
     srbds_mitigation := srbds_mitigation s; srbds_off := srbds_off s;
     spectre_v1_mitigation := v; spectre_v2_enabled := spectre_v2_enabled s;
     gds_mitigation := gds_mitigation s; retbleed_mitigation :=
     retbleed_mitigation s; retbleed_cmd := retbleed_cmd s; retbleed_nosmt
     := retbleed_nosmt s; x86_spec_ctrl_base := x86_spec_ctrl_base s;
     mds_user_clear := mds_user_clear s; mds_idle_clear := mds_idle_clear s;
     mmio_stale_data_clear := mmio_stale_data_clear s; mcu_opt_ctrl :=
     mcu_opt_ctrl s; sched_smt_active := sched_smt_active s;
     mds_msg_smt_once := mds_msg_smt_once s; taa_msg_smt_once :=
     taa_msg_smt_once s; mmio_msg_smt_once := mmio_msg_smt_once s;
     gds_msr_warn_once := gds_msr_warn_once s; ktrace := ktrace s |}.

Definition set_gds_mitigation (v : gds_mitigations) (s : state) : state :=
  {| mds_mitigation := mds_mitigation s; mds_nosmt := mds_nosmt s;
     taa_mitigation := taa_mitigation s; taa_nosmt := taa_nosmt s;
     mmio_mitigation := mmio_mitigation s; mmio_nosmt := mmio_nosmt s;
     srbds_mitigation := srbds_mitigation s; srbds_off := srbds_off s;
     spectre_v1_mitigation := spectre_v1_mitigation s; spectre_v2_enabled :=
     spectre_v2_enabled s; gds_mitigation := v; retbleed_mitigation :=
     retbleed_mitigation s; retbleed_cmd := retbleed_cmd s; retbleed_nosmt
     := retbleed_nosmt s; x86_spec_ctrl_base := x86_spec_ctrl_base s;
     mds_user_clear := mds_user_clear s; mds_idle_clear := mds_idle_clear s;
     mmio_stale_data_clear := mmio_stale_data_clear s; mcu_opt_ctrl :=
     mcu_opt_ctrl s; sched_smt_active := sched_smt_active s;
     mds_msg_smt_once := mds_msg_smt_once s; taa_msg_smt_once :=
     taa_msg_smt_once s; mmio_msg_smt_once := mmio_msg_smt_once s;
     gds_msr_warn_once := gds_msr_warn_once s; ktrace := ktrace s |}.

Definition set_retbleed_mitigation (v : retbleed_mitigation_t) (s : state) : state :=
  {| mds_mitigation := mds_mitigation s; mds_nosmt := mds_nosmt s;
     taa_mitigation := taa_mitigation s; taa_nosmt := taa_nosmt s;
     mmio_mitigation := mmio_mitigation s; mmio_nosmt := mmio_nosmt s;
     srbds_mitigation := srbds_mitigation s; srbds_off := srbds_off s;
     spectre_v1_mitigation := spectre_v1_mitigation s; spectre_v2_enabled :=
     spectre_v2_enabled s; gds_mitigation := gds_mitigation s;
     retbleed_mitigation := v; retbleed_cmd := retbleed_cmd s;
     retbleed_nosmt := retbleed_nosmt s; x86_spec_ctrl_base :=
     x86_spec_ctrl_base s; mds_user_clear := mds_user_clear s;
     mds_idle_clear := mds_idle_clear s; mmio_stale_data_clear :=
     mmio_stale_data_clear s; mcu_opt_ctrl := mcu_opt_ctrl s;
     sched_smt_active := sched_smt_active s; mds_msg_smt_once :=
     mds_msg_smt_once s; taa_msg_smt_once := taa_msg_smt_once s;
     mmio_msg_smt_once := mmio_msg_smt_once s; gds_msr_warn_once :=
     gds_msr_warn_once s; ktrace := ktrace s |}.

Definition set_retbleed_cmd (v : retbleed_mitigation_cmd) (s : state) : state :=
  {| mds_mitigation := mds_mitigation s; mds_nosmt := mds_nosmt s;
     taa_mitigation := taa_mitigation s; taa_nosmt := taa_nosmt s;
     mmio_mitigation := mmio_mitigation s; mmio_nosmt := mmio_nosmt s;
     srbds_mitigation := srbds_mitigation s; srbds_off := srbds_off s;
     spectre_v1_mitigation := spectre_v1_mitigation s; spectre_v2_enabled :=
     spectre_v2_enabled s; gds_mitigation := gds_mitigation s;
     retbleed_mitigation := retbleed_mitigation s; retbleed_cmd := v;
     retbleed_nosmt := retbleed_nosmt s; x86_spec_ctrl_base :=
     x86_spec_ctrl_base s; mds_user_clear := mds_user_clear s;
     mds_idle_clear := mds_idle_clear s; mmio_stale_data_clear :=
     mmio_stale_data_clear s; mcu_opt_ctrl := mcu_opt_ctrl s;
     sched_smt_active := sched_smt_active s; mds_msg_smt_once :=
     mds_msg_smt_once s; taa_msg_smt_once := taa_msg_smt_once s;
     mmio_msg_smt_once := mmio_msg_smt_once s; gds_msr_warn_once :=
     gds_msr_warn_once s; ktrace := ktrace s |}.

Definition set_retbleed_nosmt (v : bool) (s : state) : state :=
  {| mds_mitigation := mds_mitigation s; mds_nosmt := mds_nosmt s;
     taa_mitigation := taa_mitigation s; taa_nosmt := taa_nosmt s;
     mmio_mitigation := mmio_mitigation s; mmio_nosmt := mmio_nosmt s;
     srbds_mitigation := srbds_mitigation s; srbds_off := srbds_off s;
     spectre_v1_mitigation := spectre_v1_mitigation s; spectre_v2_enabled :=
     spectre_v2_enabled s; gds_mitigation := gds_mitigation s;
     retbleed_mitigation := retbleed_mitigation s; retbleed_cmd :=
     retbleed_cmd s; retbleed_nosmt := v; x86_spec_ctrl_base :=
     x86_spec_ctrl_base s; mds_user_clear := mds_user_clear s;
     mds_idle_clear := mds_idle_clear s; mmio_stale_data_clear :=
     mmio_stale_data_clear s; mcu_opt_ctrl := mcu_opt_ctrl s;
     sched_smt_active := sched_smt_active s; mds_msg_smt_once :=
     mds_msg_smt_once s; taa_msg_smt_once := taa_msg_smt_once s;
     mmio_msg_smt_once := mmio_msg_smt_once s; gds_msr_warn_once :=
     gds_msr_warn_once s; ktrace := ktrace s |}.

Definition set_mds_user_clear (v : static_key) (s : state) : state :=
  {| mds_mitigation := mds_mitigation s; mds_nosmt := mds_nosmt s;
     taa_mitigation := taa_mitigation s; taa_nosmt := taa_nosmt s;
     mmio_mitigation := mmio_mitigation s; mmio_nosmt := mmio_nosmt s;
     srbds_mitigation := srbds_mitigation s; srbds_off := srbds_off s;
     spectre_v1_mitigation := spectre_v1_mitigation s; spectre_v2_enabled :=
     spectre_v2_enabled s; gds_mitigation := gds_mitigation s;
     retbleed_mitigation := retbleed_mitigation s; retbleed_cmd :=
     retbleed_cmd s; retbleed_nosmt := retbleed_nosmt s; x86_spec_ctrl_base
     := x86_spec_ctrl_base s; mds_user_clear := v; mds_idle_clear :=
     mds_idle_clear s; mmio_stale_data_clear := mmio_stale_data_clear s;
     mcu_opt_ctrl := mcu_opt_ctrl s; sched_smt_active := sched_smt_active s;
     mds_msg_smt_once := mds_msg_smt_once s; taa_msg_smt_once :=
     taa_msg_smt_once s; mmio_msg_smt_once := mmio_msg_smt_once s;
     gds_msr_warn_once := gds_msr_warn_once s; ktrace := ktrace s |}.

Definition set_mds_idle_clear (v : static_key) (s : state) : state :=
  {| mds_mitigation := mds_mitigation s; mds_nosmt := mds_nosmt s;
     taa_mitigation := taa_mitigation s; taa_nosmt := taa_nosmt s;
     mmio_mitigation := mmio_mitigation s; mmio_nosmt := mmio_nosmt s;
     srbds_mitigation := srbds_mitigation s; srbds_off := srbds_off s;
     spectre_v1_mitigation := spectre_v1_mitigation s; spectre_v2_enabled :=
     spectre_v2_enabled s; gds_mitigation := gds_mitigation s;
     retbleed_mitigation := retbleed_mitigation s; retbleed_cmd :=
     retbleed_cmd s; retbleed_nosmt := retbleed_nosmt s; x86_spec_ctrl_base
     := x86_spec_ctrl_base s; mds_user_clear := mds_user_clear s;
     mds_idle_clear := v; mmio_stale_data_clear := mmio_stale_data_clear s;
     mcu_opt_ctrl := mcu_opt_ctrl s; sched_smt_active := sched_smt_active s;
     mds_msg_smt_once := mds_msg_smt_once s; taa_msg_smt_once :=
     taa_msg_smt_once s; mmio_msg_smt_once := mmio_msg_smt_once s;
     gds_msr_warn_once := gds_msr_warn_once s; ktrace := ktrace s |}.

Definition set_mmio_stale_data_clear (v : static_key) (s : state) : state :=
  {| mds_mitigation := mds_mitigation s; mds_nosmt := mds_nosmt s;
     taa_mitigation := taa_mitigation s; taa_nosmt := taa_nosmt s;
     mmio_mitigation := mmio_mitigation s; mmio_nosmt := mmio_nosmt s;
     srbds_mitigation := srbds_mitigation s; srbds_off := srbds_off s;
     spectre_v1_mitigation := spectre_v1_mitigation s; spectre_v2_enabled :=
     spectre_v2_enabled s; gds_mitigation := gds_mitigation s;
     retbleed_mitigation := retbleed_mitigation s; retbleed_cmd :=
     retbleed_cmd s; retbleed_nosmt := retbleed_nosmt s; x86_spec_ctrl_base
     := x86_spec_ctrl_base s; mds_user_clear := mds_user_clear s;
     mds_idle_clear := mds_idle_clear s; mmio_stale_data_clear := v;
     mcu_opt_ctrl := mcu_opt_ctrl s; sched_smt_active := sched_smt_active s;
     mds_msg_smt_once := mds_msg_smt_once s; taa_msg_smt_once :=
     taa_msg_smt_once s; mmio_msg_smt_once := mmio_msg_smt_once s;
     gds_msr_warn_once := gds_msr_warn_once s; ktrace := ktrace s |}.

Definition set_mcu_opt_ctrl (v : Z) (s : state) : state :=
  {| mds_mitigation := mds_mitigation s; mds_nosmt := mds_nosmt s;
     taa_mitigation := taa_mitigation s; taa_nosmt := taa_nosmt s;
     mmio_mitigation := mmio_mitigation s; mmio_nosmt := mmio_nosmt s;
     srbds_mitigation := srbds_mitigation s; srbds_off := srbds_off s;
     spectre_v1_mitigation := spectre_v1_mitigation s; spectre_v2_enabled :=
     spectre_v2_enabled s; gds_mitigation := gds_mitigation s;
     retbleed_mitigation := retbleed_mitigation s; retbleed_cmd :=
     retbleed_cmd s; retbleed_nosmt := retbleed_nosmt s; x86_spec_ctrl_base
     := x86_spec_ctrl_base s; mds_user_clear := mds_user_clear s;
     mds_idle_clear := mds_idle_clear s; mmio_stale_data_clear :=
     mmio_stale_data_clear s; mcu_opt_ctrl := v; sched_smt_active :=
     sched_smt_active s; mds_msg_smt_once := mds_msg_smt_once s;
     taa_msg_smt_once := taa_msg_smt_once s; mmio_msg_smt_once :=
     mmio_msg_smt_once s; gds_msr_warn_once := gds_msr_warn_once s; ktrace
     := ktrace s |}.

Definition set_sched_smt_active (v : bool) (s : state) : state :=
  {| mds_mitigation := mds_mitigation s; mds_nosmt := mds_nosmt s;
     taa_mitigation := taa_mitigation s; taa_nosmt := taa_nosmt s;
     mmio_mitigation := mmio_mitigation s; mmio_nosmt := mmio_nosmt s;
     srbds_mitigation := srbds_mitigation s; srbds_off := srbds_off s;
     spectre_v1_mitigation := spectre_v1_mitigation s; spectre_v2_enabled :=
     spectre_v2_enabled s; gds_mitigation := gds_mitigation s;
     retbleed_mitigation := retbleed_mitigation s; retbleed_cmd :=
     retbleed_cmd s; retbleed_nosmt := retbleed_nosmt s; x86_spec_ctrl_base
     := x86_spec_ctrl_base s; mds_user_clear := mds_user_clear s;
     mds_idle_clear := mds_idle_clear s; mmio_stale_data_clear :=
     mmio_stale_data_clear s; mcu_opt_ctrl := mcu_opt_ctrl s;
     sched_smt_active := v; mds_msg_smt_once := mds_msg_smt_once s;
     taa_msg_smt_once := taa_msg_smt_once s; mmio_msg_smt_once :=
     mmio_msg_smt_once s; gds_msr_warn_once := gds_msr_warn_once s; ktrace
     := ktrace s |}.

Definition set_mds_msg_smt_once (v : bool) (s : state) : state :=
  {| mds_mitigation := mds_mitigation s; mds_nosmt := mds_nosmt s;
     taa_mitigation := taa_mitigation s; taa_nosmt := taa_nosmt s;
     mmio_mitigation := mmio_mitigation s; mmio_nosmt := mmio_nosmt s;
     srbds_mitigation := srbds_mitigation s; srbds_off := srbds_off s;
     spectre_v1_mitigation := spectre_v1_mitigation s; spectre_v2_enabled :=
     spectre_v2_enabled s; gds_mitigation := gds_mitigation s;
     retbleed_mitigation := retbleed_mitigation s; retbleed_cmd :=
     retbleed_cmd s; retbleed_nosmt := retbleed_nosmt s; x86_spec_ctrl_base
     := x86_spec_ctrl_base s; mds_user_clear := mds_user_clear s;
     mds_idle_clear := mds_idle_clear s; mmio_stale_data_clear :=
     mmio_stale_data_clear s; mcu_opt_ctrl := mcu_opt_ctrl s;
     sched_smt_active := sched_smt_active s; mds_msg_smt_once := v;
     taa_msg_smt_once := taa_msg_smt_once s; mmio_msg_smt_once :=
     mmio_msg_smt_once s; gds_msr_warn_once := gds_msr_warn_once s; ktrace
     := ktrace s |}.

Definition set_taa_msg_smt_once (v : bool) (s : state) : state :=
  {| mds_mitigation := mds_mitigation s; mds_nosmt := mds_nosmt s;
     taa_mitigation := taa_mitigation s; taa_nosmt := taa_nosmt s;
     mmio_mitigation := mmio_mitigation s; mmio_nosmt := mmio_nosmt s;
     srbds_mitigation := srbds_mitigation s; srbds_off := srbds_off s;
     spectre_v1_mitigation := spectre_v1_mitigation s; spectre_v2_enabled :=
     spectre_v2_enabled s; gds_mitigation := gds_mitigation s;
     retbleed_mitigation := retbleed_mitigation s; retbleed_cmd :=
     retbleed_cmd s; retbleed_nosmt := retbleed_nosmt s; x86_spec_ctrl_base
     := x86_spec_ctrl_base s; mds_user_clear := mds_user_clear s;
     mds_idle_clear := mds_idle_clear s; mmio_stale_data_clear :=
     mmio_stale_data_clear s; mcu_opt_ctrl := mcu_opt_ctrl s;
     sched_smt_active := sched_smt_active s; mds_msg_smt_once :=
     mds_msg_smt_once s; taa_msg_smt_once := v; mmio_msg_smt_once :=
     mmio_msg_smt_once s; gds_msr_warn_once := gds_msr_warn_once s; ktrace
     := ktrace s |}.

Definition set_mmio_msg_smt_once (v : bool) (s : state) : state :=
  {| mds_mitigation := mds_mitigation s; mds_nosmt := mds_nosmt s;
     taa_mitigation := taa_mitigation s; taa_nosmt := taa_nosmt s;
     mmio_mitigation := mmio_mitigation s; mmio_nosmt := mmio_nosmt s;
     srbds_mitigation := srbds_mitigation s; srbds_off := srbds_off s;
     spectre_v1_mitigation := spectre_v1_mitigation s; spectre_v2_enabled :=
     spectre_v2_enabled s; gds_mitigation := gds_mitigation s;
     retbleed_mitigation := retbleed_mitigation s; retbleed_cmd :=
     retbleed_cmd s; retbleed_nosmt := retbleed_nosmt s; x86_spec_ctrl_base
     := x86_spec_ctrl_base s; mds_user_clear := mds_user_clear s;
     mds_idle_clear := mds_idle_clear s; mmio_stale_data_clear :=
     mmio_stale_data_clear s; mcu_opt_ctrl := mcu_opt_ctrl s;
     sched_smt_active := sched_smt_active s; mds_msg_smt_once :=
     mds_msg_smt_once s; taa_msg_smt_once := taa_msg_smt_once s;
     mmio_msg_smt_once := v; gds_msr_warn_once := gds_msr_warn_once s;
     ktrace := ktrace s |}.

Definition set_gds_msr_warn_once (v : bool) (s : state) : state :=
  {| mds_mitigation := mds_mitigation s; mds_nosmt := mds_nosmt s;
     taa_mitigation := taa_mitigation s; taa_nosmt := taa_nosmt s;
     mmio_mitigation := mmio_mitigation s; mmio_nosmt := mmio_nosmt s;
     srbds_mitigation := srbds_mitigation s; srbds_off := srbds_off s;
     spectre_v1_mitigation := spectre_v1_mitigation s; spectre_v2_enabled :=
     spectre_v2_enabled s; gds_mitigation := gds_mitigation s;
     retbleed_mitigation := retbleed_mitigation s; retbleed_cmd :=
     retbleed_cmd s; retbleed_nosmt := retbleed_nosmt s; x86_spec_ctrl_base
     := x86_spec_ctrl_base s; mds_user_clear := mds_user_clear s;
     mds_idle_clear := mds_idle_clear s; mmio_stale_data_clear :=
     mmio_stale_data_clear s; mcu_opt_ctrl := mcu_opt_ctrl s;
     sched_smt_active := sched_smt_active s; mds_msg_smt_once :=
     mds_msg_smt_once s; taa_msg_smt_once := taa_msg_smt_once s;
     mmio_msg_smt_once := mmio_msg_smt_once s; gds_msr_warn_once := v;
     ktrace := ktrace s |}.

Definition set_ktrace (v : list event) (s : state) : state :=
  {| mds_mitigation := mds_mitigation s; mds_nosmt := mds_nosmt s;
     taa_mitigation := taa_mitigation s; taa_nosmt := taa_nosmt s;
     mmio_mitigation := mmio_mitigation s; mmio_nosmt := mmio_nosmt s;
     srbds_mitigation := srbds_mitigation s; srbds_off := srbds_off s;
     spectre_v1_mitigation := spectre_v1_mitigation s; spectre_v2_enabled :=
     spectre_v2_enabled s; gds_mitigation := gds_mitigation s;
     retbleed_mitigation := retbleed_mitigation s; retbleed_cmd :=
     retbleed_cmd s; retbleed_nosmt := retbleed_nosmt s; x86_spec_ctrl_base
     := x86_spec_ctrl_base s; mds_user_clear := mds_user_clear s;
     mds_idle_clear := mds_idle_clear s; mmio_stale_data_clear :=
     mmio_stale_data_clear s; mcu_opt_ctrl := mcu_opt_ctrl s;
     sched_smt_active := sched_smt_active s; mds_msg_smt_once :=
     mds_msg_smt_once s; taa_msg_smt_once := taa_msg_smt_once s;
     mmio_msg_smt_once := mmio_msg_smt_once s; gds_msr_warn_once :=
     gds_msr_warn_once s; ktrace := v |}.

(** ** Primitive effects *)

Definition emit (e : event) (s : state) : state :=
  set_ktrace (e :: ktrace s) s.

(** Modelled from the spec: printk is the diagnostics sink, which accepts
    leveled, formatted status lines.  The message carries the [pr_fmt]
    prefix in force at the call. *)
Definition pr_err (msg : string) : state -> state := emit (Printk KERN_ERR msg).
Definition pr_warn (msg : string) : state -> state := emit (Printk KERN_WARNING msg).
Definition pr_info (msg : string) : state -> state := emit (Printk KERN_INFO msg).

(** Modelled from the spec: forcing or clearing a capability bit of the boot
    CPU (arch/x86/kernel/cpu/common.c) is an effect on the feature flags;
    none of the bits forced here is tested by a selector, so the request is
    recorded in the trace. *)
Definition setup_force_cpu_cap (c : x86_cap) : state -> state :=
  emit (SetupForceCpuCap c).
Definition setup_clear_cpu_cap (c : x86_cap) : state -> state :=
  emit (SetupClearCpuCap c).

(** Modelled from the spec: the scheduler/topology collaborator accepts
    "request SMT disabled" with a force flag; the request is advisory and
    is recorded in the trace. *)
Definition cpu_smt_disable (force : bool) : state -> state :=
  emit (CpuSmtDisable force).

(** Modelled from the spec: the register primitive is a synchronous get/set
    of a control-register value.  MSR_IA32_MCU_OPT_CTRL holds the field
    [mcu_opt_ctrl]; every write is traced. *)
Definition rdmsrl (r : msr_reg) (s : state) : Z :=
  match r with MSR_IA32_MCU_OPT_CTRL => mcu_opt_ctrl s end.

Definition wrmsrl (r : msr_reg) (v : Z) (s : state) : state :=
  match r with
  | MSR_IA32_MCU_OPT_CTRL => emit (Wrmsrl r v) (set_mcu_opt_ctrl v s)
  end.

(** [when b f] runs [f] under the guard [b]: the C statement [if (b) f();]. *)
Definition when (b : bool) (f : state -> state) (s : state) : state :=
  if b then f s else s.

(** [x & MASK] as a C truth value. *)
Definition tst (x mask : Z) : bool := negb (Z.land x mask =? 0).

(** Decidable equality on the choice enums, for the [==] tests of the
    source. *)
Definition mds_eqb (a b : mds_mitigations) : bool :=
  match a, b with
  | MDS_MITIGATION_OFF, MDS_MITIGATION_OFF
  | MDS_MITIGATION_FULL, MDS_MITIGATION_FULL
  | MDS_MITIGATION_VMWERV, MDS_MITIGATION_VMWERV => true
  | _, _ => false
  end.

Definition taa_eqb (a b : taa_mitigations) : bool :=
  match a, b with
  | TAA_MITIGATION_OFF, TAA_MITIGATION_OFF
  | TAA_MITIGATION_UCODE_NEEDED, TAA_MITIGATION_UCODE_NEEDED
  | TAA_MITIGATION_VERW, TAA_MITIGATION_VERW
  | TAA_MITIGATION_TSX_DISABLED, TAA_MITIGATION_TSX_DISABLED => true
  | _, _ => false
  end.

Definition mmio_eqb (a b : mmio_mitigations) : bool :=
  match a, b with
  | MMIO_MITIGATION_OFF, MMIO_MITIGATION_OFF
  | MMIO_MITIGATION_UCODE_NEEDED, MMIO_MITIGATION_UCODE_NEEDED
  | MMIO_MITIGATION_VERW, MMIO_MITIGATION_VERW => true
  | _, _ => false
  end.

Definition vendor_eqb (a b : x86_vendor_t) : bool :=
  match a, b with
  | X86_VENDOR_INTEL, X86_VENDOR_INTEL
  | X86_VENDOR_AMD, X86_VENDOR_AMD
  | X86_VENDOR_OTHER, X86_VENDOR_OTHER => true
  | _, _ => false
  end.

(** ** The selectors *)

Section Selectors.

Variable K : msr_index.
Variable hw : cpu_facts.

Definition boot_cpu_has (c : x86_cap) : bool := cpu_caps hw c.
Definition boot_cpu_has_bug (c : x86_cap) : bool := cpu_caps hw c.
Definition x86_read_arch_cap_msr : Z := x86_arch_cap_msr hw.

(** *** MDS *)

Definition mds_select_mitigation (s : state) : state :=
  if negb (boot_cpu_has_bug X86_BUG_MDS) || cpu_mitigations_off hw then
    set_mds_mitigation MDS_MITIGATION_OFF s
  else if mds_eqb (mds_mitigation s) MDS_MITIGATION_FULL then
    let s := when (negb (boot_cpu_has X86_FEATURE_MD_CLEAR))
                  (set_mds_mitigation MDS_MITIGATION_VMWERV) s in
    let s := set_mds_user_clear (static_key_slow_inc (mds_user_clear s)) s in
    when (negb (boot_cpu_has X86_BUG_MSBDS_ONLY) &&
          (mds_nosmt s || cpu_mitigations_auto_nosmt hw))
         (cpu_smt_disable false) s
  else s.

(** *** TAA *)

Definition taa_select_mitigation (s : state) : state :=
  if negb (boot_cpu_has_bug X86_BUG_TAA) then
    set_taa_mitigation TAA_MITIGATION_OFF s
  else if negb (boot_cpu_has X86_FEATURE_RTM) then
    (* TSX previously disabled by tsx=off *)
    set_taa_mitigation TAA_MITIGATION_TSX_DISABLED s
  else if cpu_mitigations_off hw then
    set_taa_mitigation TAA_MITIGATION_OFF s
  else if taa_eqb (taa_mitigation s) TAA_MITIGATION_OFF &&
          mds_eqb (mds_mitigation s) MDS_MITIGATION_OFF then
    (* both tsx_async_abort=off and mds=off *)
    s
  else
    let s := if boot_cpu_has X86_FEATURE_MD_CLEAR
             then set_taa_mitigation TAA_MITIGATION_VERW s
             else set_taa_mitigation TAA_MITIGATION_UCODE_NEEDED s in
    let ia32_cap := x86_read_arch_cap_msr in
    let s := when (tst ia32_cap (ARCH_CAP_MDS_NO K) &&
                   negb (tst ia32_cap (ARCH_CAP_TSX_CTRL_MSR K)))
                  (set_taa_mitigation TAA_MITIGATION_UCODE_NEEDED) s in
    let s := set_mds_user_clear (static_key_slow_inc (mds_user_clear s)) s in
    when (taa_nosmt s || cpu_mitigations_auto_nosmt hw)
         (cpu_smt_disable false) s.

(** *** MMIO Stale Data *)

Definition mmio_select_mitigation (s : state) : state :=
  if negb (boot_cpu_has_bug X86_BUG_MMIO_STALE_DATA) ||
     cpu_mitigations_off hw then
    set_mmio_mitigation MMIO_MITIGATION_OFF s
  else if mmio_eqb (mmio_mitigation s) MMIO_MITIGATION_OFF then s
  else
    let ia32_cap := x86_read_arch_cap_msr in
    (* host and VMM if also affected by MDS or TAA, otherwise VMM only *)
    let s := if boot_cpu_has_bug X86_BUG_MDS ||
                (boot_cpu_has_bug X86_BUG_TAA && boot_cpu_has X86_FEATURE_RTM)
             then set_mds_user_clear (static_key_slow_inc (mds_user_clear s)) s
             else set_mmio_stale_data_clear
                    (static_key_slow_inc (mmio_stale_data_clear s)) s in
    (* Fill buffer data can reach uncore buffers: clear on idle whatever
       the SMT state *)
    let s := when (negb (tst ia32_cap (ARCH_CAP_FBSDP_NO K)))
                  (fun s => set_mds_idle_clear
                              (static_key_slow_inc (mds_idle_clear s)) s) s in
    let s := if tst ia32_cap (ARCH_CAP_FB_CLEAR K) ||
                (boot_cpu_has X86_FEATURE_MD_CLEAR &&
                 boot_cpu_has X86_FEATURE_FLUSH_L1D &&
                 negb (tst ia32_cap (ARCH_CAP_MDS_NO K)))
             then set_mmio_mitigation MMIO_MITIGATION_VERW s
             else set_mmio_mitigation MMIO_MITIGATION_UCODE_NEEDED s in
    when (mmio_nosmt s || cpu_mitigations_auto_nosmt hw)
         (cpu_smt_disable false) s.

(** *** The MDS/TAA/MMIO update pass *)

Definition md_clear_print (s : state) : state :=
  let s := when (boot_cpu_has_bug X86_BUG_MDS)
             (fun s => pr_info ("MDS: " ++ mds_strings (mds_mitigation s) ++ LF)%string s) s in
  let s := when (boot_cpu_has_bug X86_BUG_TAA)
             (fun s => pr_info ("TAA: " ++ taa_strings (taa_mitigation s) ++ LF)%string s) s in
  when (boot_cpu_has_bug X86_BUG_MMIO_STALE_DATA)
    (fun s => pr_info ("MMIO Stale Data: " ++ mmio_strings (mmio_mitigation s) ++ LF)%string s) s.

Definition md_clear_update_mitigation (s : state) : state :=
  if cpu_mitigations_off hw then s
  else if negb (static_key_enabled (mds_user_clear s)) then
    md_clear_print s                                   (* goto out *)
  else
    (* mds_user_clear is now enabled: update MDS, TAA and MMIO *)
    let s := when (mds_eqb (mds_mitigation s) MDS_MITIGATION_OFF &&
                   boot_cpu_has_bug X86_BUG_MDS)
                  (fun s => mds_select_mitigation
                              (set_mds_mitigation MDS_MITIGATION_FULL s)) s in
    let s := when (taa_eqb (taa_mitigation s) TAA_MITIGATION_OFF &&
                   boot_cpu_has_bug X86_BUG_TAA)
                  (fun s => taa_select_mitigation
                              (set_taa_mitigation TAA_MITIGATION_VERW s)) s in
    let s := when (mmio_eqb (mmio_mitigation s) MMIO_MITIGATION_OFF &&
                   boot_cpu_has_bug X86_BUG_MMIO_STALE_DATA)
                  (fun s => mmio_select_mitigation
                              (set_mmio_mitigation MMIO_MITIGATION_VERW s)) s in
    md_clear_print s.

Definition md_clear_select_mitigation (s : state) : state :=
  let s := mds_select_mitigation s in
  let s := taa_select_mitigation s in
  let s := mmio_select_mitigation s in
  md_clear_update_mitigation s.

(** *** SRBDS *)

Definition update_srbds_msr (s : state) : state :=
  if negb (boot_cpu_has_bug X86_BUG_SRBDS) then s
  else if boot_cpu_has X86_FEATURE_HYPERVISOR then s
  else
    match srbds_mitigation s with
    | SRBDS_MITIGATION_UCODE_NEEDED => s
    | m =>
        let mcu_ctrl := rdmsrl MSR_IA32_MCU_OPT_CTRL s in
        let mcu_ctrl :=
          match m with
          | SRBDS_MITIGATION_OFF | SRBDS_MITIGATION_TSX_OFF =>
              Z.lor mcu_ctrl (RNGDS_MITG_DIS K)
          | SRBDS_MITIGATION_FULL =>
              Z.land mcu_ctrl (Z.lnot (RNGDS_MITG_DIS K))
          | _ => mcu_ctrl
          end in
        wrmsrl MSR_IA32_MCU_OPT_CTRL mcu_ctrl s
    end.

Definition srbds_select_mitigation (s : state) : state :=
  if negb (boot_cpu_has_bug X86_BUG_SRBDS) then s
  else
    let ia32_cap := x86_read_arch_cap_msr in
    let s :=
      if tst ia32_cap (ARCH_CAP_MDS_NO K) &&
         negb (boot_cpu_has X86_FEATURE_RTM) &&
         negb (boot_cpu_has_bug X86_BUG_MMIO_STALE_DATA)
      then set_srbds_mitigation SRBDS_MITIGATION_TSX_OFF s
      else if boot_cpu_has X86_FEATURE_HYPERVISOR
      then set_srbds_mitigation SRBDS_MITIGATION_HYPERVISOR s
      else if negb (boot_cpu_has X86_FEATURE_SRBDS_CTRL)
      then set_srbds_mitigation SRBDS_MITIGATION_UCODE_NEEDED s
      else if cpu_mitigations_off hw || srbds_off s
      then set_srbds_mitigation SRBDS_MITIGATION_OFF s
      else s in
    let s := update_srbds_msr s in
    pr_info ("SRBDS: " ++ srbds_strings (srbds_mitigation s) ++ LF)%string s.

(** *** Spectre v1 *)

Definition smap_works_speculatively : bool :=
  if negb (boot_cpu_has X86_FEATURE_SMAP) then false
  else if boot_cpu_has X86_BUG_CPU_MELTDOWN then false
  else true.

Definition spectre_v1_select_mitigation (s : state) : state :=
  if negb (boot_cpu_has_bug X86_BUG_SPECTRE_V1) || cpu_mitigations_off hw then
    set_spectre_v1_mitigation SPECTRE_V1_MITIGATION_NONE s
  else
    let s :=
      match spectre_v1_mitigation s with
      | SPECTRE_V1_MITIGATION_AUTO =>
          if negb smap_works_speculatively then
            let s := when (boot_cpu_has_bug X86_BUG_SWAPGS)
                       (setup_force_cpu_cap X86_FEATURE_FENCE_SWAPGS_USER) s in
            setup_force_cpu_cap X86_FEATURE_FENCE_SWAPGS_KERNEL s
          else s
      | SPECTRE_V1_MITIGATION_NONE => s
      end in
    pr_info ("Spectre V1 : " ++
             spectre_v1_strings (spectre_v1_mitigation s) ++ LF)%string s.

(** *** GDS *)

Definition gds_ucode_mitigated (s : state) : bool :=
  match gds_mitigation s with
  | GDS_MITIGATION_FULL | GDS_MITIGATION_FULL_LOCKED => true
  | _ => false
  end.

Definition update_gds_msr (s : state) : state :=
  match gds_mitigation s with
  | GDS_MITIGATION_FORCE | GDS_MITIGATION_UCODE_NEEDED
  | GDS_MITIGATION_HYPERVISOR => s
  | m =>
      let mcu_ctrl := rdmsrl MSR_IA32_MCU_OPT_CTRL s in
      let mcu_ctrl :=
        match m with
        | GDS_MITIGATION_OFF => Z.lor mcu_ctrl (GDS_MITG_DIS K)
        | _ => Z.land mcu_ctrl (Z.lnot (GDS_MITG_DIS K))
        end in
      let s := wrmsrl MSR_IA32_MCU_OPT_CTRL mcu_ctrl s in
      (* check that the write was not ignored *)
      let mcu_ctrl_after := rdmsrl MSR_IA32_MCU_OPT_CTRL s in
      when (negb (mcu_ctrl =? mcu_ctrl_after) && negb (gds_msr_warn_once s))
        (fun s => emit (WarnOn "mcu_ctrl != mcu_ctrl_after")
                    (set_gds_msr_warn_once true s)) s
  end.

Definition gds_print (s : state) : state :=
  pr_info ("GDS: " ++ gds_strings (gds_mitigation s) ++ LF)%string s.

Definition GDS_LOCKED_MSG : string :=
  "GDS: Mitigation locked. Disable failed." ++ LF.

Definition gds_select_mitigation (s : state) : state :=
  if negb (boot_cpu_has_bug X86_BUG_GDS) then s
  else if boot_cpu_has X86_FEATURE_HYPERVISOR then
    gds_print (set_gds_mitigation GDS_MITIGATION_HYPERVISOR s)
  else
    let s := when (cpu_mitigations_off hw)
               (set_gds_mitigation GDS_MITIGATION_OFF) s in
    (* will verify below that mitigation _can_ be disabled *)
    if negb (tst x86_read_arch_cap_msr (ARCH_CAP_GDS_CTRL K)) then
      (* no microcode *)
      let s :=
        match gds_mitigation s with
        | GDS_MITIGATION_FORCE =>
            pr_warn ("GDS: Microcode update needed! Disabling AVX as mitigation." ++ LF)%string
              (setup_clear_cpu_cap X86_FEATURE_AVX s)
        | _ => set_gds_mitigation GDS_MITIGATION_UCODE_NEEDED s
        end in
      gds_print s
    else
      (* microcode has mitigation, use it *)
      let s :=
        match gds_mitigation s with
        | GDS_MITIGATION_FORCE => set_gds_mitigation GDS_MITIGATION_FULL s
        | _ => s
        end in
      let mcu_ctrl := rdmsrl MSR_IA32_MCU_OPT_CTRL s in
      let s :=
        if tst mcu_ctrl (GDS_MITG_LOCKED K) then
          let s :=
            match gds_mitigation s with
            | GDS_MITIGATION_OFF => pr_warn GDS_LOCKED_MSG s
            | _ => s
            end in
          set_gds_mitigation GDS_MITIGATION_FULL_LOCKED s
        else s in
      let s := update_gds_msr s in
      gds_print s.

(** *** RETBleed *)

Definition RETBLEED_UNTRAIN_MSG : string :=
  "RETBleed: WARNING: BTB untrained return thunk mitigation is only effective on AMD!" ++ LF.
Definition RETBLEED_COMPILER_MSG : string :=
  "RETBleed: WARNING: kernel not compiled with RETPOLINE or -mfunction-return capable compiler; falling back to IBPB!" ++ LF.
Definition RETBLEED_INTEL_MSG : string :=
  "RETBleed: WARNING: Spectre v2 mitigation leaves CPU vulnerable to RETBleed attacks, data leaks possible!" ++ LF.

(** The [case RETBLEED_CMD_AUTO: default:] arm of the first switch. *)
Definition retbleed_cmd_auto (s : state) : state :=
  if vendor_eqb (x86_vendor hw) X86_VENDOR_AMD then
    if negb (CONFIG_RETPOLINE hw) && boot_cpu_has X86_FEATURE_IBPB
    then set_retbleed_mitigation RETBLEED_MITIGATION_IBPB
           (pr_err RETBLEED_COMPILER_MSG s)
    else set_retbleed_mitigation RETBLEED_MITIGATION_UNRET s
  else s.

(** Everything after the first switch: the effects of the chosen mode, the
    SMT request and the Intel override. *)
Definition retbleed_apply (s : state) : state :=
  let '(s, mitigate_smt) :=
    match retbleed_mitigation s with
    | RETBLEED_MITIGATION_UNRET =>
        let s := setup_force_cpu_cap X86_FEATURE_RETHUNK s in
        let s := setup_force_cpu_cap X86_FEATURE_UNRET s in
        let s := when (negb (vendor_eqb (x86_vendor hw) X86_VENDOR_AMD))
                   (pr_err RETBLEED_UNTRAIN_MSG) s in
        (s, true)
    | RETBLEED_MITIGATION_IBPB =>
        (setup_force_cpu_cap X86_FEATURE_ENTRY_IBPB s, true)
    | _ => (s, false)
    end in
  let s :=
    when (mitigate_smt &&
          (negb (boot_cpu_has X86_FEATURE_STIBP) ||
           negb (tst (x86_spec_ctrl_base s) (SPEC_CTRL_STIBP K))) &&
          (retbleed_nosmt s || cpu_mitigations_auto_nosmt hw))
      (cpu_smt_disable false) s in
  (* let IBRS trump all on Intel *)
  let s :=
    if vendor_eqb (x86_vendor hw) X86_VENDOR_INTEL then
      match spectre_v2_enabled s with
      | SPECTRE_V2_IBRS_ALWAYS | SPECTRE_V2_IBRS =>
          set_retbleed_mitigation RETBLEED_MITIGATION_IBRS s
      | SPECTRE_V2_IBRS_ENHANCED =>
          set_retbleed_mitigation RETBLEED_MITIGATION_EIBRS s
      | _ => pr_err RETBLEED_INTEL_MSG s
      end
    else s in
  pr_info ("RETBleed: " ++ retbleed_strings (retbleed_mitigation s) ++ LF)%string s.

Definition retbleed_select_mitigation (s : state) : state :=
  if negb (boot_cpu_has_bug X86_BUG_RETBLEED) || cpu_mitigations_off hw then s
  else
    match retbleed_cmd s with
    | RETBLEED_CMD_OFF => s
    | RETBLEED_CMD_UNRET =>
        retbleed_apply (set_retbleed_mitigation RETBLEED_MITIGATION_UNRET s)
    | RETBLEED_CMD_IBPB =>
        if boot_cpu_has X86_FEATURE_IBPB then
          retbleed_apply (set_retbleed_mitigation RETBLEED_MITIGATION_IBPB s)
        else
          (* falls through to the AUTO arm *)
          retbleed_apply
            (retbleed_cmd_auto
               (pr_err ("RETBleed: WARNING: CPU does not support IBPB." ++ LF)%string s))
    | RETBLEED_CMD_AUTO => retbleed_apply (retbleed_cmd_auto s)
    end.

(** *** The SMT feedback path *)

Definition MDS_MSG_SMT : string :=
  "MDS CPU bug present and SMT on, data leak possible. See https://www.kernel.org/doc/html/latest/admin-guide/hw-vuln/mds.html for more details." ++ LF.
Definition TAA_MSG_SMT : string :=
  "TAA CPU bug present and SMT on, data leak possible. See https://www.kernel.org/doc/html/latest/admin-guide/hw-vuln/tsx_async_abort.html for more details." ++ LF.
Definition MMIO_MSG_SMT : string :=
  "MMIO Stale Data CPU bug present and SMT on, data leak possible. See https://www.kernel.org/doc/html/latest/admin-guide/hw-vuln/processor_mmio_stale_data.html for more details." ++ LF.

(** Update the static key controlling the MDS CPU buffer clear in idle. *)
Definition update_mds_branch_idle (s : state) : state :=
  let ia32_cap := x86_read_arch_cap_msr in
  if negb (boot_cpu_has X86_BUG_MSBDS_ONLY) then s
  else if sched_smt_active s then
    when (negb (static_key_enabled (mds_idle_clear s)))
      (fun s => set_mds_idle_clear (static_key_slow_inc (mds_idle_clear s)) s) s
  else if mmio_eqb (mmio_mitigation s) MMIO_MITIGATION_OFF ||
          tst ia32_cap (ARCH_CAP_FBSDP_NO K) then
    when (static_key_enabled (mds_idle_clear s))
      (fun s => set_mds_idle_clear (static_key_slow_dec (mds_idle_clear s)) s) s
  else s.

(** [arch_smt_update] runs under [spec_ctrl_mutex]; the model is the
    sequential body, one definition per switch statement. *)
Definition arch_smt_update_mds (s : state) : state :=
  match mds_mitigation s with
  | MDS_MITIGATION_FULL | MDS_MITIGATION_VMWERV =>
      let s := when (sched_smt_active s &&
                     negb (boot_cpu_has X86_BUG_MSBDS_ONLY) &&
                     negb (mds_msg_smt_once s))
                 (fun s => pr_warn MDS_MSG_SMT (set_mds_msg_smt_once true s)) s in
      update_mds_branch_idle s
  | MDS_MITIGATION_OFF => s
  end.

Definition arch_smt_update_taa (s : state) : state :=
  match taa_mitigation s with
  | TAA_MITIGATION_VERW | TAA_MITIGATION_UCODE_NEEDED =>
      when (sched_smt_active s && negb (taa_msg_smt_once s))
        (fun s => pr_warn TAA_MSG_SMT (set_taa_msg_smt_once true s)) s
  | TAA_MITIGATION_TSX_DISABLED | TAA_MITIGATION_OFF => s
  end.

Definition arch_smt_update_mmio (s : state) : state :=
  match mmio_mitigation s with
  | MMIO_MITIGATION_VERW | MMIO_MITIGATION_UCODE_NEEDED =>
      when (sched_smt_active s && negb (mmio_msg_smt_once s))
        (fun s => pr_warn MMIO_MSG_SMT (set_mmio_msg_smt_once true s)) s
  | MMIO_MITIGATION_OFF => s
  end.

Definition arch_smt_update (s : state) : state :=
  arch_smt_update_mmio (arch_smt_update_taa (arch_smt_update_mds s)).

(** A topology change: the scheduler flips its SMT state and calls back
    into [arch_smt_update]. *)
Definition smt_topology_change (active : bool) (s : state) : state :=
  arch_smt_update (set_sched_smt_active active s).


(** The mitigation part of [check_bugs], in its calling order.  The
    Spectre v2, SSB and L1TF selectors sit between these calls; they live
    in or depend on files outside the sources at hand and write none of the
    fields the calls below read, except [spectre_v2_enabled] and
    [x86_spec_ctrl_base], which are taken as already final. *)
Definition check_bugs (s : state) : state :=
  let s := spectre_v1_select_mitigation s in
  let s := retbleed_select_mitigation s in
  let s := md_clear_select_mitigation s in
  let s := srbds_select_mitigation s in
  let s := gds_select_mitigation s in
  arch_smt_update s.

End Selectors.

(** ** Command-line parsing *)

(** C strings are modelled as [string]s without the terminating NUL:
    [!strcmp(a, b)] is [String.eqb a b] and [!strncmp(a, b, n)] compares the
    first [n] characters, or all of them when a string is shorter. *)
Definition streq (a b : string) : bool := String.eqb a b.

Definition strneq (a b : string) (n : nat) : bool :=
  String.eqb (substring 0 n a) (substring 0 n b).

Definition EINVAL : Z := 22.

Section Cmdline.

Variable hw : cpu_facts.

(** *** The early_param handlers; [None] is the NULL pointer *)

Definition mds_cmdline (str : option string) (s : state) : Z * state :=
  if negb (boot_cpu_has_bug hw X86_BUG_MDS) then (0, s)
  else
    match str with
    | None => (- EINVAL, s)
    | Some str =>
        if streq str "off" then (0, set_mds_mitigation MDS_MITIGATION_OFF s)
        else if streq str "full" then
          (0, set_mds_mitigation MDS_MITIGATION_FULL s)
        else if streq str "full,nosmt" then
          (0, set_mds_nosmt true (set_mds_mitigation MDS_MITIGATION_FULL s))
        else (0, s)
    end.

Definition tsx_async_abort_parse_cmdline (str : option string) (s : state)
  : Z * state :=
  if negb (boot_cpu_has_bug hw X86_BUG_TAA) then (0, s)
  else
    match str with
    | None => (- EINVAL, s)
    | Some str =>
        if streq str "off" then (0, set_taa_mitigation TAA_MITIGATION_OFF s)
        else if streq str "full" then
          (0, set_taa_mitigation TAA_MITIGATION_VERW s)
        else if streq str "full,nosmt" then
          (0, set_taa_nosmt true (set_taa_mitigation TAA_MITIGATION_VERW s))
        else (0, s)
    end.

Definition mmio_stale_data_parse_cmdline (str : option string) (s : state)
  : Z * state :=
  if negb (boot_cpu_has_bug hw X86_BUG_MMIO_STALE_DATA) then (0, s)
  else
    match str with
    | None => (- EINVAL, s)
    | Some str =>
        if streq str "off" then (0, set_mmio_mitigation MMIO_MITIGATION_OFF s)
        else if streq str "full" then
          (0, set_mmio_mitigation MMIO_MITIGATION_VERW s)
        else if streq str "full,nosmt" then
          (0, set_mmio_nosmt true (set_mmio_mitigation MMIO_MITIGATION_VERW s))
        else (0, s)
    end.

Definition srbds_parse_cmdline (str : option string) (s : state) : Z * state :=
  match str with
  | None => (- EINVAL, s)
  | Some str =>
      if negb (boot_cpu_has_bug hw X86_BUG_SRBDS) then (0, s)
      else (0, set_srbds_off (streq str "off") s)
  end.

Definition nospectre_v1_cmdline (str : option string) (s : state) : Z * state :=
  (0, set_spectre_v1_mitigation SPECTRE_V1_MITIGATION_NONE s).

Definition gds_parse_cmdline (str : option string) (s : state) : Z * state :=
  match str with
  | None => (- EINVAL, s)
  | Some str =>
      if negb (boot_cpu_has_bug hw X86_BUG_GDS) then (0, s)
      else if streq str "off" then
        (0, set_gds_mitigation GDS_MITIGATION_OFF s)
      else if streq str "force" then
        (0, set_gds_mitigation GDS_MITIGATION_FORCE s)
      else (0, s)
  end.

(** *** retbleed=: a comma-separated list *)

(** The tokens that the [strchr(str, ',')] loop visits, in order. *)
Fixpoint split_commas (str : string) : list string :=
  match str with
  | EmptyString => [EmptyString]
  | String c rest =>
      if Ascii.eqb c ","%char then EmptyString :: split_commas rest
      else
        match split_commas rest with
        | tok :: toks => String c tok :: toks
        | [] => [String c EmptyString]
        end
  end.

(** One turn of the loop body, on the token [str]. *)
Definition retbleed_parse_token (s : state) (str : string) : state :=
  if streq str "off" then set_retbleed_cmd RETBLEED_CMD_OFF s
  else if streq str "auto" then set_retbleed_cmd RETBLEED_CMD_AUTO s
  else if streq str "unret" then set_retbleed_cmd RETBLEED_CMD_UNRET s
  else if streq str "ibpb" then set_retbleed_cmd RETBLEED_CMD_IBPB s
  else if streq str "nosmt" then set_retbleed_nosmt true s
  else pr_err ("RETBleed: Ignoring unknown retbleed option (" ++ str ++ ").")%string s.

Definition retbleed_parse_cmdline (str : option string) (s : state) : Z * state :=
  match str with
  | None => (0, s)
  | Some str => (0, fold_left retbleed_parse_token (split_commas str) s)
  end.

(** *** spectre_v2= and spec_store_bypass_disable= *)

Definition match_option (arg : string) (arglen : Z) (opt : string) : bool :=
  let len := String.length opt in
  (Z.of_nat len =? arglen) && strneq arg opt len.

Record v2_option : Type := {
  v2_option_name : string;
  v2_option_cmd : spectre_v2_mitigation_cmd;
  v2_option_secure : bool
}.

Definition mitigation_options : list v2_option := [
  {| v2_option_name := "off"; v2_option_cmd := SPECTRE_V2_CMD_NONE; v2_option_secure := false |};
  {| v2_option_name := "on"; v2_option_cmd := SPECTRE_V2_CMD_FORCE; v2_option_secure := true |};
  {| v2_option_name := "retpoline"; v2_option_cmd := SPECTRE_V2_CMD_RETPOLINE; v2_option_secure := false |};
  {| v2_option_name := "retpoline,amd"; v2_option_cmd := SPECTRE_V2_CMD_RETPOLINE_AMD; v2_option_secure := false |};
  {| v2_option_name := "retpoline,force"; v2_option_cmd := SPECTRE_V2_CMD_RETPOLINE_FORCE; v2_option_secure := false |};
  {| v2_option_name := "retpoline,ibrs_user"; v2_option_cmd := SPECTRE_V2_CMD_RETPOLINE_IBRS_USER; v2_option_secure := false |};
  {| v2_option_name := "ibrs"; v2_option_cmd := SPECTRE_V2_CMD_IBRS; v2_option_secure := false |};
  {| v2_option_name := "ibrs_always"; v2_option_cmd := SPECTRE_V2_CMD_IBRS_ALWAYS; v2_option_secure := false |};
  {| v2_option_name := "auto"; v2_option_cmd := SPECTRE_V2_CMD_AUTO; v2_option_secure := false |}
].

Definition spec2_print_if_insecure (reason : string) : state -> state :=
  when (boot_cpu_has_bug hw X86_BUG_SPECTRE_V2)
    (pr_info ("Spectre V2 : " ++ reason ++ " selected on command line." ++ LF)%string).

Definition spec2_print_if_secure (reason : string) : state -> state :=
  when (negb (boot_cpu_has_bug hw X86_BUG_SPECTRE_V2))
    (pr_info ("Spectre V2 : " ++ reason ++ " selected on command line." ++ LF)%string).

Definition v2_cmd_is_retpoline (cmd : spectre_v2_mitigation_cmd) : bool :=
  match cmd with
  | SPECTRE_V2_CMD_RETPOLINE | SPECTRE_V2_CMD_RETPOLINE_AMD
  | SPECTRE_V2_CMD_RETPOLINE_FORCE | SPECTRE_V2_CMD_RETPOLINE_IBRS_USER => true
  | _ => false
  end.

(** The part of [spectre_v2_parse_cmdline] that follows a successful table
    lookup; [o] is [mitigation_options[i]]. *)
Definition spectre_v2_check_cmd (o : v2_option) (s : state)
  : spectre_v2_mitigation_cmd * state :=
  let cmd := v2_option_cmd o in
  let name := v2_option_name o in
  if v2_cmd_is_retpoline cmd && negb (CONFIG_RETPOLINE hw) then
    (SPECTRE_V2_CMD_AUTO,
     pr_err ("Spectre V2 : " ++ name ++
             " selected but not compiled in. Switching to AUTO select" ++ LF)%string s)
  else
    let amd_check : option (spectre_v2_mitigation_cmd * state) :=
      match cmd with
      | SPECTRE_V2_CMD_RETPOLINE_AMD =>
          if negb (vendor_eqb (x86_vendor hw) X86_VENDOR_AMD) then
            Some (SPECTRE_V2_CMD_AUTO, s)
          else if negb (boot_cpu_has hw X86_FEATURE_LFENCE_RDTSC) then
            Some (SPECTRE_V2_CMD_AUTO,
                  pr_warn ("Spectre V2 : " ++ name ++
                           " selected, but CPU doesn't have a serializing LFENCE. Switching to AUTO select" ++ LF)%string s)
          else None
      | _ => None
      end in
    match amd_check with
    | Some r => r
    | None =>
        (* an early [return] on the left, the state to go on with on the
           right *)
        let retbleed_check : (spectre_v2_mitigation_cmd * state) + state :=
          if boot_cpu_has_bug hw X86_BUG_RETBLEED &&
             vendor_eqb (x86_vendor hw) X86_VENDOR_INTEL then
            match cmd with
            | SPECTRE_V2_CMD_RETPOLINE =>
                inl (SPECTRE_V2_CMD_AUTO,
                     pr_warn ("Spectre V2 : WARNING: " ++ name ++
                              " selected but CPU is affected by RETBleed. Switching to AUTO select" ++ LF)%string s)
            | SPECTRE_V2_CMD_RETPOLINE_FORCE =>
                inr (pr_warn ("Spectre V2 : WARNING: " ++ name ++
                              " selected but CPU is affected by RETBleed. Switching to " ++
                              DQUOTE ++ "auto" ++ DQUOTE ++ " is advised" ++ LF)%string s)
            | _ => inr s
            end
          else inr s in
        match retbleed_check with
        | inl r => r
        | inr s =>
            (cmd, if v2_option_secure o then spec2_print_if_secure name s
                  else spec2_print_if_insecure name s)
        end
    end.

Definition spectre_v2_parse_cmdline (s : state)
  : spectre_v2_mitigation_cmd * state :=
  if cmdline_find_option_bool hw "nospectre_v2" || cpu_mitigations_off hw then
    (SPECTRE_V2_CMD_NONE, s)
  else
    let '(ret, arg) := cmdline_find_option hw "spectre_v2" 20 in
    if ret <? 0 then (SPECTRE_V2_CMD_AUTO, s)
    else
      match find (fun o => match_option arg ret (v2_option_name o))
                 mitigation_options with
      | None =>
          (SPECTRE_V2_CMD_AUTO,
           pr_err ("Spectre V2 : unknown option (" ++ arg ++
                   "). Switching to AUTO select" ++ LF)%string s)
      | Some o => spectre_v2_check_cmd o s
      end.

Definition ssb_mitigation_options : list (string * ssb_mitigation_cmd) := [
  ("auto", SPEC_STORE_BYPASS_CMD_AUTO);
  ("on", SPEC_STORE_BYPASS_CMD_ON);
  ("off", SPEC_STORE_BYPASS_CMD_NONE);
  ("prctl", SPEC_STORE_BYPASS_CMD_PRCTL);
  ("seccomp", SPEC_STORE_BYPASS_CMD_SECCOMP)
].

Definition __ssb_parse_cmdline (s : state) : ssb_mitigation_cmd * state :=
  if cmdline_find_option_bool hw "nospec_store_bypass_disable" ||
     cpu_mitigations_off hw then
    (SPEC_STORE_BYPASS_CMD_NONE, s)
  else
    let '(ret, arg) := cmdline_find_option hw "spec_store_bypass_disable" 20 in
    if ret <? 0 then (SPEC_STORE_BYPASS_CMD_AUTO, s)
    else
      match find (fun o => match_option arg ret (fst o))
                 ssb_mitigation_options with
      | None =>
          (SPEC_STORE_BYPASS_CMD_AUTO,
           pr_err ("Speculative Store Bypass: unknown option (" ++ arg ++
                   "). Switching to AUTO select" ++ LF)%string s)
      | Some o => (snd o, s)
      end.

End Cmdline.

(** * The vocabulary of the properties *)





(** The three reference counts. *)
Definition effect_counts (s : state) : Z * Z * Z :=
  (mds_user_clear s, mds_idle_clear s, mmio_stale_data_clear s).



Definition bool_count (b : bool) : Z := if b then 1 else 0.

Definition loglevel_eqb (a b : loglevel) : bool :=
  match a, b with
  | KERN_ERR, KERN_ERR | KERN_WARNING, KERN_WARNING
  | KERN_INFO, KERN_INFO => true
  | _, _ => false
  end.

(** How many times the line [msg] was printed at level [lvl]. *)
Definition is_printk (lvl : loglevel) (msg : string) (e : event) : bool :=
  match e with
  | Printk l m => loglevel_eqb l lvl && String.eqb m msg
  | _ => false
  end.

Definition count_printk (lvl : loglevel) (msg : string) (s : state) : nat :=
  List.length (filter (is_printk lvl msg) (ktrace s)).

Definition gds_eqb_off (m : gds_mitigations) : bool :=
  match m with GDS_MITIGATION_OFF => true | _ => false end.

Definition gds_disable_warnings : state -> nat :=
  count_printk KERN_WARNING GDS_LOCKED_MSG.

(** The option names each parser knows. *)
Definition spectre_v2_option_names : list string :=
  map v2_option_name mitigation_options.
Definition ssb_option_names : list string :=
  map fst ssb_mitigation_options.
Definition retbleed_option_names : list string :=
  ["off"; "auto"; "unret"; "ibpb"; "nosmt"].
Definition mds_option_names : list string :=
  ["off"; "full"; "full,nosmt"].

Section Vocabulary.

Variable K : msr_index.
Variable hw : cpu_facts.

(** The three re-selection steps of the update pass. *)
Definition reselect_mds (s : state) : state :=
  when (mds_eqb (mds_mitigation s) MDS_MITIGATION_OFF &&
        boot_cpu_has_bug hw X86_BUG_MDS)
       (fun s => mds_select_mitigation hw
                   (set_mds_mitigation MDS_MITIGATION_FULL s)) s.

Definition reselect_taa (s : state) : state :=
  when (taa_eqb (taa_mitigation s) TAA_MITIGATION_OFF &&
        boot_cpu_has_bug hw X86_BUG_TAA)
       (fun s => taa_select_mitigation K hw
                   (set_taa_mitigation TAA_MITIGATION_VERW s)) s.

Definition reselect_mmio (s : state) : state :=
  when (mmio_eqb (mmio_mitigation s) MMIO_MITIGATION_OFF &&
        boot_cpu_has_bug hw X86_BUG_MMIO_STALE_DATA)
       (fun s => mmio_select_mitigation K hw
                   (set_mmio_mitigation MMIO_MITIGATION_VERW s)) s.

(** The two early_param handlers given [off]. *)
Definition taa_and_mds_off (s : state) : state :=
  snd (mds_cmdline hw (Some "off")
         (snd (tsx_async_abort_parse_cmdline hw (Some "off") s))).

(** MDS_NO parts with TSX disabled that are not affected by MMIO Stale Data:
    the first test of [srbds_select_mitigation]. *)
Definition srbds_tsx_off_case : bool :=
  tst (x86_read_arch_cap_msr hw) (ARCH_CAP_MDS_NO K) &&
  negb (boot_cpu_has hw X86_FEATURE_RTM) &&
  negb (boot_cpu_has_bug hw X86_BUG_MMIO_STALE_DATA).

(** A run that writes no MSR: the register keeps its content and the only
    new entry of the trace is the status line. *)
Definition srbds_no_msr_write (s s' : state) : Prop :=
  mcu_opt_ctrl s' = mcu_opt_ctrl s /\
  ktrace s' =
    Printk KERN_INFO ("SRBDS: " ++ srbds_strings (srbds_mitigation s') ++ LF)%string
      :: ktrace s.

Definition gds_locked (s : state) : bool :=
  tst (mcu_opt_ctrl s) (GDS_MITG_LOCKED K).





(** MMIO Stale Data asks for the idle clear whatever the SMT state: its
    mitigation is on and Fill Buffer data can reach the uncore buffers. *)
Definition mmio_wants_idle_clear (s : state) : bool :=
  negb (mmio_eqb (mmio_mitigation s) MMIO_MITIGATION_OFF) &&
  negb (tst (x86_read_arch_cap_msr hw) (ARCH_CAP_FBSDP_NO K)).

(** MDS asks for it on MSBDS-only parts while SMT is active. *)
Definition mds_wants_idle_clear (s : state) : bool :=
  negb (mds_eqb (mds_mitigation s) MDS_MITIGATION_OFF) &&
  boot_cpu_has hw X86_BUG_MSBDS_ONLY &&
  sched_smt_active s.

(** The state of [mds_idle_clear] between the selection phase and
    [arch_smt_update]: only MMIO Stale Data has counted. *)
Definition idle_selected (s : state) : Prop :=
  mds_idle_clear s = bool_count (mmio_wants_idle_clear s).

(** The state of [mds_idle_clear] once [arch_smt_update] has run. *)
Definition idle_settled (s : state) : Prop :=
  mds_idle_clear s =
    bool_count (mmio_wants_idle_clear s || mds_wants_idle_clear s).

(** What [arch_smt_update] needs to find: a count of 0 or 1 that MMIO
    Stale Data, if it asked, has raised, and that nothing else has raised
    unless the MDS side is in play. *)
Definition idle_ready (s : state) : Prop :=
  (mds_idle_clear s = 0 \/ mds_idle_clear s = 1) /\
  (mmio_wants_idle_clear s = true -> mds_idle_clear s = 1) /\
  (mds_eqb (mds_mitigation s) MDS_MITIGATION_OFF ||
   negb (boot_cpu_has hw X86_BUG_MSBDS_ONLY) = true ->
   mmio_wants_idle_clear s = false -> mds_idle_clear s = 0).

(** The states the system can be in once [check_bugs] has run: the boot
    itself, from any setting of the command-line overrides with the three
    switches still off, followed by any number of SMT topology changes. *)
Inductive after_boot : state -> Prop :=
| after_check_bugs (s : state) :
    effect_counts s = (STATIC_KEY_INIT_FALSE, STATIC_KEY_INIT_FALSE,
                       STATIC_KEY_INIT_FALSE) ->
    after_boot (check_bugs K hw s)
| after_smt_change (s : state) (active : bool) :
    after_boot s ->
    after_boot (smt_topology_change K hw active s).

End Vocabulary.

(** * Concrete machines, for running the model *)

Scheme Equality for x86_cap.

(** The capability array of a CPU that has exactly the bits of [l]. *)
Definition caps_of (l : list x86_cap) (c : x86_cap) : bool :=
  existsb (x86_cap_beq c) l.

(** A machine of vendor [v] with the capability bits [l] and the
    ARCH_CAPABILITIES value [arch_cap], built with retpolines, booted without
    a [mitigations=] switch and with none of the options looked up on its
    command line. *)
Definition machine (v : x86_vendor_t) (l : list x86_cap) (arch_cap : Z)
  : cpu_facts := {|
  cpu_caps := caps_of l;
  x86_vendor := v;
  x86_arch_cap_msr := arch_cap;
  cpu_mitigations_off := false;
  cpu_mitigations_auto_nosmt := false;
  CONFIG_RETPOLINE := true;
  cmdline_find_option_bool := fun _ => false;
  cmdline_find_option := fun _ _ => (-1, EmptyString)
|}.

(** The same machine booted with [mitigations=off]. *)
Definition with_mitigations_off (hw : cpu_facts) : cpu_facts := {|
  cpu_caps := cpu_caps hw;
  x86_vendor := x86_vendor hw;
  x86_arch_cap_msr := x86_arch_cap_msr hw;
  cpu_mitigations_off := true;
  cpu_mitigations_auto_nosmt := false;
  CONFIG_RETPOLINE := CONFIG_RETPOLINE hw;
  cmdline_find_option_bool := cmdline_find_option_bool hw;
  cmdline_find_option := cmdline_find_option hw
|}.

(** [cmdline_find_option] (arch/x86/lib/cmdline.c) is not among the
    sources.  What it hands back when the command line gives an option the
    value [val] and the caller's buffer has [size] bytes: the full length of
    the value, and in the buffer its first [size - 1] characters. *)
Definition cmdline_value (size : Z) (val : string) : Z * string :=
  (Z.of_nat (String.length val), substring 0 (Z.to_nat (size - 1)) val).

(** The same machine with [opt=val] on its command line. *)
Definition with_option (opt val : string) (hw : cpu_facts) : cpu_facts := {|
  cpu_caps := cpu_caps hw;
  x86_vendor := x86_vendor hw;
  x86_arch_cap_msr := x86_arch_cap_msr hw;
  cpu_mitigations_off := cpu_mitigations_off hw;
  cpu_mitigations_auto_nosmt := cpu_mitigations_auto_nosmt hw;
  CONFIG_RETPOLINE := CONFIG_RETPOLINE hw;
  cmdline_find_option_bool := cmdline_find_option_bool hw;
  cmdline_find_option := fun o size =>
    if String.eqb o opt then cmdline_value size val
    else cmdline_find_option hw o size
|}.

(** The values the variables of [bugs.c] are initialised with (for a kernel
    built without CONFIG_GDS_FORCE_MITIGATION), on a machine whose
    MCU_OPT_CTRL register holds [mcu], whose scheduler reports [smt] and on
    which the Spectre v2 code settled on [v2]. *)
Definition boot_state (mcu : Z) (smt : bool) (v2 : spectre_v2_mitigation)
  : state := {|
  mds_mitigation := MDS_MITIGATION_FULL;
  mds_nosmt := false;
  taa_mitigation := TAA_MITIGATION_VERW;
  taa_nosmt := false;
  mmio_mitigation := MMIO_MITIGATION_VERW;
  mmio_nosmt := false;
  srbds_mitigation := SRBDS_MITIGATION_FULL;
  srbds_off := false;
  spectre_v1_mitigation := SPECTRE_V1_MITIGATION_AUTO;
  spectre_v2_enabled := v2;
  gds_mitigation := GDS_MITIGATION_FULL;
  retbleed_mitigation := RETBLEED_MITIGATION_NONE;
  retbleed_cmd := RETBLEED_CMD_AUTO;
  retbleed_nosmt := false;
  x86_spec_ctrl_base := 0;
  mds_user_clear := STATIC_KEY_INIT_FALSE;
  mds_idle_clear := STATIC_KEY_INIT_FALSE;
  mmio_stale_data_clear := STATIC_KEY_INIT_FALSE;
  mcu_opt_ctrl := mcu;
  sched_smt_active := smt;
  mds_msg_smt_once := false;
  taa_msg_smt_once := false;
  mmio_msg_smt_once := false;
  gds_msr_warn_once := false;
  ktrace := []
|}.

(** An Intel part affected by RETBleed on which Spectre v2 chose Enhanced
    IBRS, booted with [retbleed=off]. *)
Definition intel_retbleed : cpu_facts :=
  machine X86_VENDOR_INTEL
    [X86_BUG_SPECTRE_V2; X86_BUG_RETBLEED; X86_FEATURE_IBPB; X86_FEATURE_STIBP] 0.

Definition retbleed_off_boot : state :=
  snd (retbleed_parse_cmdline (Some "off")
         (boot_state 0 true SPECTRE_V2_IBRS_ENHANCED)).

(** An MMIO-only machine (no MDS, no TAA) and one that is MDS-affected as
    well. *)
Definition mmio_only : cpu_facts :=
  machine X86_VENDOR_INTEL [X86_BUG_MMIO_STALE_DATA] 0.

Definition mmio_and_mds : cpu_facts :=
  machine X86_VENDOR_INTEL
    [X86_BUG_MMIO_STALE_DATA; X86_BUG_MDS; X86_FEATURE_MD_CLEAR] 0.

(** A CPU affected by MDS, by TAA (RTM enabled, MD_CLEAR microcode) and by
    MMIO Stale Data. *)
Definition mds_taa_mmio : cpu_facts :=
  machine X86_VENDOR_INTEL
    [X86_BUG_MDS; X86_BUG_TAA; X86_FEATURE_RTM; X86_FEATURE_MD_CLEAR;
     X86_BUG_MMIO_STALE_DATA] 0.

(** The same CPU without the MD_CLEAR microcode. *)
Definition mds_taa_mmio_no_microcode : cpu_facts :=
  machine X86_VENDOR_INTEL
    [X86_BUG_MDS; X86_BUG_TAA; X86_FEATURE_RTM; X86_BUG_MMIO_STALE_DATA] 0.

(** A CPU affected by TAA alone. *)
Definition taa_only : cpu_facts :=
  machine X86_VENDOR_INTEL
    [X86_BUG_TAA; X86_FEATURE_RTM; X86_FEATURE_MD_CLEAR] 0.

(** An SRBDS-affected guest: the hypervisor bit is set, SRBDS_CTRL is
    there, and [srbds=off] was given. *)
Definition srbds_guest : cpu_facts :=
  machine X86_VENDOR_INTEL
    [X86_BUG_SRBDS; X86_FEATURE_HYPERVISOR; X86_FEATURE_SRBDS_CTRL;
     X86_FEATURE_RTM] 0.

(** An affected part with the GDS microcode whose MCU_OPT_CTRL reports the
    lock, booted with [gather_data_sampling=off]. *)
Definition gds_locked_part : cpu_facts :=
  machine X86_VENDOR_INTEL [X86_BUG_GDS; X86_FEATURE_AVX]
    (ARCH_CAP_GDS_CTRL x86_msr_index).

Definition gds_locked_boot (hw : cpu_facts) : state :=
  snd (gds_parse_cmdline hw (Some "off")
         (boot_state (GDS_MITG_LOCKED x86_msr_index) false SPECTRE_V2_NONE)).

(** An MDS-affected machine with [spectre_v2=bogus
    spec_store_bypass_disable=bogus] on its command line. *)
Definition bogus_cmdline : cpu_facts :=
  with_option "spectre_v2" "bogus"
    (with_option "spec_store_bypass_disable" "bogus"
       (machine X86_VENDOR_INTEL [X86_BUG_MDS; X86_BUG_SPECTRE_V2] 0)).

(** The same with a value of 25 characters, more than the parsers' buffer
    holds. *)
Definition long_cmdline : cpu_facts :=
  with_option "spectre_v2" "ibrs_always_and_some_more"
    (with_option "spec_store_bypass_disable" "ibrs_always_and_some_more"
       (machine X86_VENDOR_INTEL [X86_BUG_MDS; X86_BUG_SPECTRE_V2] 0)).



(** An MSBDS-only part with the MD_CLEAR microcode. *)
Definition msbds_only : cpu_facts :=
  machine X86_VENDOR_INTEL
    [X86_BUG_MDS; X86_BUG_MSBDS_ONLY; X86_FEATURE_MD_CLEAR] 0.

(** * Further vocabulary: accounting of the buffer-clear switches *)

(** Which final choices ask for the CPU buffer clear. *)
Definition mds_requests_clear (s : state) : bool :=
  negb (mds_eqb (mds_mitigation s) MDS_MITIGATION_OFF).

Definition taa_requests_clear (s : state) : bool :=
  match taa_mitigation s with
  | TAA_MITIGATION_VERW | TAA_MITIGATION_UCODE_NEEDED => true
  | TAA_MITIGATION_OFF | TAA_MITIGATION_TSX_DISABLED => false
  end.

Definition mmio_requests_clear (s : state) : bool :=
  negb (mmio_eqb (mmio_mitigation s) MMIO_MITIGATION_OFF).

(** MMIO Stale Data shares the MDS/TAA switch on hosts that are themselves
    affected by MDS, or by TAA with RTM enabled. *)
Definition mmio_shares_user_clear (hw : cpu_facts) : bool :=
  boot_cpu_has_bug hw X86_BUG_MDS ||
  (boot_cpu_has_bug hw X86_BUG_TAA && boot_cpu_has hw X86_FEATURE_RTM).

(** Every requesting member of the triad is counted once in its switch. *)
Definition clear_accounted (hw : cpu_facts) (s : state) : Prop :=
  mds_user_clear s =
    bool_count (mds_requests_clear s) + bool_count (taa_requests_clear s) +
    bool_count (mmio_requests_clear s && mmio_shares_user_clear hw) /\
  mmio_stale_data_clear s =
    bool_count (mmio_requests_clear s && negb (mmio_shares_user_clear hw)).

(** A series of SMT topology changes, oldest first. *)
Definition smt_topology_changes (K : msr_index) (hw : cpu_facts)
    (flips : list bool) (s : state) : state :=
  fold_left (fun s active => smt_topology_change K hw active s) flips s.

Definition nat_count (b : bool) : nat := if b then 1%nat else 0%nat.

(** Each SMT warning is in the log exactly when its once-latch is set. *)
Definition smt_warnings_latched (s : state) : Prop :=
  count_printk KERN_WARNING MDS_MSG_SMT s = nat_count (mds_msg_smt_once s) /\
  count_printk KERN_WARNING TAA_MSG_SMT s = nat_count (taa_msg_smt_once s) /\
  count_printk KERN_WARNING MMIO_MSG_SMT s = nat_count (mmio_msg_smt_once s).

(** * Further vocabulary: the command line *)

(** The error line [retbleed_parse_cmdline] prints for the token [tok]. *)
Definition retbleed_unknown_event (tok : string) : event :=
  Printk KERN_ERR ("RETBleed: Ignoring unknown retbleed option (" ++ tok ++ ").")%string.

Definition retbleed_known (tok : string) : bool :=
  existsb (String.eqb tok) retbleed_option_names.

(** The tokens of [str] that [retbleed=] does not know, in order. *)
Definition retbleed_unknown_tokens (str : string) : list string :=
  filter (fun tok => negb (retbleed_known tok)) (split_commas str).

(** The boot command line gives [opt=val], [val] fitting the 20-byte
    buffer of the parsers. *)
Definition cmdline_has (hw : cpu_facts) (opt val : string) : Prop :=
  cmdline_find_option hw opt 20 = (Z.of_nat (String.length val), val).

(** * Further vocabulary: registers and traces *)

(** [tr] is [old] with newer events in front, each of which satisfies [P]. *)
Inductive trace_extends (P : event -> Prop) (old : list event)
  : list event -> Prop :=
| trace_extends_refl : trace_extends P old old
| trace_extends_cons (e : event) (tr : list event) :
    P e -> trace_extends P old tr -> trace_extends P old (e :: tr).

(** An event that only reports or writes a register: no SMT request and no
    change to the capability bits. *)
Definition quiet_event (e : event) : Prop :=
  match e with
  | Printk _ _ | WarnOn _ | Wrmsrl _ _ => True
  | SetupForceCpuCap _ | SetupClearCpuCap _ | CpuSmtDisable _ => False
  end.

Definition not_forced_smt_disable (e : event) : Prop :=
  e <> CpuSmtDisable true.

(** The choices [gather_data_sampling=] and the initialiser can give. *)
Definition gds_boot_choice (m : gds_mitigations) : bool :=
  match m with
  | GDS_MITIGATION_OFF | GDS_MITIGATION_FORCE | GDS_MITIGATION_FULL => true
  | _ => false
  end.

(** * Further vocabulary: a processor that may ignore a write *)

(** [wrmsrl] above takes every write to have effect.  [update_gds_msr] reads
    the register back because that need not be so: a processor whose GDS
    mitigation is locked ignores writes to GDS_MITG_DIS.  Here
    [store old v] is what MCU_OPT_CTRL holds once [v] has been written over
    [old]; the write itself is traced as before. *)
Definition wrmsrl_on (store : Z -> Z -> Z) (r : msr_reg) (v : Z) (s : state)
  : state :=
  match r with
  | MSR_IA32_MCU_OPT_CTRL =>
      emit (Wrmsrl r v) (set_mcu_opt_ctrl (store (mcu_opt_ctrl s) v) s)
  end.

(** [update_gds_msr] on such a processor. *)
Definition update_gds_msr_on (K : msr_index) (store : Z -> Z -> Z) (s : state)
  : state :=
  match gds_mitigation s with
  | GDS_MITIGATION_FORCE | GDS_MITIGATION_UCODE_NEEDED
  | GDS_MITIGATION_HYPERVISOR => s
  | m =>
      let mcu_ctrl := rdmsrl MSR_IA32_MCU_OPT_CTRL s in
      let mcu_ctrl :=
        match m with
        | GDS_MITIGATION_OFF => Z.lor mcu_ctrl (GDS_MITG_DIS K)
        | _ => Z.land mcu_ctrl (Z.lnot (GDS_MITG_DIS K))
        end in
      let s := wrmsrl_on store MSR_IA32_MCU_OPT_CTRL mcu_ctrl s in
      (* check that the write was not ignored *)
      let mcu_ctrl_after := rdmsrl MSR_IA32_MCU_OPT_CTRL s in
      when (negb (mcu_ctrl =? mcu_ctrl_after) && negb (gds_msr_warn_once s))
        (fun s => emit (WarnOn "mcu_ctrl != mcu_ctrl_after")
                    (set_gds_msr_warn_once true s)) s
  end.

(** The processor that honours every write, and the locked one, which keeps
    its bits of GDS_MITG_DIS and takes every other bit as written. *)
Definition store_honoured (old v : Z) : Z := v.

Definition store_gds_locked (K : msr_index) (old v : Z) : Z :=
  Z.lor (Z.land v (Z.lnot (GDS_MITG_DIS K))) (Z.land old (GDS_MITG_DIS K)).

(** * More of bugs.c: Speculative Store Bypass, L1TF and the sysfs files *)

(** ** Further capability bits, constants and facts *)

(** The capability and bug bits that only this part of the file tests or
    forces. *)
Inductive x86_cap_ext : Type :=
| X86_FEATURE_SSBD | X86_FEATURE_MSR_SPEC_CTRL | X86_FEATURE_VIRT_SSBD
| X86_FEATURE_LS_CFG_SSBD | X86_FEATURE_SPEC_STORE_BYPASS_DISABLE
| X86_FEATURE_L1TF_PTEINV
| X86_BUG_SPEC_STORE_BYPASS | X86_BUG_L1TF | X86_BUG_ITLB_MULTIHIT.

Scheme Equality for x86_cap_ext.

(** The values of [enum ssb_mitigation] (asm/nospec-branch.h), in the order
    of the header: [ssb_select_mitigation] compares them with [>=]. *)
Inductive ssb_mitigation : Type :=
| SPEC_STORE_BYPASS_NONE | SPEC_STORE_BYPASS_DISABLE
| SPEC_STORE_BYPASS_PRCTL | SPEC_STORE_BYPASS_SECCOMP.

Inductive l1tf_mitigations : Type :=
| L1TF_MITIGATION_OFF | L1TF_MITIGATION_FLUSH_NOWARN | L1TF_MITIGATION_FLUSH
| L1TF_MITIGATION_FLUSH_NOSMT | L1TF_MITIGATION_FULL
| L1TF_MITIGATION_FULL_FORCE.

Inductive vmx_l1d_flush_state : Type :=
| VMENTER_L1D_FLUSH_AUTO | VMENTER_L1D_FLUSH_NEVER | VMENTER_L1D_FLUSH_COND
| VMENTER_L1D_FLUSH_ALWAYS | VMENTER_L1D_FLUSH_EPT_DISABLED
| VMENTER_L1D_FLUSH_NOT_REQUIRED.

Inductive msr_reg_ext : Type :=
| MSR_IA32_SPEC_CTRL | MSR_AMD64_VIRT_SPEC_CTRL | MSR_AMD64_LS_CFG.

(** The Intel model numbers of <asm/intel-family.h> that
    [override_cache_bits] lists; the header is not among the sources, so
    the numbers are parameters. *)
Record intel_fam6 : Type := {
  INTEL_FAM6_NEHALEM : Z; INTEL_FAM6_WESTMERE : Z;
  INTEL_FAM6_SANDYBRIDGE : Z; INTEL_FAM6_IVYBRIDGE : Z;
  INTEL_FAM6_HASWELL_CORE : Z; INTEL_FAM6_HASWELL_ULT : Z;
  INTEL_FAM6_HASWELL_GT3E : Z; INTEL_FAM6_BROADWELL_CORE : Z;
  INTEL_FAM6_BROADWELL_GT3E : Z; INTEL_FAM6_SKYLAKE_MOBILE : Z;
  INTEL_FAM6_SKYLAKE_DESKTOP : Z; INTEL_FAM6_KABYLAKE_MOBILE : Z;
  INTEL_FAM6_KABYLAKE_DESKTOP : Z
}.

(** The model numbers as the kernel's header defines them. *)
Definition x86_intel_fam6 : intel_fam6 := {|
  INTEL_FAM6_NEHALEM := 30; INTEL_FAM6_WESTMERE := 37;
  INTEL_FAM6_SANDYBRIDGE := 42; INTEL_FAM6_IVYBRIDGE := 58;
  INTEL_FAM6_HASWELL_CORE := 60; INTEL_FAM6_HASWELL_ULT := 69;
  INTEL_FAM6_HASWELL_GT3E := 70; INTEL_FAM6_BROADWELL_CORE := 61;
  INTEL_FAM6_BROADWELL_GT3E := 71; INTEL_FAM6_SKYLAKE_MOBILE := 78;
  INTEL_FAM6_SKYLAKE_DESKTOP := 94; INTEL_FAM6_KABYLAKE_MOBILE := 142;
  INTEL_FAM6_KABYLAKE_DESKTOP := 158
|}.

(** The prctl constants of <linux/prctl.h>, parameters for the same
    reason. *)
Record prctl_abi : Type := {
  PR_SPEC_STORE_BYPASS : Z;
  PR_SPEC_NOT_AFFECTED : Z;
  PR_SPEC_PRCTL : Z;
  PR_SPEC_ENABLE : Z;
  PR_SPEC_DISABLE : Z;
  PR_SPEC_FORCE_DISABLE : Z;
  PR_SPEC_DISABLE_NOEXEC : Z
}.

Definition linux_prctl_abi : prctl_abi := {|
  PR_SPEC_STORE_BYPASS := 0;
  PR_SPEC_NOT_AFFECTED := 0;
  PR_SPEC_PRCTL := Z.shiftl 1 0;
  PR_SPEC_ENABLE := Z.shiftl 1 1;
  PR_SPEC_DISABLE := Z.shiftl 1 2;
  PR_SPEC_FORCE_DISABLE := Z.shiftl 1 3;
  PR_SPEC_DISABLE_NOEXEC := Z.shiftl 1 4
|}.

Definition ENXIO : Z := 6.
Definition EPERM : Z := 1.
Definition ERANGE : Z := 34.
Definition ENODEV : Z := 19.

(** What this part reads besides [cpu_facts]: the further capability bits,
    family and model of the boot CPU, the build configuration, the AMD
    LS_CFG values, the SPEC_CTRL_SSBD mask and PAGE_SHIFT, and the answers
    of code outside the file: [l1tf_pfn_limit] (as a function of the cache
    bits of the boot CPU), [e820_any_mapped] for RAM between two addresses,
    [ibpb_enabled], the [x86_hyper] pointer being set and
    [kaiser_enabled]. *)
Record cpu_facts_ext : Type := {
  cpu_caps_ext : x86_cap_ext -> bool;
  x86_family : Z;
  x86_model : Z;
  CONFIG_SECCOMP : bool;
  CONFIG_KVM_INTEL : bool;
  PAGETABLE_LEVELS : Z;
  PAGE_SHIFT : Z;
  SPEC_CTRL_SSBD : Z;
  x86_amd_ls_cfg_base : Z;
  x86_amd_ls_cfg_ssbd_mask : Z;
  l1tf_pfn_limit : Z -> Z;
  e820_any_mapped_ram : Z -> Z -> bool;
  ibpb_enabled : bool;
  x86_hyper : bool;
  kaiser_enabled : bool
}.

(** ** The further state *)

(** The variables of [bugs.c] this part adds to [state], which it keeps as
    [core]: the SSB command and mode, the [ssbd_userset_key] switch,
    [x86_spec_ctrl_mask], the L1TF choice, the cache bits of the boot CPU,
    the two KVM-side variables the sysfs code reads, the capability bits
    forced so far and the writes to the further MSRs, most recent first. *)
Record ext_state : Type := {
  core : state;
  ssb_cmd : ssb_mitigation_cmd;
  ssb_mode : ssb_mitigation;
  ssbd_userset_key : static_key;
  x86_spec_ctrl_mask : Z;
  l1tf_mitigation : l1tf_mitigations;
  x86_cache_bits : Z;
  l1tf_vmx_mitigation : vmx_l1d_flush_state;
  itlb_multihit_kvm_mitigation : Z;
  forced_caps : list x86_cap_ext;
  msr_writes : list (msr_reg_ext * Z)
}.

Definition set_core (v : state) (x : ext_state) : ext_state :=
  {| core := v; ssb_cmd := ssb_cmd x; ssb_mode := ssb_mode x;
     ssbd_userset_key := ssbd_userset_key x;
     x86_spec_ctrl_mask := x86_spec_ctrl_mask x;
     l1tf_mitigation := l1tf_mitigation x; x86_cache_bits := x86_cache_bits x;
     l1tf_vmx_mitigation := l1tf_vmx_mitigation x;
     itlb_multihit_kvm_mitigation := itlb_multihit_kvm_mitigation x;
     forced_caps := forced_caps x; msr_writes := msr_writes x |}.

Definition set_ssb_cmd (v : ssb_mitigation_cmd) (x : ext_state) : ext_state :=
  {| core := core x; ssb_cmd := v; ssb_mode := ssb_mode x;
     ssbd_userset_key := ssbd_userset_key x;
     x86_spec_ctrl_mask := x86_spec_ctrl_mask x;
     l1tf_mitigation := l1tf_mitigation x; x86_cache_bits := x86_cache_bits x;
     l1tf_vmx_mitigation := l1tf_vmx_mitigation x;
     itlb_multihit_kvm_mitigation := itlb_multihit_kvm_mitigation x;
     forced_caps := forced_caps x; msr_writes := msr_writes x |}.

Definition set_ssb_mode (v : ssb_mitigation) (x : ext_state) : ext_state :=
  {| core := core x; ssb_cmd := ssb_cmd x; ssb_mode := v;
     ssbd_userset_key := ssbd_userset_key x;
     x86_spec_ctrl_mask := x86_spec_ctrl_mask x;
     l1tf_mitigation := l1tf_mitigation x; x86_cache_bits := x86_cache_bits x;
     l1tf_vmx_mitigation := l1tf_vmx_mitigation x;
     itlb_multihit_kvm_mitigation := itlb_multihit_kvm_mitigation x;
     forced_caps := forced_caps x; msr_writes := msr_writes x |}.

Definition set_ssbd_userset_key (v : static_key) (x : ext_state) : ext_state :=
  {| core := core x; ssb_cmd := ssb_cmd x; ssb_mode := ssb_mode x;
     ssbd_userset_key := v;
     x86_spec_ctrl_mask := x86_spec_ctrl_mask x;
     l1tf_mitigation := l1tf_mitigation x; x86_cache_bits := x86_cache_bits x;
     l1tf_vmx_mitigation := l1tf_vmx_mitigation x;
     itlb_multihit_kvm_mitigation := itlb_multihit_kvm_mitigation x;
     forced_caps := forced_caps x; msr_writes := msr_writes x |}.

Definition set_x86_spec_ctrl_mask (v : Z) (x : ext_state) : ext_state :=
  {| core := core x; ssb_cmd := ssb_cmd x; ssb_mode := ssb_mode x;
     ssbd_userset_key := ssbd_userset_key x;
     x86_spec_ctrl_mask := v;
     l1tf_mitigation := l1tf_mitigation x; x86_cache_bits := x86_cache_bits x;
     l1tf_vmx_mitigation := l1tf_vmx_mitigation x;
     itlb_multihit_kvm_mitigation := itlb_multihit_kvm_mitigation x;
     forced_caps := forced_caps x; msr_writes := msr_writes x |}.

Definition set_l1tf_mitigation (v : l1tf_mitigations) (x : ext_state)
  : ext_state :=
  {| core := core x; ssb_cmd := ssb_cmd x; ssb_mode := ssb_mode x;
     ssbd_userset_key := ssbd_userset_key x;
     x86_spec_ctrl_mask := x86_spec_ctrl_mask x;
     l1tf_mitigation := v; x86_cache_bits := x86_cache_bits x;
     l1tf_vmx_mitigation := l1tf_vmx_mitigation x;
     itlb_multihit_kvm_mitigation := itlb_multihit_kvm_mitigation x;
     forced_caps := forced_caps x; msr_writes := msr_writes x |}.

Definition set_x86_cache_bits (v : Z) (x : ext_state) : ext_state :=
  {| core := core x; ssb_cmd := ssb_cmd x; ssb_mode := ssb_mode x;
     ssbd_userset_key := ssbd_userset_key x;
     x86_spec_ctrl_mask := x86_spec_ctrl_mask x;
     l1tf_mitigation := l1tf_mitigation x; x86_cache_bits := v;
     l1tf_vmx_mitigation := l1tf_vmx_mitigation x;
     itlb_multihit_kvm_mitigation := itlb_multihit_kvm_mitigation x;
     forced_caps := forced_caps x; msr_writes := msr_writes x |}.

Definition set_forced_caps (v : list x86_cap_ext) (x : ext_state) : ext_state :=
  {| core := core x; ssb_cmd := ssb_cmd x; ssb_mode := ssb_mode x;
     ssbd_userset_key := ssbd_userset_key x;
     x86_spec_ctrl_mask := x86_spec_ctrl_mask x;
     l1tf_mitigation := l1tf_mitigation x; x86_cache_bits := x86_cache_bits x;
     l1tf_vmx_mitigation := l1tf_vmx_mitigation x;
     itlb_multihit_kvm_mitigation := itlb_multihit_kvm_mitigation x;
     forced_caps := v; msr_writes := msr_writes x |}.

Definition set_msr_writes (v : list (msr_reg_ext * Z)) (x : ext_state)
  : ext_state :=
  {| core := core x; ssb_cmd := ssb_cmd x; ssb_mode := ssb_mode x;
     ssbd_userset_key := ssbd_userset_key x;
     x86_spec_ctrl_mask := x86_spec_ctrl_mask x;
     l1tf_mitigation := l1tf_mitigation x; x86_cache_bits := x86_cache_bits x;
     l1tf_vmx_mitigation := l1tf_vmx_mitigation x;
     itlb_multihit_kvm_mitigation := itlb_multihit_kvm_mitigation x;
     forced_caps := forced_caps x; msr_writes := v |}.

(** [x86_spec_ctrl_base], which the first part only reads, is written
    here. *)
Definition set_x86_spec_ctrl_base (v : Z) (s : state) : state :=
  {| mds_mitigation := mds_mitigation s; mds_nosmt := mds_nosmt s;
     taa_mitigation := taa_mitigation s; taa_nosmt := taa_nosmt s;
     mmio_mitigation := mmio_mitigation s; mmio_nosmt := mmio_nosmt s;
     srbds_mitigation := srbds_mitigation s; srbds_off := srbds_off s;
     spectre_v1_mitigation := spectre_v1_mitigation s;
     spectre_v2_enabled := spectre_v2_enabled s;
     gds_mitigation := gds_mitigation s;
     retbleed_mitigation := retbleed_mitigation s;
     retbleed_cmd := retbleed_cmd s; retbleed_nosmt := retbleed_nosmt s;
     x86_spec_ctrl_base := v;
     mds_user_clear := mds_user_clear s; mds_idle_clear := mds_idle_clear s;
     mmio_stale_data_clear := mmio_stale_data_clear s;
     mcu_opt_ctrl := mcu_opt_ctrl s; sched_smt_active := sched_smt_active s;
     mds_msg_smt_once := mds_msg_smt_once s;
     taa_msg_smt_once := taa_msg_smt_once s;
     mmio_msg_smt_once := mmio_msg_smt_once s;
     gds_msr_warn_once := gds_msr_warn_once s; ktrace := ktrace s |}.

(** Run a piece of the first part on the [core]. *)
Definition on_core (f : state -> state) (x : ext_state) : ext_state :=
  set_core (f (core x)) x.

(** ** Primitive effects of this part *)

Section Extended.

Variable K : msr_index.
Variable P : prctl_abi.
Variable F : intel_fam6.
Variable hw : cpu_facts.
Variable hx : cpu_facts_ext.

(** A forced capability bit reads as set from then on. *)
Definition boot_cpu_has_ext (c : x86_cap_ext) (x : ext_state) : bool :=
  existsb (x86_cap_ext_beq c) (forced_caps x) || cpu_caps_ext hx c.

Definition setup_force_cpu_cap_ext (c : x86_cap_ext) (x : ext_state)
  : ext_state :=
  set_forced_caps (c :: forced_caps x) x.

Definition wrmsrl_ext (r : msr_reg_ext) (v : Z) (x : ext_state) : ext_state :=
  set_msr_writes ((r, v) :: msr_writes x) x.

Definition when_ext (b : bool) (f : ext_state -> ext_state) (x : ext_state)
  : ext_state :=
  if b then f x else x.

(** ** Speculative Store Bypass *)

Definition x86_amd_ssbd_enable (x : ext_state) : ext_state :=
  let msrval := Z.lor (x86_amd_ls_cfg_base hx) (x86_amd_ls_cfg_ssbd_mask hx) in
  if boot_cpu_has_ext X86_FEATURE_VIRT_SSBD x then
    wrmsrl_ext MSR_AMD64_VIRT_SPEC_CTRL (SPEC_CTRL_SSBD hx) x
  else if boot_cpu_has_ext X86_FEATURE_LS_CFG_SSBD x then
    wrmsrl_ext MSR_AMD64_LS_CFG msrval x
  else x.

Definition ssb_strings (m : ssb_mitigation) : string :=
  match m with
  | SPEC_STORE_BYPASS_NONE => "Vulnerable"
  | SPEC_STORE_BYPASS_DISABLE => "Mitigation: Speculative Store Bypass disabled"
  | SPEC_STORE_BYPASS_PRCTL =>
      "Mitigation: Speculative Store Bypass disabled via prctl"
  | SPEC_STORE_BYPASS_SECCOMP =>
      "Mitigation: Speculative Store Bypass disabled via prctl and seccomp"
  end.

Definition ssb_parse_cmdline (x : ext_state) : ext_state :=
  let '(cmd, s) := __ssb_parse_cmdline hw (core x) in
  set_ssb_cmd cmd (set_core s x).

(** The mode [__ssb_select_mitigation] picks for the command. *)
Definition ssb_mode_of_cmd (cmd : ssb_mitigation_cmd) : ssb_mitigation :=
  match cmd with
  | SPEC_STORE_BYPASS_CMD_AUTO | SPEC_STORE_BYPASS_CMD_SECCOMP =>
      if CONFIG_SECCOMP hx then SPEC_STORE_BYPASS_SECCOMP
      else SPEC_STORE_BYPASS_PRCTL
  | SPEC_STORE_BYPASS_CMD_ON => SPEC_STORE_BYPASS_DISABLE
  | SPEC_STORE_BYPASS_CMD_PRCTL => SPEC_STORE_BYPASS_PRCTL
  | SPEC_STORE_BYPASS_CMD_NONE => SPEC_STORE_BYPASS_NONE
  end.

Definition __ssb_select_mitigation (x : ext_state)
  : ssb_mitigation * ext_state :=
  let cmd := ssb_cmd x in
  if negb (boot_cpu_has_ext X86_FEATURE_SSBD x) then
    (SPEC_STORE_BYPASS_NONE, x)
  else if negb (boot_cpu_has_ext X86_BUG_SPEC_STORE_BYPASS x) &&
          match cmd with
          | SPEC_STORE_BYPASS_CMD_NONE | SPEC_STORE_BYPASS_CMD_AUTO => true
          | _ => false
          end then
    (SPEC_STORE_BYPASS_NONE, x)
  else
    let mode := ssb_mode_of_cmd cmd in
    match mode with
    | SPEC_STORE_BYPASS_DISABLE =>
        let x := setup_force_cpu_cap_ext X86_FEATURE_SPEC_STORE_BYPASS_DISABLE x in
        (* always set the SSBD bit, for both AMD and Intel *)
        let x := on_core (fun s => set_x86_spec_ctrl_base
                                     (Z.lor (x86_spec_ctrl_base s)
                                            (SPEC_CTRL_SSBD hx)) s) x in
        let x :=
          if negb (boot_cpu_has_ext X86_FEATURE_MSR_SPEC_CTRL x) then
            x86_amd_ssbd_enable x
          else
            let x := set_x86_spec_ctrl_mask
                       (Z.lor (x86_spec_ctrl_mask x) (SPEC_CTRL_SSBD hx)) x in
            wrmsrl_ext MSR_IA32_SPEC_CTRL (x86_spec_ctrl_base (core x)) x in
        (mode, x)
    | _ => (mode, x)
    end.

Definition ssb_print_mitigation (x : ext_state) : ext_state :=
  on_core (pr_info ("Speculative Store Bypass: " ++
                    ssb_strings (ssb_mode x) ++ LF)%string) x.

(** [ssb_mode >= SPEC_STORE_BYPASS_PRCTL]. *)
Definition ssb_user_settable (m : ssb_mitigation) : bool :=
  match m with
  | SPEC_STORE_BYPASS_PRCTL | SPEC_STORE_BYPASS_SECCOMP => true
  | SPEC_STORE_BYPASS_NONE | SPEC_STORE_BYPASS_DISABLE => false
  end.

Definition ssb_select_mitigation (x : ext_state) : ext_state :=
  let '(mode, x) := __ssb_select_mitigation x in
  let x := set_ssb_mode mode x in
  (* enable ssbd_userset_key if the SSBD is now user settable *)
  let x := when_ext (negb (static_key_enabled (ssbd_userset_key x)) &&
                     ssb_user_settable (ssb_mode x))
             (fun x => set_ssbd_userset_key
                         (static_key_slow_inc (ssbd_userset_key x)) x) x in
  when_ext (boot_cpu_has_ext X86_BUG_SPEC_STORE_BYPASS x)
    ssb_print_mitigation x.

(** ** The speculation prctl *)

(** The per-task flags behind [task_spec_ssb_disable] and the like
    (the PFA_SPEC_SSB_* accessors of linux/sched.h) and the
    TIF_SPEC_FORCE_UPDATE thread flag. *)
Record task_struct : Type := {
  spec_ssb_disable : bool;
  spec_ssb_force_disable : bool;
  spec_ssb_noexec : bool;
  tif_spec_force_update : bool
}.

Definition task_set_spec_ssb_disable (t : task_struct) : task_struct :=
  {| spec_ssb_disable := true;
     spec_ssb_force_disable := spec_ssb_force_disable t;
     spec_ssb_noexec := spec_ssb_noexec t;
     tif_spec_force_update := tif_spec_force_update t |}.

Definition task_clear_spec_ssb_disable (t : task_struct) : task_struct :=
  {| spec_ssb_disable := false;
     spec_ssb_force_disable := spec_ssb_force_disable t;
     spec_ssb_noexec := spec_ssb_noexec t;
     tif_spec_force_update := tif_spec_force_update t |}.

Definition task_set_spec_ssb_force_disable (t : task_struct) : task_struct :=
  {| spec_ssb_disable := spec_ssb_disable t;
     spec_ssb_force_disable := true;
     spec_ssb_noexec := spec_ssb_noexec t;
     tif_spec_force_update := tif_spec_force_update t |}.

Definition task_set_spec_ssb_noexec (t : task_struct) : task_struct :=
  {| spec_ssb_disable := spec_ssb_disable t;
     spec_ssb_force_disable := spec_ssb_force_disable t;
     spec_ssb_noexec := true;
     tif_spec_force_update := tif_spec_force_update t |}.

Definition task_clear_spec_ssb_noexec (t : task_struct) : task_struct :=
  {| spec_ssb_disable := spec_ssb_disable t;
     spec_ssb_force_disable := spec_ssb_force_disable t;
     spec_ssb_noexec := false;
     tif_spec_force_update := tif_spec_force_update t |}.

(** The outcome of a prctl call on a task: the return value, the task, and
    whether [speculation_ctrl_update_current] ran, which it does when the
    task is [current]. *)
Record prctl_result : Type := {
  prctl_ret : Z;
  prctl_task : task_struct;
  prctl_updated_current : bool
}.

Definition task_update_spec_tif (is_current : bool) (t : task_struct)
  : task_struct * bool :=
  (* force the update of the real TIF bits *)
  ({| spec_ssb_disable := spec_ssb_disable t;
      spec_ssb_force_disable := spec_ssb_force_disable t;
      spec_ssb_noexec := spec_ssb_noexec t;
      tif_spec_force_update := true |},
   is_current).

Definition prctl_done (is_current : bool) (t : task_struct) : prctl_result :=
  let '(t, upd) := task_update_spec_tif is_current t in
  {| prctl_ret := 0; prctl_task := t; prctl_updated_current := upd |}.

Definition prctl_fail (err : Z) (t : task_struct) : prctl_result :=
  {| prctl_ret := - err; prctl_task := t; prctl_updated_current := false |}.

Definition ssb_prctl_set (mode : ssb_mitigation) (is_current : bool)
    (task : task_struct) (ctrl : Z) : prctl_result :=
  match mode with
  | SPEC_STORE_BYPASS_PRCTL | SPEC_STORE_BYPASS_SECCOMP =>
      if ctrl =? PR_SPEC_ENABLE P then
        (* if speculation is force disabled, enable is not allowed *)
        if spec_ssb_force_disable task then prctl_fail EPERM task
        else prctl_done is_current
               (task_clear_spec_ssb_noexec (task_clear_spec_ssb_disable task))
      else if ctrl =? PR_SPEC_DISABLE P then
        prctl_done is_current
          (task_clear_spec_ssb_noexec (task_set_spec_ssb_disable task))
      else if ctrl =? PR_SPEC_FORCE_DISABLE P then
        prctl_done is_current
          (task_clear_spec_ssb_noexec
             (task_set_spec_ssb_force_disable (task_set_spec_ssb_disable task)))
      else if ctrl =? PR_SPEC_DISABLE_NOEXEC P then
        if spec_ssb_force_disable task then prctl_fail EPERM task
        else prctl_done is_current
               (task_set_spec_ssb_noexec (task_set_spec_ssb_disable task))
      else prctl_fail ERANGE task
  | _ => prctl_fail ENXIO task
  end.

Definition arch_prctl_spec_ctrl_set (mode : ssb_mitigation) (is_current : bool)
    (task : task_struct) (which ctrl : Z) : prctl_result :=
  if which =? PR_SPEC_STORE_BYPASS P then ssb_prctl_set mode is_current task ctrl
  else prctl_fail ENODEV task.

(** Under CONFIG_SECCOMP. *)
Definition arch_seccomp_spec_mitigate (mode : ssb_mitigation)
    (is_current : bool) (task : task_struct) : task_struct :=
  match mode with
  | SPEC_STORE_BYPASS_SECCOMP =>
      prctl_task (ssb_prctl_set mode is_current task (PR_SPEC_FORCE_DISABLE P))
  | _ => task
  end.

Definition ssb_prctl_get (mode : ssb_mitigation) (affected : bool)
    (task : task_struct) : Z :=
  match mode with
  | SPEC_STORE_BYPASS_DISABLE => PR_SPEC_DISABLE P
  | SPEC_STORE_BYPASS_SECCOMP | SPEC_STORE_BYPASS_PRCTL =>
      if spec_ssb_force_disable task then
        Z.lor (PR_SPEC_PRCTL P) (PR_SPEC_FORCE_DISABLE P)
      else if spec_ssb_noexec task then
        Z.lor (PR_SPEC_PRCTL P) (PR_SPEC_DISABLE_NOEXEC P)
      else if spec_ssb_disable task then
        Z.lor (PR_SPEC_PRCTL P) (PR_SPEC_DISABLE P)
      else Z.lor (PR_SPEC_PRCTL P) (PR_SPEC_ENABLE P)
  | SPEC_STORE_BYPASS_NONE =>
      if affected then PR_SPEC_ENABLE P else PR_SPEC_NOT_AFFECTED P
  end.

Definition arch_prctl_spec_ctrl_get (x : ext_state) (task : task_struct)
    (which : Z) : Z :=
  if which =? PR_SPEC_STORE_BYPASS P then
    ssb_prctl_get (ssb_mode x)
      (boot_cpu_has_ext X86_BUG_SPEC_STORE_BYPASS x) task
  else - ENODEV.

End Extended.

(** ** L1TF and the sysfs files *)

Definition ULLONG_MAX : Z := 2 ^ 64 - 1.

Definition spectre_v2_strings (m : spectre_v2_mitigation) : string :=
  match m with
  | SPECTRE_V2_NONE => "Vulnerable"
  | SPECTRE_V2_RETPOLINE_MINIMAL => "Vulnerable: Minimal ASM retpoline"
  | SPECTRE_V2_RETPOLINE_NO_IBPB => "Vulnerable: Retpoline without IBPB"
  | SPECTRE_V2_RETPOLINE_UNSAFE_MODULE =>
      "Vulnerable: Retpoline with unsafe module(s)"
  | SPECTRE_V2_RETPOLINE_AMD => "Vulnerable: AMD retpoline (LFENCE/JMP)"
  | SPECTRE_V2_RETPOLINE => "Mitigation: Full retpoline"
  | SPECTRE_V2_RETPOLINE_IBRS_USER =>
      "Mitigation: Full retpoline and IBRS (user space)"
  | SPECTRE_V2_IBRS => "Mitigation: IBRS (kernel)"
  | SPECTRE_V2_IBRS_ALWAYS => "Mitigation: IBRS (kernel and user space)"
  | SPECTRE_V2_IBP_DISABLED => "Mitigation: IBP disabled"
  | SPECTRE_V2_IBRS_ENHANCED => "Mitigation: Enhanced IBRS"
  end.

Definition L1TF_DEFAULT_MSG : string := "Mitigation: PTE Inversion".

Definition l1tf_vmx_states (v : vmx_l1d_flush_state) : string :=
  match v with
  | VMENTER_L1D_FLUSH_AUTO => "auto"
  | VMENTER_L1D_FLUSH_NEVER => "vulnerable"
  | VMENTER_L1D_FLUSH_COND => "conditional cache flushes"
  | VMENTER_L1D_FLUSH_ALWAYS => "cache flushes"
  | VMENTER_L1D_FLUSH_EPT_DISABLED => "EPT disabled"
  | VMENTER_L1D_FLUSH_NOT_REQUIRED => "flush not necessary"
  end.

(** The [bug] argument of [cpu_show_common]: a bit of either family. *)
Inductive x86_bug : Type :=
| CoreBug (c : x86_cap)
| ExtBug (c : x86_cap_ext).

Section L1tfAndSysfs.

Variable K : msr_index.
Variable F : intel_fam6.
Variable hw : cpu_facts.
Variable hx : cpu_facts_ext.

(** The case labels of [override_cache_bits]. *)
Definition cache_bits_models : list Z :=
  [INTEL_FAM6_NEHALEM F; INTEL_FAM6_WESTMERE F; INTEL_FAM6_SANDYBRIDGE F;
   INTEL_FAM6_IVYBRIDGE F; INTEL_FAM6_HASWELL_CORE F; INTEL_FAM6_HASWELL_ULT F;
   INTEL_FAM6_HASWELL_GT3E F; INTEL_FAM6_BROADWELL_CORE F;
   INTEL_FAM6_BROADWELL_GT3E F; INTEL_FAM6_SKYLAKE_MOBILE F;
   INTEL_FAM6_SKYLAKE_DESKTOP F; INTEL_FAM6_KABYLAKE_MOBILE F;
   INTEL_FAM6_KABYLAKE_DESKTOP F].

(** Called on [boot_cpu_data]. *)
Definition override_cache_bits (x : ext_state) : ext_state :=
  if negb (x86_family hx =? 6) then x
  else if existsb (Z.eqb (x86_model hx)) cache_bits_models then
    when_ext (x86_cache_bits x <? 44) (set_x86_cache_bits 44) x
  else x.

Definition l1tf_select_mitigation (x : ext_state) : ext_state :=
  if negb (boot_cpu_has_ext hx X86_BUG_L1TF x) then x
  else
    let x := override_cache_bits x in
    let x :=
      if cpu_mitigations_off hw then
        set_l1tf_mitigation L1TF_MITIGATION_OFF x
      else if cpu_mitigations_auto_nosmt hw then
        set_l1tf_mitigation L1TF_MITIGATION_FLUSH_NOSMT x
      else x in
    let x :=
      match l1tf_mitigation x with
      | L1TF_MITIGATION_OFF | L1TF_MITIGATION_FLUSH_NOWARN
      | L1TF_MITIGATION_FLUSH => x
      | L1TF_MITIGATION_FLUSH_NOSMT | L1TF_MITIGATION_FULL =>
          on_core (cpu_smt_disable false) x
      | L1TF_MITIGATION_FULL_FORCE => on_core (cpu_smt_disable true) x
      end in
    if PAGETABLE_LEVELS hx =? 2 then
      on_core (pr_warn ("L1TF: Kernel not compiled for PAE. " ++
                        "No mitigation for L1TF" ++ LF)%string) x
    else
      let half_pa :=
        Z.shiftl (l1tf_pfn_limit hx (x86_cache_bits x)) (PAGE_SHIFT hx)
          mod 2 ^ 64 in
      if e820_any_mapped_ram hx half_pa (ULLONG_MAX - half_pa) then
        on_core (pr_warn ("L1TF: System has more than MAX_PA/2 memory. " ++
                          "L1TF mitigation not effective." ++ LF)%string) x
      else setup_force_cpu_cap_ext X86_FEATURE_L1TF_PTEINV x.

Definition l1tf_cmdline (str : option string) (x : ext_state)
  : Z * ext_state :=
  if negb (boot_cpu_has_ext hx X86_BUG_L1TF x) then (0, x)
  else
    match str with
    | None => (- EINVAL, x)
    | Some str =>
        if streq str "off" then
          (0, set_l1tf_mitigation L1TF_MITIGATION_OFF x)
        else if streq str "flush,nowarn" then
          (0, set_l1tf_mitigation L1TF_MITIGATION_FLUSH_NOWARN x)
        else if streq str "flush" then
          (0, set_l1tf_mitigation L1TF_MITIGATION_FLUSH x)
        else if streq str "flush,nosmt" then
          (0, set_l1tf_mitigation L1TF_MITIGATION_FLUSH_NOSMT x)
        else if streq str "full" then
          (0, set_l1tf_mitigation L1TF_MITIGATION_FULL x)
        else if streq str "full,force" then
          (0, set_l1tf_mitigation L1TF_MITIGATION_FULL_FORCE x)
        else (0, x)
    end.

(** *** The sysfs files; each function returns what it prints into [buf] *)

Definition smt_vulnerable_or_disabled (s : state) : string :=
  if sched_smt_active s then "vulnerable" else "disabled".

Definition l1tf_show_state (x : ext_state) : string :=
  if CONFIG_KVM_INTEL hx then
    match l1tf_vmx_mitigation x with
    | VMENTER_L1D_FLUSH_AUTO => (L1TF_DEFAULT_MSG ++ LF)%string
    | v =>
        if match v with
           | VMENTER_L1D_FLUSH_EPT_DISABLED => true
           | VMENTER_L1D_FLUSH_NEVER => sched_smt_active (core x)
           | _ => false
           end then
          (L1TF_DEFAULT_MSG ++ "; VMX: " ++ l1tf_vmx_states v ++ LF)%string
        else
          (L1TF_DEFAULT_MSG ++ "; VMX: " ++ l1tf_vmx_states v ++ ", SMT " ++
           smt_vulnerable_or_disabled (core x) ++ LF)%string
    end
  else (L1TF_DEFAULT_MSG ++ LF)%string.

Definition itlb_multihit_show_state (x : ext_state) : string :=
  if CONFIG_KVM_INTEL hx then
    if itlb_multihit_kvm_mitigation x =? -1 then
      ("Processor vulnerable" ++ LF)%string
    else if negb (itlb_multihit_kvm_mitigation x =? 0) then
      ("KVM: Mitigation: Split huge pages" ++ LF)%string
    else ("KVM: Vulnerable" ++ LF)%string
  else ("Processor vulnerable" ++ LF)%string.

Definition mds_show_state (s : state) : string :=
  if x86_hyper hx then
    (mds_strings (mds_mitigation s) ++ "; SMT Host state unknown" ++ LF)%string
  else if boot_cpu_has hw X86_BUG_MSBDS_ONLY then
    (mds_strings (mds_mitigation s) ++ "; SMT " ++
     (if mds_eqb (mds_mitigation s) MDS_MITIGATION_OFF then "vulnerable"
      else if sched_smt_active s then "mitigated" else "disabled") ++
     LF)%string
  else
    (mds_strings (mds_mitigation s) ++ "; SMT " ++
     smt_vulnerable_or_disabled s ++ LF)%string.

Definition tsx_async_abort_show_state (s : state) : string :=
  if taa_eqb (taa_mitigation s) TAA_MITIGATION_TSX_DISABLED ||
     taa_eqb (taa_mitigation s) TAA_MITIGATION_OFF then
    (taa_strings (taa_mitigation s) ++ LF)%string
  else if boot_cpu_has hw X86_FEATURE_HYPERVISOR then
    (taa_strings (taa_mitigation s) ++ "; SMT Host state unknown" ++ LF)%string
  else
    (taa_strings (taa_mitigation s) ++ "; SMT " ++
     smt_vulnerable_or_disabled s ++ LF)%string.

Definition mmio_stale_data_show_state (s : state) : string :=
  if mmio_eqb (mmio_mitigation s) MMIO_MITIGATION_OFF then
    (mmio_strings (mmio_mitigation s) ++ LF)%string
  else if boot_cpu_has hw X86_FEATURE_HYPERVISOR then
    (mmio_strings (mmio_mitigation s) ++ "; SMT Host state unknown" ++
     LF)%string
  else
    (mmio_strings (mmio_mitigation s) ++ "; SMT " ++
     smt_vulnerable_or_disabled s ++ LF)%string.

Definition stibp_state (s : state) : string :=
  match spectre_v2_enabled s with
  | SPECTRE_V2_IBRS_ENHANCED => EmptyString
  | _ =>
      if tst (x86_spec_ctrl_base s) (SPEC_CTRL_STIBP K) then ", STIBP"
      else EmptyString
  end.

Definition ibpb_state : string :=
  if ibpb_enabled hx then ", IBPB" else EmptyString.

Definition srbds_show_state (s : state) : string :=
  (srbds_strings (srbds_mitigation s) ++ LF)%string.

Definition retbleed_show_state (s : state) : string :=
  match retbleed_mitigation s with
  | RETBLEED_MITIGATION_UNRET =>
      if negb (vendor_eqb (x86_vendor hw) X86_VENDOR_AMD) then
        ("Vulnerable: untrained return thunk on non-Zen uarch" ++ LF)%string
      else
        (retbleed_strings (retbleed_mitigation s) ++ "; SMT " ++
         (if negb (sched_smt_active s) then "disabled"
          else if tst (x86_spec_ctrl_base s) (SPEC_CTRL_STIBP K) then
            "enabled with STIBP protection"
          else "vulnerable") ++ LF)%string
  | _ => (retbleed_strings (retbleed_mitigation s) ++ LF)%string
  end.

Definition gds_show_state (s : state) : string :=
  (gds_strings (gds_mitigation s) ++ LF)%string.

Definition boot_cpu_has_bug_any (bug : x86_bug) (x : ext_state) : bool :=
  match bug with
  | CoreBug c => boot_cpu_has_bug hw c
  | ExtBug c => boot_cpu_has_ext hx c x
  end.

Definition cpu_show_common (bug : x86_bug) (x : ext_state) : string :=
  let vulnerable := ("Vulnerable" ++ LF)%string in
  if negb (boot_cpu_has_bug_any bug x) then ("Not affected" ++ LF)%string
  else
    match bug with
    | CoreBug X86_BUG_CPU_MELTDOWN =>
        if kaiser_enabled hx then ("Mitigation: PTI" ++ LF)%string
        else vulnerable
    | CoreBug X86_BUG_SPECTRE_V1 =>
        (spectre_v1_strings (spectre_v1_mitigation (core x)) ++ LF)%string
    | CoreBug X86_BUG_SPECTRE_V2 =>
        (spectre_v2_strings (spectre_v2_enabled (core x)) ++ ibpb_state ++
         stibp_state (core x) ++ LF)%string
    | ExtBug X86_BUG_SPEC_STORE_BYPASS =>
        (ssb_strings (ssb_mode x) ++ LF)%string
    | ExtBug X86_BUG_L1TF =>
        if boot_cpu_has_ext hx X86_FEATURE_L1TF_PTEINV x then l1tf_show_state x
        else vulnerable
    | CoreBug X86_BUG_MDS => mds_show_state (core x)
    | CoreBug X86_BUG_TAA => tsx_async_abort_show_state (core x)
    | ExtBug X86_BUG_ITLB_MULTIHIT => itlb_multihit_show_state x
    | CoreBug X86_BUG_SRBDS => srbds_show_state (core x)
    | CoreBug X86_BUG_MMIO_STALE_DATA => mmio_stale_data_show_state (core x)
    | CoreBug X86_BUG_RETBLEED => retbleed_show_state (core x)
    | CoreBug X86_BUG_GDS => gds_show_state (core x)
    | _ => vulnerable
    end.

Definition cpu_show_meltdown := cpu_show_common (CoreBug X86_BUG_CPU_MELTDOWN).
Definition cpu_show_spectre_v1 := cpu_show_common (CoreBug X86_BUG_SPECTRE_V1).
Definition cpu_show_spectre_v2 := cpu_show_common (CoreBug X86_BUG_SPECTRE_V2).
Definition cpu_show_spec_store_bypass :=
  cpu_show_common (ExtBug X86_BUG_SPEC_STORE_BYPASS).
Definition cpu_show_l1tf := cpu_show_common (ExtBug X86_BUG_L1TF).
Definition cpu_show_mds := cpu_show_common (CoreBug X86_BUG_MDS).
Definition cpu_show_tsx_async_abort := cpu_show_common (CoreBug X86_BUG_TAA).
Definition cpu_show_itlb_multihit :=
  cpu_show_common (ExtBug X86_BUG_ITLB_MULTIHIT).
Definition cpu_show_srbds := cpu_show_common (CoreBug X86_BUG_SRBDS).
Definition cpu_show_mmio_stale_data :=
  cpu_show_common (CoreBug X86_BUG_MMIO_STALE_DATA).
Definition cpu_show_retbleed := cpu_show_common (CoreBug X86_BUG_RETBLEED).
Definition cpu_show_gds := cpu_show_common (CoreBug X86_BUG_GDS).

End L1tfAndSysfs.

(** ** The boot sequence with the SSB and L1TF steps *)

Section BootExtended.

Variable K : msr_index.
Variable F : intel_fam6.
Variable hw : cpu_facts.
Variable hx : cpu_facts_ext.

(** The mitigation part of [check_bugs] with [ssb_parse_cmdline],
    [ssb_select_mitigation] and [l1tf_select_mitigation] in their places.
    [spec_ctrl_init], [spectre_v2_select_mitigation] and
    [spec_ctrl_cpu_init], which depend on spec_ctrl.c, are still taken as
    done. *)
Definition check_bugs_ext (x : ext_state) : ext_state :=
  let x := ssb_parse_cmdline hw x in
  let x := on_core (spectre_v1_select_mitigation hw) x in
  let x := on_core (retbleed_select_mitigation K hw) x in
  let x := ssb_select_mitigation hx x in
  let x := l1tf_select_mitigation F hw hx x in
  let x := on_core (md_clear_select_mitigation K hw) x in
  let x := on_core (srbds_select_mitigation K hw) x in
  let x := on_core (gds_select_mitigation K hw) x in
  on_core (arch_smt_update K hw) x.

End BootExtended.

(** A state with its log and [x86_spec_ctrl_base] blanked: what is left is
    what the selectors of the first part settle. *)
Definition settings (s : state) : state :=
  set_ktrace [] (set_x86_spec_ctrl_base 0 s).

(** ** Vocabulary and machines for this part *)

(** A sysfs attribute is one line: the text ends in a newline and holds no
    other. *)
Fixpoint one_line (out : string) : bool :=
  match out with
  | EmptyString => false
  | String c EmptyString => Ascii.eqb c "010"%char
  | String c rest => negb (Ascii.eqb c "010"%char) && one_line rest
  end.

(** The values a task reads and writes through the prctl. *)
Definition prctl_controls (P : prctl_abi) : list Z :=
  [PR_SPEC_ENABLE P; PR_SPEC_DISABLE P; PR_SPEC_FORCE_DISABLE P;
   PR_SPEC_DISABLE_NOEXEC P].

(** A series of [arch_prctl_spec_ctrl_set] calls, each a pair of [which]
    and [ctrl], on one task. *)
Definition prctl_calls (P : prctl_abi) (mode : ssb_mitigation)
    (is_current : bool) (calls : list (Z * Z)) (task : task_struct)
  : task_struct :=
  fold_left
    (fun t c => prctl_task
                  (arch_prctl_spec_ctrl_set P mode is_current t (fst c) (snd c)))
    calls task.

(** The variables [ssb_select_mitigation] settles. *)
Definition ssb_settled (x : ext_state) : ssb_mitigation * Z * Z * Z :=
  (ssb_mode x, ssbd_userset_key x, x86_spec_ctrl_base (core x),
   x86_spec_ctrl_mask x).

Definition l1tf_pteinv_blocked (hx : cpu_facts_ext) (x : ext_state) : bool :=
  (PAGETABLE_LEVELS hx =? 2) ||
  let half_pa :=
    Z.shiftl (l1tf_pfn_limit hx (x86_cache_bits x)) (PAGE_SHIFT hx)
      mod 2 ^ 64 in
  e820_any_mapped_ram hx half_pa (ULLONG_MAX - half_pa).

Definition caps_ext_of (l : list x86_cap_ext) (c : x86_cap_ext) : bool :=
  existsb (x86_cap_ext_beq c) l.

(** A 64-bit machine with 4 KiB pages, seccomp and KVM built in, no RAM in
    the upper half of the physical address space. *)
Definition machine_ext (l : list x86_cap_ext) (family model : Z)
  : cpu_facts_ext := {|
  cpu_caps_ext := caps_ext_of l;
  x86_family := family;
  x86_model := model;
  CONFIG_SECCOMP := true;
  CONFIG_KVM_INTEL := true;
  PAGETABLE_LEVELS := 4;
  PAGE_SHIFT := 12;
  SPEC_CTRL_SSBD := Z.shiftl 1 2;
  x86_amd_ls_cfg_base := 0;
  x86_amd_ls_cfg_ssbd_mask := Z.shiftl 1 10;
  l1tf_pfn_limit := fun bits => Z.shiftl 1 (bits - 1 - 12);
  e820_any_mapped_ram := fun _ _ => false;
  ibpb_enabled := true;
  x86_hyper := false;
  kaiser_enabled := true
|}.

Definition boot_ext (s : state) : ext_state := {|
  core := s;
  ssb_cmd := SPEC_STORE_BYPASS_CMD_NONE;
  ssb_mode := SPEC_STORE_BYPASS_NONE;
  ssbd_userset_key := STATIC_KEY_INIT_FALSE;
  x86_spec_ctrl_mask := 0;
  l1tf_mitigation := L1TF_MITIGATION_FLUSH;
  x86_cache_bits := 36;
  l1tf_vmx_mitigation := VMENTER_L1D_FLUSH_AUTO;
  itlb_multihit_kvm_mitigation := -1;
  forced_caps := [];
  msr_writes := []
|}.

Definition fresh_task : task_struct := {|
  spec_ssb_disable := false;
  spec_ssb_force_disable := false;
  spec_ssb_noexec := false;
  tif_spec_force_update := false
|}.

Definition ssb_intel : cpu_facts_ext :=
  machine_ext [X86_FEATURE_SSBD; X86_FEATURE_MSR_SPEC_CTRL;
               X86_BUG_SPEC_STORE_BYPASS; X86_BUG_L1TF] 6 42.

(** * Proofs *)

(** ** Proof automation *)

(** Reduce field reads of updated states, the primitive effects and the
    boolean connectives, and nothing else (message strings stay folded). *)
Ltac st_simpl :=
  cbn [
    mds_mitigation mds_nosmt taa_mitigation taa_nosmt mmio_mitigation
    mmio_nosmt srbds_mitigation srbds_off spectre_v1_mitigation
    spectre_v2_enabled gds_mitigation retbleed_mitigation retbleed_cmd
    retbleed_nosmt x86_spec_ctrl_base mds_user_clear mds_idle_clear
    mmio_stale_data_clear mcu_opt_ctrl sched_smt_active mds_msg_smt_once
    taa_msg_smt_once mmio_msg_smt_once gds_msr_warn_once ktrace
    set_mds_mitigation set_mds_nosmt set_taa_mitigation set_taa_nosmt
    set_mmio_mitigation set_mmio_nosmt set_srbds_mitigation
    set_srbds_off set_spectre_v1_mitigation set_gds_mitigation
    set_retbleed_mitigation set_retbleed_cmd set_retbleed_nosmt
    set_mds_user_clear set_mds_idle_clear set_mmio_stale_data_clear
    set_mcu_opt_ctrl set_sched_smt_active set_mds_msg_smt_once
    set_taa_msg_smt_once set_mmio_msg_smt_once set_gds_msr_warn_once
    set_ktrace emit pr_err pr_warn pr_info setup_force_cpu_cap
    setup_clear_cpu_cap cpu_smt_disable rdmsrl wrmsrl when negb andb orb
    mds_eqb taa_eqb mmio_eqb vendor_eqb fst snd
  ] in *.

(** Split on the scrutinee of a conditional or match of the goal, one
    that contains no other match. *)
Ltac split_cond :=
  match goal with
  | |- context [match ?x with _ => _ end] =>
      lazymatch x with
      | context [match _ with _ => _ end] => fail
      | _ => destruct x eqn:?
      end
  end.

Ltac cases := unfold when in *; repeat (st_simpl; try split_cond); st_simpl.

Lemma mds_eqb_eq (a b : mds_mitigations) : mds_eqb a b = true <-> a = b.
Proof. destruct a, b; simpl; split; congruence. Qed.

Lemma taa_eqb_eq (a b : taa_mitigations) : taa_eqb a b = true <-> a = b.
Proof. destruct a, b; simpl; split; congruence. Qed.

Lemma mmio_eqb_eq (a b : mmio_mitigations) : mmio_eqb a b = true <-> a = b.
Proof. destruct a, b; simpl; split; congruence. Qed.

(** ** RETBleed and the Spectre v2 choice *)

Section Retbleed.

Variable K : msr_index.
Variable hw : cpu_facts.

(** Once past the command switch, the Intel override decides. *)
Lemma retbleed_apply_eibrs (s : state) :
  x86_vendor hw = X86_VENDOR_INTEL ->
  spectre_v2_enabled s = SPECTRE_V2_IBRS_ENHANCED ->
  retbleed_mitigation (retbleed_apply K hw s) = RETBLEED_MITIGATION_EIBRS.
Proof.
  intros Hv Hv2. unfold retbleed_apply. rewrite Hv.
  cases; try reflexivity; congruence.
Qed.

Lemma retbleed_cmd_auto_v2 (s : state) :
  spectre_v2_enabled (retbleed_cmd_auto hw s) = spectre_v2_enabled s.
Proof. unfold retbleed_cmd_auto. cases; reflexivity. Qed.

(** C1, as amended: on RETBleed-affected Intel hardware with mitigations
    not disabled and Spectre v2 settled on Enhanced IBRS, the selector ends
    with the Enhanced IBRS choice for every [retbleed=] command other than
    [off]; with [off] it returns at once and leaves the whole state,
    choice included, as it found it. *)
Theorem retbleed_follows_eibrs (s : state) :
  x86_vendor hw = X86_VENDOR_INTEL ->
  boot_cpu_has_bug hw X86_BUG_RETBLEED = true ->
  cpu_mitigations_off hw = false ->
  spectre_v2_enabled s = SPECTRE_V2_IBRS_ENHANCED ->
  (retbleed_cmd s <> RETBLEED_CMD_OFF ->
   retbleed_mitigation (retbleed_select_mitigation K hw s)
     = RETBLEED_MITIGATION_EIBRS) /\
  (retbleed_cmd s = RETBLEED_CMD_OFF ->
   retbleed_select_mitigation K hw s = s).
Proof.
  intros Hv Hbug Hoff Hv2. unfold retbleed_select_mitigation.
  rewrite Hbug, Hoff. st_simpl. split; intros Hcmd.
  - destruct (retbleed_cmd s); try congruence;
      try destruct (boot_cpu_has hw X86_FEATURE_IBPB);
      apply retbleed_apply_eibrs; auto;
      rewrite ?retbleed_cmd_auto_v2; assumption.
  - rewrite Hcmd. reflexivity.
Qed.

End Retbleed.

(** With [retbleed=off] the RETBleed choice stays "Vulnerable" although
    Spectre v2 runs with Enhanced IBRS. *)
Lemma retbleed_off_not_eibrs :
  x86_vendor intel_retbleed = X86_VENDOR_INTEL /\
  boot_cpu_has_bug intel_retbleed X86_BUG_RETBLEED = true /\
  cpu_mitigations_off intel_retbleed = false /\
  spectre_v2_enabled retbleed_off_boot = SPECTRE_V2_IBRS_ENHANCED /\
  retbleed_cmd retbleed_off_boot = RETBLEED_CMD_OFF /\
  retbleed_mitigation
    (retbleed_select_mitigation x86_msr_index intel_retbleed retbleed_off_boot)
    = RETBLEED_MITIGATION_NONE /\
  retbleed_mitigation
    (retbleed_select_mitigation x86_msr_index intel_retbleed retbleed_off_boot)
    <> RETBLEED_MITIGATION_EIBRS.
Proof. repeat split; try reflexivity. vm_compute. discriminate. Qed.

Lemma retbleed_follows_eibrs_witness :
  retbleed_mitigation
    (retbleed_select_mitigation x86_msr_index intel_retbleed
       (boot_state 0 true SPECTRE_V2_IBRS_ENHANCED))
    = RETBLEED_MITIGATION_EIBRS.
Proof.
  apply (retbleed_follows_eibrs x86_msr_index intel_retbleed
           (boot_state 0 true SPECTRE_V2_IBRS_ENHANCED));
    try reflexivity.
  discriminate.
Defined.

(** ** MMIO Stale Data: which buffer-clear switch is taken *)

Section Mmio.

Variable K : msr_index.
Variable hw : cpu_facts.

(** The selector ends with a choice other than Off exactly when the CPU is
    affected, mitigations are not globally off and the choice it starts
    from ([mmio_stale_data=]) is not Off. *)
Lemma mmio_select_not_off (s : state) :
  mmio_mitigation (mmio_select_mitigation K hw s) <> MMIO_MITIGATION_OFF <->
  boot_cpu_has_bug hw X86_BUG_MMIO_STALE_DATA = true /\
  cpu_mitigations_off hw = false /\
  mmio_mitigation s <> MMIO_MITIGATION_OFF.
Proof.
  unfold mmio_select_mitigation.
  destruct (boot_cpu_has_bug hw X86_BUG_MMIO_STALE_DATA),
    (cpu_mitigations_off hw), (mmio_mitigation s) eqn:Hm;
    cases; rewrite ?Hm; intuition congruence.
Qed.

(** C7: when the CPU is affected by MMIO Stale Data and the selected
    mitigation is not Off, one run of the selector increments exactly one
    of the two switches: [mds_user_clear] if the CPU is also affected by
    MDS, or by TAA with RTM enabled, and [mmio_stale_data_clear] otherwise;
    the other one keeps its count. *)
Theorem mmio_select_buffer_clear (s : state) :
  boot_cpu_has_bug hw X86_BUG_MMIO_STALE_DATA = true ->
  mmio_mitigation (mmio_select_mitigation K hw s) <> MMIO_MITIGATION_OFF ->
  let s' := mmio_select_mitigation K hw s in
  (boot_cpu_has_bug hw X86_BUG_MDS ||
   (boot_cpu_has_bug hw X86_BUG_TAA && boot_cpu_has hw X86_FEATURE_RTM) = true ->
   mds_user_clear s' = static_key_slow_inc (mds_user_clear s) /\
   mmio_stale_data_clear s' = mmio_stale_data_clear s) /\
  (boot_cpu_has_bug hw X86_BUG_MDS ||
   (boot_cpu_has_bug hw X86_BUG_TAA && boot_cpu_has hw X86_FEATURE_RTM) = false ->
   mds_user_clear s' = mds_user_clear s /\
   mmio_stale_data_clear s' = static_key_slow_inc (mmio_stale_data_clear s)).
Proof.
  intros Hbug Hsel.
  apply mmio_select_not_off in Hsel. destruct Hsel as (_ & Hoff & Hm).
  unfold mmio_select_mitigation. rewrite Hbug, Hoff.
  destruct (mmio_mitigation s) eqn:E; try congruence;
    st_simpl; split; intros Hc; rewrite Hc; cases; auto.
Qed.

End Mmio.

Lemma mmio_select_buffer_clear_witness :
  mds_user_clear
    (mmio_select_mitigation x86_msr_index mmio_and_mds
       (boot_state 0 false SPECTRE_V2_NONE)) = 1 /\
  mmio_stale_data_clear
    (mmio_select_mitigation x86_msr_index mmio_only
       (boot_state 0 false SPECTRE_V2_NONE)) = 1.
Proof.
  split.
  - apply (mmio_select_buffer_clear x86_msr_index mmio_and_mds
             (boot_state 0 false SPECTRE_V2_NONE));
      [reflexivity | vm_compute; discriminate | reflexivity].
  - apply (mmio_select_buffer_clear x86_msr_index mmio_only
             (boot_state 0 false SPECTRE_V2_NONE));
      [reflexivity | vm_compute; discriminate | reflexivity].
Defined.

(** ** The MDS/TAA/MMIO triad *)

Section MdClear.

Variable K : msr_index.
Variable hw : cpu_facts.

(** What each selector of the triad leaves alone. *)
Lemma mds_select_frame (s : state) :
  taa_mitigation (mds_select_mitigation hw s) = taa_mitigation s /\
  mmio_mitigation (mds_select_mitigation hw s) = mmio_mitigation s /\
  mds_idle_clear (mds_select_mitigation hw s) = mds_idle_clear s /\
  mmio_stale_data_clear (mds_select_mitigation hw s) = mmio_stale_data_clear s.
Proof. unfold mds_select_mitigation. cases; auto. Qed.

Lemma taa_select_frame (s : state) :
  mds_mitigation (taa_select_mitigation K hw s) = mds_mitigation s /\
  mmio_mitigation (taa_select_mitigation K hw s) = mmio_mitigation s /\
  mds_idle_clear (taa_select_mitigation K hw s) = mds_idle_clear s /\
  mmio_stale_data_clear (taa_select_mitigation K hw s) = mmio_stale_data_clear s.
Proof. unfold taa_select_mitigation. cases; auto. Qed.

Lemma mmio_select_frame (s : state) :
  mds_mitigation (mmio_select_mitigation K hw s) = mds_mitigation s /\
  taa_mitigation (mmio_select_mitigation K hw s) = taa_mitigation s.
Proof. unfold mmio_select_mitigation. cases; auto. Qed.

Lemma md_clear_print_frame (s : state) :
  mds_mitigation (md_clear_print hw s) = mds_mitigation s /\
  taa_mitigation (md_clear_print hw s) = taa_mitigation s /\
  mmio_mitigation (md_clear_print hw s) = mmio_mitigation s /\
  mds_user_clear (md_clear_print hw s) = mds_user_clear s /\
  mds_idle_clear (md_clear_print hw s) = mds_idle_clear s /\
  mmio_stale_data_clear (md_clear_print hw s) = mmio_stale_data_clear s /\
  sched_smt_active (md_clear_print hw s) = sched_smt_active s.
Proof. unfold md_clear_print. cases; repeat split; reflexivity. Qed.

(** What a selector run on an affected CPU, mitigations on, ends with. *)
Lemma mds_select_affected (s : state) :
  boot_cpu_has_bug hw X86_BUG_MDS = true ->
  cpu_mitigations_off hw = false ->
  mds_mitigation s <> MDS_MITIGATION_OFF ->
  mds_mitigation (mds_select_mitigation hw s) <> MDS_MITIGATION_OFF.
Proof.
  intros Hb Ho Hm. unfold mds_select_mitigation. rewrite Hb, Ho.
  destruct (mds_mitigation s) eqn:E; cases; congruence.
Qed.

Lemma taa_select_affected (s : state) :
  boot_cpu_has_bug hw X86_BUG_TAA = true ->
  cpu_mitigations_off hw = false ->
  taa_mitigation s <> TAA_MITIGATION_OFF ->
  taa_mitigation (taa_select_mitigation K hw s) <> TAA_MITIGATION_OFF.
Proof.
  intros Hb Ho Hm. unfold taa_select_mitigation. rewrite Hb, Ho.
  destruct (taa_mitigation s) eqn:E; cases; congruence.
Qed.

Lemma mmio_select_affected (s : state) :
  boot_cpu_has_bug hw X86_BUG_MMIO_STALE_DATA = true ->
  cpu_mitigations_off hw = false ->
  mmio_mitigation s <> MMIO_MITIGATION_OFF ->
  mmio_mitigation (mmio_select_mitigation K hw s) <> MMIO_MITIGATION_OFF.
Proof. intros. apply mmio_select_not_off. auto. Qed.

(** The update pass keeps the switch as it finds it when it is off, and
    only ever raises it otherwise. *)
Lemma md_clear_update_switch (s : state) :
  static_key_enabled (mds_user_clear (md_clear_update_mitigation K hw s)) = true ->
  static_key_enabled (mds_user_clear s) = true.
Proof.
  unfold md_clear_update_mitigation.
  destruct (cpu_mitigations_off hw); [auto|].
  destruct (static_key_enabled (mds_user_clear s)) eqn:E; [auto|].
  st_simpl. destruct (md_clear_print_frame s) as (_ & _ & _ & -> & _).
  congruence.
Qed.

Lemma md_clear_update_unfold (s : state) :
  cpu_mitigations_off hw = false ->
  static_key_enabled (mds_user_clear s) = true ->
  md_clear_update_mitigation K hw s =
  md_clear_print hw (reselect_mmio K hw (reselect_taa K hw (reselect_mds hw s))).
Proof.
  intros Hoff Hen. unfold md_clear_update_mitigation.
  rewrite Hoff, Hen. reflexivity.
Qed.

Lemma reselect_mds_spec (s : state) :
  cpu_mitigations_off hw = false ->
  (boot_cpu_has_bug hw X86_BUG_MDS = true ->
   mds_mitigation (reselect_mds hw s) <> MDS_MITIGATION_OFF) /\
  taa_mitigation (reselect_mds hw s) = taa_mitigation s /\
  mmio_mitigation (reselect_mds hw s) = mmio_mitigation s.
Proof.
  intros Hoff. unfold reselect_mds, when.
  destruct (mds_eqb (mds_mitigation s) MDS_MITIGATION_OFF) eqn:E;
    destruct (boot_cpu_has_bug hw X86_BUG_MDS) eqn:Hb; cbn [andb];
    (split; [intros Hb'|split]); try discriminate; try reflexivity.
  - apply mds_select_affected; auto. discriminate.
  - apply (mds_select_frame (set_mds_mitigation MDS_MITIGATION_FULL s)).
  - apply (mds_select_frame (set_mds_mitigation MDS_MITIGATION_FULL s)).
  - intros Hc. rewrite Hc in E. discriminate.
Qed.

Lemma reselect_taa_spec (s : state) :
  cpu_mitigations_off hw = false ->
  (boot_cpu_has_bug hw X86_BUG_TAA = true ->
   taa_mitigation (reselect_taa K hw s) <> TAA_MITIGATION_OFF) /\
  mds_mitigation (reselect_taa K hw s) = mds_mitigation s /\
  mmio_mitigation (reselect_taa K hw s) = mmio_mitigation s.
Proof.
  intros Hoff. unfold reselect_taa, when.
  destruct (taa_eqb (taa_mitigation s) TAA_MITIGATION_OFF) eqn:E;
    destruct (boot_cpu_has_bug hw X86_BUG_TAA) eqn:Hb; cbn [andb];
    (split; [intros Hb'|split]); try discriminate; try reflexivity.
  - apply taa_select_affected; auto. discriminate.
  - apply (taa_select_frame (set_taa_mitigation TAA_MITIGATION_VERW s)).
  - apply (taa_select_frame (set_taa_mitigation TAA_MITIGATION_VERW s)).
  - intros Hc. rewrite Hc in E. discriminate.
Qed.

Lemma reselect_mmio_spec (s : state) :
  cpu_mitigations_off hw = false ->
  (boot_cpu_has_bug hw X86_BUG_MMIO_STALE_DATA = true ->
   mmio_mitigation (reselect_mmio K hw s) <> MMIO_MITIGATION_OFF) /\
  mds_mitigation (reselect_mmio K hw s) = mds_mitigation s /\
  taa_mitigation (reselect_mmio K hw s) = taa_mitigation s.
Proof.
  intros Hoff. unfold reselect_mmio, when.
  destruct (mmio_eqb (mmio_mitigation s) MMIO_MITIGATION_OFF) eqn:E;
    destruct (boot_cpu_has_bug hw X86_BUG_MMIO_STALE_DATA) eqn:Hb; cbn [andb];
    (split; [intros Hb'|split]); try discriminate; try reflexivity.
  - apply mmio_select_affected; auto. discriminate.
  - apply (mmio_select_frame (set_mmio_mitigation MMIO_MITIGATION_VERW s)).
  - apply (mmio_select_frame (set_mmio_mitigation MMIO_MITIGATION_VERW s)).
  - intros Hc. rewrite Hc in E. discriminate.
Qed.

(** After the update pass has seen the switch on, no affected member of
    the triad is left at Off. *)
Lemma md_clear_update_no_off (s : state) :
  cpu_mitigations_off hw = false ->
  static_key_enabled (mds_user_clear s) = true ->
  let s' := md_clear_update_mitigation K hw s in
  (boot_cpu_has_bug hw X86_BUG_MDS = true ->
   mds_mitigation s' <> MDS_MITIGATION_OFF) /\
  (boot_cpu_has_bug hw X86_BUG_TAA = true ->
   taa_mitigation s' <> TAA_MITIGATION_OFF) /\
  (boot_cpu_has_bug hw X86_BUG_MMIO_STALE_DATA = true ->
   mmio_mitigation s' <> MMIO_MITIGATION_OFF).
Proof.
  intros Hoff Hen s'. subst s'. rewrite md_clear_update_unfold by assumption.
  destruct (md_clear_print_frame
              (reselect_mmio K hw (reselect_taa K hw (reselect_mds hw s))))
    as (-> & -> & -> & _).
  destruct (reselect_mds_spec s Hoff) as (M1 & _ & _).
  destruct (reselect_taa_spec (reselect_mds hw s) Hoff) as (T1 & T2 & _).
  destruct (reselect_mmio_spec (reselect_taa K hw (reselect_mds hw s)) Hoff)
    as (I1 & I2 & I3).
  rewrite I2, I3, T2. auto.
Qed.

(** The choice a selector gives when it starts from the full mode does not
    depend on the rest of the state. *)
Lemma mds_select_from_full (a b : state) :
  mds_mitigation
    (mds_select_mitigation hw (set_mds_mitigation MDS_MITIGATION_FULL a)) =
  mds_mitigation
    (mds_select_mitigation hw (set_mds_mitigation MDS_MITIGATION_FULL b)).
Proof. unfold mds_select_mitigation. cases; reflexivity. Qed.

Lemma taa_select_from_full (a b : state) :
  taa_mitigation
    (taa_select_mitigation K hw (set_taa_mitigation TAA_MITIGATION_VERW a)) =
  taa_mitigation
    (taa_select_mitigation K hw (set_taa_mitigation TAA_MITIGATION_VERW b)).
Proof. unfold taa_select_mitigation. cases; reflexivity. Qed.

Lemma mmio_select_from_full (a b : state) :
  mmio_mitigation
    (mmio_select_mitigation K hw
       (set_mmio_mitigation MMIO_MITIGATION_VERW a)) =
  mmio_mitigation
    (mmio_select_mitigation K hw
       (set_mmio_mitigation MMIO_MITIGATION_VERW b)).
Proof. unfold mmio_select_mitigation. cases; reflexivity. Qed.

(** C9: after [md_clear_select_mitigation], with mitigations not globally
    disabled, if the shared switch [mds_user_clear] is on then no affected
    member of the MDS/TAA/MMIO triad is left at Off.  A member that the
    first pass had left at Off, as after an "off" on the command line, has
    been selected again from its full mode: its final choice is the one its
    selector gives when started from Full (MDS) or Clear CPU buffers (TAA,
    MMIO Stale Data).  A member that the first pass had not left at Off
    keeps the choice of the first pass. *)
Theorem md_clear_select_no_off (s : state) :
  cpu_mitigations_off hw = false ->
  static_key_enabled
    (mds_user_clear (md_clear_select_mitigation K hw s)) = true ->
  let s1 := mmio_select_mitigation K hw
              (taa_select_mitigation K hw (mds_select_mitigation hw s)) in
  let s' := md_clear_select_mitigation K hw s in
  (boot_cpu_has_bug hw X86_BUG_MDS = true ->
   mds_mitigation s' <> MDS_MITIGATION_OFF /\
   mds_mitigation s' =
     (if mds_eqb (mds_mitigation s1) MDS_MITIGATION_OFF
      then mds_mitigation
             (mds_select_mitigation hw
                (set_mds_mitigation MDS_MITIGATION_FULL s1))
      else mds_mitigation s1)) /\
  (boot_cpu_has_bug hw X86_BUG_TAA = true ->
   taa_mitigation s' <> TAA_MITIGATION_OFF /\
   taa_mitigation s' =
     (if taa_eqb (taa_mitigation s1) TAA_MITIGATION_OFF
      then taa_mitigation
             (taa_select_mitigation K hw
                (set_taa_mitigation TAA_MITIGATION_VERW s1))
      else taa_mitigation s1)) /\
  (boot_cpu_has_bug hw X86_BUG_MMIO_STALE_DATA = true ->
   mmio_mitigation s' <> MMIO_MITIGATION_OFF /\
   mmio_mitigation s' =
     (if mmio_eqb (mmio_mitigation s1) MMIO_MITIGATION_OFF
      then mmio_mitigation
             (mmio_select_mitigation K hw
                (set_mmio_mitigation MMIO_MITIGATION_VERW s1))
      else mmio_mitigation s1)).
Proof.
  intros Hoff Hen. cbv zeta. unfold md_clear_select_mitigation in *.
  set (s1 := mmio_select_mitigation K hw
               (taa_select_mitigation K hw (mds_select_mitigation hw s))) in *.
  pose proof (md_clear_update_switch s1 Hen) as Hen1.
  pose proof (md_clear_update_no_off s1 Hoff Hen1) as (Nm & Nt & Ni).
  rewrite md_clear_update_unfold in Nm, Nt, Ni |- * by assumption.
  destruct (md_clear_print_frame
              (reselect_mmio K hw (reselect_taa K hw (reselect_mds hw s1))))
    as (Pm & Pt & Pi & _).
  rewrite Pm in Nm |- *. rewrite Pt in Nt |- *. rewrite Pi in Ni |- *.
  clear Pm Pt Pi.
  destruct (reselect_mds_spec s1 Hoff) as (_ & M2 & M3).
  destruct (reselect_taa_spec (reselect_mds hw s1) Hoff) as (_ & T2 & T3).
  destruct (reselect_mmio_spec (reselect_taa K hw (reselect_mds hw s1)) Hoff)
    as (_ & I2 & I3).
  split; [| split].
  - intros Hb. split; [apply Nm, Hb |].
    rewrite I2, T2. unfold reselect_mds, when. rewrite Hb, andb_true_r.
    destruct (mds_eqb (mds_mitigation s1) MDS_MITIGATION_OFF); reflexivity.
  - intros Hb. split; [apply Nt, Hb |].
    rewrite I3. unfold reselect_taa at 1. unfold when.
    rewrite M2, Hb, andb_true_r.
    destruct (taa_eqb (taa_mitigation s1) TAA_MITIGATION_OFF);
      [apply taa_select_from_full | exact M2].
  - intros Hb. split; [apply Ni, Hb |].
    unfold reselect_mmio at 1. unfold when.
    rewrite T3, M3, Hb, andb_true_r.
    destruct (mmio_eqb (mmio_mitigation s1) MMIO_MITIGATION_OFF);
      [apply mmio_select_from_full | rewrite T3, M3; reflexivity].
Qed.

(** The first pass leaves TAA at Off, and the switch alone, when both
    [tsx_async_abort=off] and [mds=off] were given and MMIO Stale Data asks
    for nothing. *)
Lemma md_clear_select_taa_off (s : state) :
  boot_cpu_has_bug hw X86_BUG_TAA = true ->
  boot_cpu_has hw X86_FEATURE_RTM = true ->
  taa_mitigation s = TAA_MITIGATION_OFF ->
  (boot_cpu_has_bug hw X86_BUG_MDS = true ->
   mds_mitigation s = MDS_MITIGATION_OFF) ->
  static_key_enabled (mds_user_clear s) = false ->
  boot_cpu_has_bug hw X86_BUG_MMIO_STALE_DATA = false \/
  mmio_mitigation s = MMIO_MITIGATION_OFF \/
  cpu_mitigations_off hw = true ->
  taa_mitigation (md_clear_select_mitigation K hw s) = TAA_MITIGATION_OFF.
Proof.
  intros Hb Hrtm Ht Hm Hk Hmmio.
  unfold md_clear_select_mitigation, md_clear_update_mitigation.
  destruct (cpu_mitigations_off hw) eqn:Hoff.
  - rewrite (proj2 (mmio_select_frame _)).
    unfold taa_select_mitigation. rewrite Hb, Hrtm, Hoff. reflexivity.
  - assert (Hs1 : mds_mitigation (mds_select_mitigation hw s) = MDS_MITIGATION_OFF /\
                  mds_user_clear (mds_select_mitigation hw s) = mds_user_clear s).
    { unfold mds_select_mitigation. rewrite Hoff.
      destruct (boot_cpu_has_bug hw X86_BUG_MDS); st_simpl; auto.
      rewrite Hm by reflexivity. auto. }
    destruct Hs1 as (Hs1 & Hk1).
    assert (Hs2 : taa_select_mitigation K hw (mds_select_mitigation hw s)
                  = mds_select_mitigation hw s).
    { unfold taa_select_mitigation. rewrite Hb, Hrtm, Hoff, Hs1.
      rewrite (proj1 (mds_select_frame s)), Ht. reflexivity. }
    rewrite Hs2.
    assert (Hs3 : taa_mitigation (mmio_select_mitigation K hw (mds_select_mitigation hw s))
                  = TAA_MITIGATION_OFF /\
                  mds_user_clear (mmio_select_mitigation K hw (mds_select_mitigation hw s))
                  = mds_user_clear s).
    { rewrite (proj2 (mmio_select_frame _)), (proj1 (mds_select_frame s)).
      split; [assumption|].
      unfold mmio_select_mitigation. rewrite Hoff.
      destruct (mds_select_frame s) as (_ & Hfm & _). rewrite Hfm.
      destruct Hmmio as [Hn | [Ho | Hc]]; try discriminate.
      - rewrite Hn. st_simpl. assumption.
      - rewrite Ho. destruct (boot_cpu_has_bug hw X86_BUG_MMIO_STALE_DATA);
          st_simpl; assumption. }
    destruct Hs3 as (Hs3 & Hk3). rewrite Hk3, Hk. st_simpl.
    rewrite (proj1 (proj2 (md_clear_print_frame _))). exact Hs3.
Qed.

(** C4, as amended: on a CPU affected by TAA whose RTM is enabled, booted
    with [tsx_async_abort=off] and [mds=off], TAA's choice after the whole
    MDS/TAA/MMIO phase is Off, provided the shared switch was off to begin
    with and MMIO Stale Data does not turn it on (the CPU is not affected
    by it, or [mmio_stale_data=off] was given, or mitigations are globally
    off). *)
Theorem taa_off_compound_override (s : state) :
  boot_cpu_has_bug hw X86_BUG_TAA = true ->
  boot_cpu_has hw X86_FEATURE_RTM = true ->
  static_key_enabled (mds_user_clear s) = false ->
  boot_cpu_has_bug hw X86_BUG_MMIO_STALE_DATA = false \/
  mmio_mitigation s = MMIO_MITIGATION_OFF \/
  cpu_mitigations_off hw = true ->
  taa_mitigation (md_clear_select_mitigation K hw (taa_and_mds_off hw s))
    = TAA_MITIGATION_OFF.
Proof.
  intros Hb Hrtm Hk Hmmio.
  assert (Hp : taa_mitigation (taa_and_mds_off hw s) = TAA_MITIGATION_OFF /\
               (boot_cpu_has_bug hw X86_BUG_MDS = true ->
                mds_mitigation (taa_and_mds_off hw s) = MDS_MITIGATION_OFF) /\
               mds_user_clear (taa_and_mds_off hw s) = mds_user_clear s /\
               mmio_mitigation (taa_and_mds_off hw s) = mmio_mitigation s).
  { unfold taa_and_mds_off, mds_cmdline, tsx_async_abort_parse_cmdline.
    rewrite Hb. destruct (boot_cpu_has_bug hw X86_BUG_MDS);
      repeat split; try reflexivity; discriminate. }
  destruct Hp as (Ht & Hm & Hk' & Hi).
  apply md_clear_select_taa_off; auto.
  - rewrite Hk'. assumption.
  - rewrite Hi. assumption.
Qed.

End MdClear.

(** Booted with [tsx_async_abort=off mds=off]: MMIO Stale Data turns the
    shared switch on, and the update pass then selects TAA again from its
    full mode. *)
Lemma taa_off_overridden_by_mmio :
  let s0 := taa_and_mds_off mds_taa_mmio (boot_state 0 false SPECTRE_V2_NONE) in
  let s' := md_clear_select_mitigation x86_msr_index mds_taa_mmio s0 in
  boot_cpu_has_bug mds_taa_mmio X86_BUG_TAA = true /\
  taa_mitigation s0 = TAA_MITIGATION_OFF /\
  mds_mitigation s0 = MDS_MITIGATION_OFF /\
  taa_mitigation s' = TAA_MITIGATION_VERW /\
  taa_mitigation s' <> TAA_MITIGATION_OFF.
Proof. vm_compute. repeat split; discriminate. Qed.

Lemma taa_off_compound_override_witness :
  taa_mitigation
    (md_clear_select_mitigation x86_msr_index taa_only
       (taa_and_mds_off taa_only (boot_state 0 false SPECTRE_V2_NONE)))
    = TAA_MITIGATION_OFF.
Proof.
  apply (taa_off_compound_override x86_msr_index taa_only
           (boot_state 0 false SPECTRE_V2_NONE));
    [reflexivity | reflexivity | reflexivity | left; reflexivity].
Defined.

Lemma md_clear_select_no_off_witness :
  let s0 := boot_state 0 false SPECTRE_V2_NONE in
  let s' := md_clear_select_mitigation x86_msr_index mds_taa_mmio
              (taa_and_mds_off mds_taa_mmio s0) in
  let t' := md_clear_select_mitigation x86_msr_index mds_taa_mmio_no_microcode
              (taa_and_mds_off mds_taa_mmio_no_microcode s0) in
  (mds_mitigation s' = MDS_MITIGATION_FULL /\
   taa_mitigation s' = TAA_MITIGATION_VERW /\
   mmio_mitigation s' = MMIO_MITIGATION_UCODE_NEEDED) /\
  (mds_mitigation t' = MDS_MITIGATION_VMWERV /\
   taa_mitigation t' = TAA_MITIGATION_UCODE_NEEDED /\
   mmio_mitigation t' = MMIO_MITIGATION_UCODE_NEEDED).
Proof.
  cbv zeta. split.
  - destruct (md_clear_select_no_off x86_msr_index mds_taa_mmio
                (taa_and_mds_off mds_taa_mmio
                   (boot_state 0 false SPECTRE_V2_NONE))
                eq_refl eq_refl) as (Hm & Ht & Hi).
    split; [exact (proj2 (Hm eq_refl)) |].
    split; [exact (proj2 (Ht eq_refl)) | exact (proj2 (Hi eq_refl))].
  - destruct (md_clear_select_no_off x86_msr_index mds_taa_mmio_no_microcode
                (taa_and_mds_off mds_taa_mmio_no_microcode
                   (boot_state 0 false SPECTRE_V2_NONE))
                eq_refl eq_refl) as (Hm & Ht & Hi).
    split; [exact (proj2 (Hm eq_refl)) |].
    split; [exact (proj2 (Ht eq_refl)) | exact (proj2 (Hi eq_refl))].
Defined.

(** ** SRBDS: the order of the checks *)

Section Srbds.

Variable K : msr_index.
Variable hw : cpu_facts.

(** C10: on a CPU affected by SRBDS the selector tests, in this order:
    MDS_NO without RTM and without the MMIO bug (TSX disabled), hypervisor
    (unknown), no SRBDS_CTRL microcode (microcode needed), and only then the
    [srbds=off] / [mitigations=off] request.  So the request gives Off
    exactly when none of the earlier tests fires, and the MSR is left alone
    under a hypervisor and when microcode is needed. *)
Theorem srbds_select_priority (s : state) :
  boot_cpu_has_bug hw X86_BUG_SRBDS = true ->
  let s' := srbds_select_mitigation K hw s in
  let off := cpu_mitigations_off hw || srbds_off s in
  let hyp := boot_cpu_has hw X86_FEATURE_HYPERVISOR in
  let ctrl := boot_cpu_has hw X86_FEATURE_SRBDS_CTRL in
  (srbds_tsx_off_case K hw = true ->
   srbds_mitigation s' = SRBDS_MITIGATION_TSX_OFF) /\
  (srbds_tsx_off_case K hw = false -> hyp = true ->
   srbds_mitigation s' = SRBDS_MITIGATION_HYPERVISOR) /\
  (srbds_tsx_off_case K hw = false -> hyp = false -> ctrl = false ->
   srbds_mitigation s' = SRBDS_MITIGATION_UCODE_NEEDED) /\
  (srbds_tsx_off_case K hw = false -> hyp = false -> ctrl = true -> off = true ->
   srbds_mitigation s' = SRBDS_MITIGATION_OFF) /\
  (srbds_tsx_off_case K hw = false -> hyp = false -> ctrl = true -> off = false ->
   srbds_mitigation s' = srbds_mitigation s) /\
  (off = true ->
   (srbds_mitigation s' = SRBDS_MITIGATION_OFF <->
    srbds_tsx_off_case K hw = false /\ hyp = false /\ ctrl = true)) /\
  (hyp = true -> srbds_no_msr_write s s') /\
  (srbds_mitigation s' = SRBDS_MITIGATION_UCODE_NEEDED ->
   srbds_no_msr_write s s').
Proof.
  intros Hbug. unfold srbds_select_mitigation, update_srbds_msr,
    srbds_no_msr_write, srbds_tsx_off_case, x86_read_arch_cap_msr.
  rewrite Hbug. cbv zeta.
  destruct (tst (x86_arch_cap_msr hw) (ARCH_CAP_MDS_NO K)),
    (boot_cpu_has hw X86_FEATURE_RTM),
    (boot_cpu_has_bug hw X86_BUG_MMIO_STALE_DATA),
    (boot_cpu_has hw X86_FEATURE_HYPERVISOR),
    (boot_cpu_has hw X86_FEATURE_SRBDS_CTRL),
    (cpu_mitigations_off hw), (srbds_off s);
    st_simpl;
    try (destruct (srbds_mitigation s) eqn:E; st_simpl);
    repeat split; intros; try discriminate; try reflexivity;
    try congruence; intuition congruence.
Qed.

End Srbds.

Lemma srbds_select_priority_witness :
  let s := snd (srbds_parse_cmdline srbds_guest (Some "off")
                  (boot_state 0 false SPECTRE_V2_NONE)) in
  srbds_mitigation (srbds_select_mitigation x86_msr_index srbds_guest s)
    = SRBDS_MITIGATION_HYPERVISOR.
Proof.
  intros s.
  apply (srbds_select_priority x86_msr_index srbds_guest s);
    reflexivity.
Defined.

(** ** GDS: the hardware lock *)


Lemma tst_clear_disjoint (x d l : Z) :
  Z.land d l = 0 -> tst (Z.land x (Z.lnot d)) l = tst x l.
Proof.
  intros H. unfold tst. f_equal. f_equal.
  apply Z.bits_inj'. intros n Hn.
  rewrite !Z.land_spec, Z.lnot_spec by assumption.
  assert (Hb : Z.testbit (Z.land d l) n = false)
    by (rewrite H; apply Z.bits_0).
  rewrite Z.land_spec in Hb.
  destruct (Z.testbit x n), (Z.testbit d n), (Z.testbit l n);
    simpl in *; congruence.
Qed.

Section Gds.

Variable K : msr_index.
Variable hw : cpu_facts.

Hypothesis gds_affected : boot_cpu_has_bug hw X86_BUG_GDS = true.
Hypothesis bare_metal : boot_cpu_has hw X86_FEATURE_HYPERVISOR = false.
Hypothesis gds_ctrl :
  tst (x86_read_arch_cap_msr hw) (ARCH_CAP_GDS_CTRL K) = true.
Hypothesis gds_bits_disjoint :
  Z.land (GDS_MITG_DIS K) (GDS_MITG_LOCKED K) = 0.

(** One run on a locked part: the locked choice, the lock bit still set,
    and one warning exactly when the run was asked to switch off. *)
Lemma gds_select_locked (s : state) :
  gds_locked K s = true ->
  let s' := gds_select_mitigation K hw s in
  gds_mitigation s' = GDS_MITIGATION_FULL_LOCKED /\
  gds_locked K s' = true /\
  gds_disable_warnings s' =
    (gds_disable_warnings s +
     if cpu_mitigations_off hw || gds_eqb_off (gds_mitigation s)
     then 1 else 0)%nat.
Proof.
  intros Hl. unfold gds_locked in *.
  unfold gds_select_mitigation. rewrite gds_affected, bare_metal, gds_ctrl.
  unfold gds_disable_warnings, count_printk, gds_print, update_gds_msr, when.
  st_simpl.
  assert (Hs : String.eqb GDS_LOCKED_MSG GDS_LOCKED_MSG = true)
    by apply String.eqb_refl.
  destruct (cpu_mitigations_off hw); st_simpl;
    [| destruct (gds_mitigation s) eqn:E; st_simpl ];
    repeat (rewrite ?Hl, ?E; st_simpl); rewrite ?Z.eqb_refl; st_simpl;
    cbn [filter is_printk loglevel_eqb andb List.length gds_eqb_off];
    rewrite ?Hs; cbn [List.length];
    rewrite ?tst_clear_disjoint by assumption;
    repeat split; try assumption; lia.
Qed.

(** C6, as amended: on affected bare-metal hardware with the GDS microcode
    control, once MCU_OPT_CTRL reports the mitigation locked, every run of
    the selector ends with the locked choice, whatever was asked for.  With
    [gather_data_sampling=off] and mitigations not globally off, the first
    run prints the disable-failed warning once and no later run prints it
    again. *)
Theorem gds_lock_law (s : state) (n : nat) :
  gds_locked K s = true ->
  let run := Nat.iter (S n) (gds_select_mitigation K hw) s in
  gds_mitigation run = GDS_MITIGATION_FULL_LOCKED /\
  gds_locked K run = true /\
  (cpu_mitigations_off hw = false ->
   gds_mitigation s = GDS_MITIGATION_OFF ->
   gds_disable_warnings run = S (gds_disable_warnings s)).
Proof.
  intros Hl. induction n as [|n IH].
  - destruct (gds_select_locked s Hl) as (Hm & Hl' & Hw).
    cbn [Nat.iter nat_rect]. repeat split; try assumption.
    intros Hoff Hs. rewrite Hw, Hoff, Hs. cbn. lia.
  - destruct IH as (Hm & Hl' & Hw).
    set (prev := Nat.iter (S n) (gds_select_mitigation K hw) s) in *.
    destruct (gds_select_locked prev Hl') as (Hm2 & Hl2 & Hw2).
    change (Nat.iter (S (S n)) (gds_select_mitigation K hw) s)
      with (gds_select_mitigation K hw prev).
    repeat split; try assumption.
    intros Hoff Hs. rewrite Hw2, Hoff, Hm, (Hw Hoff Hs). cbn. lia.
Qed.

End Gds.

Lemma gds_lock_law_witness :
  let run := Nat.iter 3 (gds_select_mitigation x86_msr_index gds_locked_part)
               (gds_locked_boot gds_locked_part) in
  gds_mitigation run = GDS_MITIGATION_FULL_LOCKED /\
  gds_disable_warnings run = 1%nat.
Proof.
  destruct (gds_lock_law x86_msr_index gds_locked_part
              eq_refl eq_refl eq_refl eq_refl
              (gds_locked_boot gds_locked_part) 2 eq_refl) as (Hm & _ & Hw).
  split; [exact Hm | exact (Hw eq_refl eq_refl)].
Defined.

(** With [mitigations=off] every run asks again for the mitigation to be
    switched off, and every run prints the warning again. *)
Lemma gds_lock_warns_again :
  let hw := with_mitigations_off gds_locked_part in
  let s0 := gds_locked_boot hw in
  let once := gds_select_mitigation x86_msr_index hw s0 in
  let twice := gds_select_mitigation x86_msr_index hw once in
  boot_cpu_has_bug hw X86_BUG_GDS = true /\
  boot_cpu_has hw X86_FEATURE_HYPERVISOR = false /\
  gds_locked x86_msr_index s0 = true /\
  gds_mitigation s0 = GDS_MITIGATION_OFF /\
  gds_mitigation once = GDS_MITIGATION_FULL_LOCKED /\
  gds_disable_warnings once = 1%nat /\
  gds_mitigation twice = GDS_MITIGATION_FULL_LOCKED /\
  gds_disable_warnings twice = 2%nat.
Proof. vm_compute. repeat split. Qed.

(** ** Unknown command-line options *)

Lemma substring_all (s : string) : substring 0 (String.length s) s = s.
Proof. induction s as [|c s IH]; cbn; [reflexivity | now rewrite IH]. Qed.

(** Against an argument of the length the lookup reports, [match_option]
    is string equality. *)
Lemma match_option_same_length (tok opt : string) :
  match_option tok (Z.of_nat (String.length tok)) opt = true -> tok = opt.
Proof.
  unfold match_option, strneq. intros H.
  apply andb_prop in H. destruct H as (Hlen & Hcmp).
  apply Z.eqb_eq, Nat2Z.inj in Hlen.
  apply String.eqb_eq in Hcmp.
  rewrite substring_all in Hcmp. rewrite Hlen in Hcmp.
  rewrite substring_all in Hcmp. assumption.
Qed.

Lemma find_all_false {A : Type} (f : A -> bool) (l : list A) :
  (forall x, In x l -> f x = false) -> find f l = None.
Proof.
  induction l as [|a l IH]; intros H; cbn; [reflexivity|].
  rewrite (H a (or_introl eq_refl)). apply IH.
  intros x Hx. apply H. right. assumption.
Qed.

Lemma match_option_unknown {A : Type} (name : A -> string) (l : list A)
    (tok : string) :
  ~ In tok (map name l) ->
  find (fun o => match_option tok (Z.of_nat (String.length tok)) (name o)) l
    = None.
Proof.
  intros Hn. apply find_all_false. intros o Ho.
  destruct (match_option tok _ (name o)) eqn:E; [|reflexivity].
  apply match_option_same_length in E. exfalso. apply Hn.
  rewrite E. apply in_map. assumption.
Qed.

Lemma streq_unknown (tok : string) (l : list string) (o : string) :
  ~ In tok l -> In o l -> streq tok o = false.
Proof.
  intros Hn Ho. apply String.eqb_neq. intros ->. contradiction.
Qed.

Lemma substring_short (s : string) (n : nat) :
  (String.length s <= n)%nat -> substring 0 n s = s.
Proof.
  revert n. induction s as [|c s IH]; intros [|n] H; cbn in *;
    try reflexivity; try lia.
  rewrite IH by lia. reflexivity.
Qed.

(** The same against the 20-byte buffer, which holds the first 19
    characters of the value: an option name, none of which is longer, is
    matched by that value only. *)
Lemma match_option_buffer (tok opt : string) :
  (String.length opt <= 19)%nat ->
  match_option (substring 0 19 tok) (Z.of_nat (String.length tok)) opt = true ->
  tok = opt.
Proof.
  intros Hlen H.
  assert (Hl : String.length opt = String.length tok).
  { unfold match_option in H. apply andb_prop in H. destruct H as (H & _).
    apply Z.eqb_eq, Nat2Z.inj in H. exact H. }
  rewrite substring_short in H by lia.
  apply match_option_same_length, H.
Qed.

Lemma match_option_buffer_unknown {A : Type} (name : A -> string) (l : list A)
    (tok : string) :
  (forall o, In o l -> (String.length (name o) <= 19)%nat) ->
  ~ In tok (map name l) ->
  find (fun o => match_option (substring 0 19 tok)
                   (Z.of_nat (String.length tok)) (name o)) l
    = None.
Proof.
  intros Hlen Hn. apply find_all_false. intros o Ho.
  destruct (match_option _ _ (name o)) eqn:E; [|reflexivity].
  apply match_option_buffer in E; [| apply Hlen, Ho].
  exfalso. apply Hn. rewrite E. apply in_map. assumption.
Qed.

Lemma mitigation_options_fit (o : v2_option) :
  In o mitigation_options -> (String.length (v2_option_name o) <= 19)%nat.
Proof.
  unfold mitigation_options. cbn [In]. intros H.
  repeat (destruct H as [<- | H]; [cbn; lia |]). contradiction.
Qed.

Lemma ssb_mitigation_options_fit (o : string * ssb_mitigation_cmd) :
  In o ssb_mitigation_options -> (String.length (fst o) <= 19)%nat.
Proof.
  unfold ssb_mitigation_options. cbn [In]. intros H.
  repeat (destruct H as [<- | H]; [cbn; lia |]). contradiction.
Qed.

(** C8, as amended: a token [tok] of any length that is none of a parser's
    option names.  [spectre_v2=tok] and [spec_store_bypass_disable=tok],
    looked up into the 20-byte buffer of the parser, give the AUTO command
    and print one unknown-option error, which shows the token as the buffer
    holds it, its first 19 characters; [retbleed=tok] prints one
    ignoring-unknown-option error and keeps the command it had; [mds=tok]
    is skipped without any message and leaves the state as it was. *)
Theorem unknown_option_fallback (hw : cpu_facts) (s : state) (tok : string) :
  (cmdline_find_option_bool hw "nospectre_v2" = false ->
   cpu_mitigations_off hw = false ->
   cmdline_find_option hw "spectre_v2" 20 = cmdline_value 20 tok ->
   ~ In tok spectre_v2_option_names ->
   spectre_v2_parse_cmdline hw s =
     (SPECTRE_V2_CMD_AUTO,
      pr_err ("Spectre V2 : unknown option (" ++ substring 0 19 tok ++
              "). Switching to AUTO select" ++ LF)%string s)) /\
  (cmdline_find_option_bool hw "nospec_store_bypass_disable" = false ->
   cpu_mitigations_off hw = false ->
   cmdline_find_option hw "spec_store_bypass_disable" 20
     = cmdline_value 20 tok ->
   ~ In tok ssb_option_names ->
   __ssb_parse_cmdline hw s =
     (SPEC_STORE_BYPASS_CMD_AUTO,
      pr_err ("Speculative Store Bypass: unknown option (" ++
              substring 0 19 tok ++
              "). Switching to AUTO select" ++ LF)%string s)) /\
  (split_commas tok = [tok] ->
   ~ In tok retbleed_option_names ->
   retbleed_parse_cmdline (Some tok) s =
     (0, pr_err ("RETBleed: Ignoring unknown retbleed option (" ++ tok ++
                 ").")%string s)) /\
  (~ In tok mds_option_names ->
   mds_cmdline hw (Some tok) s = (0, s)).
Proof.
  repeat split.
  - intros Hno Hoff Hfind Hn. unfold spectre_v2_parse_cmdline.
    rewrite Hno, Hoff, Hfind. cbn [orb]. unfold cmdline_value.
    change (Z.to_nat (20 - 1)) with 19%nat.
    assert (Hlt : (Z.of_nat (String.length tok) <? 0) = false)
      by (apply Z.ltb_ge; lia).
    rewrite Hlt, (match_option_buffer_unknown v2_option_name);
      auto using mitigation_options_fit.
  - intros Hno Hoff Hfind Hn. unfold __ssb_parse_cmdline.
    rewrite Hno, Hoff, Hfind. cbn [orb]. unfold cmdline_value.
    change (Z.to_nat (20 - 1)) with 19%nat.
    assert (Hlt : (Z.of_nat (String.length tok) <? 0) = false)
      by (apply Z.ltb_ge; lia).
    rewrite Hlt, (match_option_buffer_unknown fst);
      auto using ssb_mitigation_options_fit.
  - intros Hsplit Hn. unfold retbleed_parse_cmdline.
    rewrite Hsplit. cbn [fold_left]. unfold retbleed_parse_token.
    rewrite !(streq_unknown tok retbleed_option_names) by (cbn; auto 10).
    reflexivity.
  - intros Hn. unfold mds_cmdline.
    rewrite !(streq_unknown tok mds_option_names) by (cbn; auto 10).
    destruct (boot_cpu_has_bug hw X86_BUG_MDS); reflexivity.
Qed.

Lemma unknown_option_fallback_witness :
  let s := boot_state 0 false SPECTRE_V2_NONE in
  fst (spectre_v2_parse_cmdline bogus_cmdline s) = SPECTRE_V2_CMD_AUTO /\
  fst (__ssb_parse_cmdline bogus_cmdline s) = SPEC_STORE_BYPASS_CMD_AUTO /\
  retbleed_cmd (snd (retbleed_parse_cmdline (Some "bogus") s))
    = RETBLEED_CMD_AUTO /\
  mds_cmdline bogus_cmdline (Some "bogus") s = (0, s) /\
  spectre_v2_parse_cmdline long_cmdline s =
    (SPECTRE_V2_CMD_AUTO,
     pr_err ("Spectre V2 : unknown option (ibrs_always_and_som" ++
             "). Switching to AUTO select" ++ LF)%string s) /\
  fst (__ssb_parse_cmdline long_cmdline s) = SPEC_STORE_BYPASS_CMD_AUTO.
Proof.
  intros s.
  destruct (unknown_option_fallback bogus_cmdline s "bogus")
    as (Hv2 & Hssb & Hret & Hmds).
  destruct (unknown_option_fallback long_cmdline s "ibrs_always_and_some_more")
    as (Lv2 & Lssb & _).
  assert (Hnot : forall (tok : string) (l : list string),
             forallb (fun o => negb (String.eqb tok o)) l = true ->
             ~ In tok l).
  { intros tok l Hl Hin. rewrite forallb_forall in Hl.
    specialize (Hl _ Hin). rewrite String.eqb_refl in Hl. discriminate. }
  rewrite Hv2, Hssb, Hret, Hmds, Lv2, Lssb;
    try reflexivity; try (apply Hnot; reflexivity).
  split; [reflexivity | split; [reflexivity | split; [reflexivity |]]].
  split; [reflexivity | split; reflexivity].
Defined.

(** [mds=bogus] on an MDS-affected machine: the token is not an option
    name, and the handler returns without a message. *)
Lemma mds_unknown_option_silent :
  let hw := machine X86_VENDOR_INTEL [X86_BUG_MDS] 0 in
  let s := boot_state 0 false SPECTRE_V2_NONE in
  boot_cpu_has_bug hw X86_BUG_MDS = true /\
  forallb (fun o => negb (String.eqb "bogus" o)) mds_option_names = true /\
  ktrace (snd (mds_cmdline hw (Some "bogus") s)) = ktrace s /\
  ktrace (snd (mds_cmdline hw (Some "bogus") s)) = [] /\
  mds_mitigation (snd (mds_cmdline hw (Some "bogus") s)) = MDS_MITIGATION_FULL.
Proof. vm_compute. repeat split. Qed.

(** ** Properties shared by all selectors *)

Section AllKinds.

Variable K : msr_index.
Variable hw : cpu_facts.

(** Selectors other than those of the triad never touch a count. *)
Lemma spectre_v1_select_counts (s : state) :
  effect_counts (spectre_v1_select_mitigation hw s) = effect_counts s.
Proof. unfold spectre_v1_select_mitigation. cases; reflexivity. Qed.

Lemma retbleed_cmd_auto_counts (s : state) :
  effect_counts (retbleed_cmd_auto hw s) = effect_counts s.
Proof. unfold retbleed_cmd_auto. cases; reflexivity. Qed.

Lemma retbleed_apply_counts (s : state) :
  effect_counts (retbleed_apply K hw s) = effect_counts s.
Proof.
  unfold retbleed_apply.
  destruct (retbleed_mitigation s); cases; reflexivity.
Qed.

Lemma retbleed_select_counts (s : state) :
  effect_counts (retbleed_select_mitigation K hw s) = effect_counts s.
Proof.
  unfold retbleed_select_mitigation.
  destruct (negb _ || _); [reflexivity|].
  destruct (retbleed_cmd s); [reflexivity | | |];
    try destruct (boot_cpu_has hw X86_FEATURE_IBPB);
    rewrite retbleed_apply_counts, ?retbleed_cmd_auto_counts; reflexivity.
Qed.

Lemma srbds_select_counts (s : state) :
  effect_counts (srbds_select_mitigation K hw s) = effect_counts s.
Proof.
  unfold srbds_select_mitigation, update_srbds_msr. cases; reflexivity.
Qed.

Lemma gds_select_counts (s : state) :
  effect_counts (gds_select_mitigation K hw s) = effect_counts s.
Proof.
  unfold gds_select_mitigation, update_gds_msr, gds_print.
  cases; reflexivity.
Qed.

(** What each selector does when its first test fires. *)
Lemma spectre_v1_select_early (s : state) :
  boot_cpu_has_bug hw X86_BUG_SPECTRE_V1 = false \/
  cpu_mitigations_off hw = true ->
  spectre_v1_select_mitigation hw s =
  set_spectre_v1_mitigation SPECTRE_V1_MITIGATION_NONE s.
Proof.
  unfold spectre_v1_select_mitigation. intros [-> | ->];
    rewrite ?orb_true_r; reflexivity.
Qed.

Lemma mds_select_early (s : state) :
  boot_cpu_has_bug hw X86_BUG_MDS = false \/ cpu_mitigations_off hw = true ->
  mds_select_mitigation hw s = set_mds_mitigation MDS_MITIGATION_OFF s.
Proof.
  unfold mds_select_mitigation. intros [-> | ->];
    rewrite ?orb_true_r; reflexivity.
Qed.

Lemma mmio_select_early (s : state) :
  boot_cpu_has_bug hw X86_BUG_MMIO_STALE_DATA = false \/
  cpu_mitigations_off hw = true ->
  mmio_select_mitigation K hw s = set_mmio_mitigation MMIO_MITIGATION_OFF s.
Proof.
  unfold mmio_select_mitigation. intros [-> | ->];
    rewrite ?orb_true_r; reflexivity.
Qed.


Lemma taa_select_mitigations_off (s : state) :
  cpu_mitigations_off hw = true ->
  taa_select_mitigation K hw s =
  set_taa_mitigation
    (if boot_cpu_has_bug hw X86_BUG_TAA && negb (boot_cpu_has hw X86_FEATURE_RTM)
     then TAA_MITIGATION_TSX_DISABLED else TAA_MITIGATION_OFF) s.
Proof.
  unfold taa_select_mitigation. intros ->.
  destruct (boot_cpu_has_bug hw X86_BUG_TAA),
    (boot_cpu_has hw X86_FEATURE_RTM); reflexivity.
Qed.

Lemma retbleed_select_early (s : state) :
  boot_cpu_has_bug hw X86_BUG_RETBLEED = false \/
  cpu_mitigations_off hw = true ->
  retbleed_select_mitigation K hw s = s.
Proof.
  unfold retbleed_select_mitigation. intros [-> | ->];
    rewrite ?orb_true_r; reflexivity.
Qed.




End AllKinds.



(** ** Running a selector twice *)


Section Twice.

Variable K : msr_index.
Variable hw : cpu_facts.

Hypothesis gds_bits_disjoint :
  Z.land (GDS_MITG_DIS K) (GDS_MITG_LOCKED K) = 0.

















End Twice.



(** ** The idle buffer clear across SMT changes *)

Section IdleClear.

Variable K : msr_index.
Variable hw : cpu_facts.

Lemma idle_selected_ready (s : state) : idle_selected K hw s -> idle_ready K hw s.
Proof.
  unfold idle_selected, idle_ready, bool_count.
  destruct (mmio_wants_idle_clear K hw s); intros ->; repeat split; auto;
    discriminate.
Qed.

Lemma idle_settled_ready (s : state) (active : bool) :
  idle_settled K hw s -> idle_ready K hw (set_sched_smt_active active s).
Proof.
  unfold idle_settled, idle_ready, mmio_wants_idle_clear,
    mds_wants_idle_clear, bool_count. st_simpl.
  destruct (mmio_eqb (mmio_mitigation s) MMIO_MITIGATION_OFF),
    (tst (x86_read_arch_cap_msr hw) (ARCH_CAP_FBSDP_NO K)),
    (mds_eqb (mds_mitigation s) MDS_MITIGATION_OFF),
    (boot_cpu_has hw X86_BUG_MSBDS_ONLY), (sched_smt_active s);
    cbn [negb andb orb]; intros ->; repeat split; auto; discriminate.
Qed.

(** The TAA and MMIO parts of [arch_smt_update] only warn. *)
Lemma arch_smt_update_taa_frame (s : state) :
  mds_idle_clear (arch_smt_update_taa s) = mds_idle_clear s /\
  mds_mitigation (arch_smt_update_taa s) = mds_mitigation s /\
  mmio_mitigation (arch_smt_update_taa s) = mmio_mitigation s /\
  sched_smt_active (arch_smt_update_taa s) = sched_smt_active s.
Proof. unfold arch_smt_update_taa. cases; auto. Qed.

Lemma arch_smt_update_mmio_frame (s : state) :
  mds_idle_clear (arch_smt_update_mmio s) = mds_idle_clear s /\
  mds_mitigation (arch_smt_update_mmio s) = mds_mitigation s /\
  mmio_mitigation (arch_smt_update_mmio s) = mmio_mitigation s /\
  sched_smt_active (arch_smt_update_mmio s) = sched_smt_active s.
Proof.
  unfold arch_smt_update_mmio.
  destruct (mmio_mitigation s) eqn:E; cases; rewrite ?E; auto.
Qed.

Lemma arch_smt_update_mds_frame (s : state) :
  mds_mitigation (arch_smt_update_mds K hw s) = mds_mitigation s /\
  mmio_mitigation (arch_smt_update_mds K hw s) = mmio_mitigation s /\
  sched_smt_active (arch_smt_update_mds K hw s) = sched_smt_active s.
Proof.
  unfold arch_smt_update_mds, update_mds_branch_idle.
  destruct (mds_mitigation s) eqn:E; cases; rewrite ?E; auto.
Qed.

Lemma arch_smt_update_mds_settles (s : state) :
  idle_ready K hw s -> idle_settled K hw (arch_smt_update_mds K hw s).
Proof.
  unfold idle_ready, idle_settled, mmio_wants_idle_clear,
    mds_wants_idle_clear, bool_count.
  intros (H01 & Hm & Hn).
  destruct (arch_smt_update_mds_frame s) as (-> & -> & ->).
  unfold arch_smt_update_mds, update_mds_branch_idle, static_key_enabled,
    static_key_slow_inc, static_key_slow_dec, when.
  destruct (mmio_mitigation s) eqn:Emmio,
    (tst (x86_read_arch_cap_msr hw) (ARCH_CAP_FBSDP_NO K)),
    (boot_cpu_has hw X86_BUG_MSBDS_ONLY), (sched_smt_active s) eqn:Esmt,
    (mds_mitigation s) eqn:Emds;
    cbn [mmio_eqb mds_eqb negb andb orb] in *;
    try (specialize (Hm eq_refl)); try (specialize (Hn eq_refl eq_refl));
    try (destruct (mds_msg_smt_once s));
    st_simpl; rewrite ?Esmt, ?Emmio; st_simpl;
    destruct H01 as [H0 | H1]; rewrite ?H0, ?H1;
    cbn [Z.ltb Z.compare negb]; st_simpl; lia.
Qed.

Lemma arch_smt_update_settles (s : state) :
  idle_ready K hw s -> idle_settled K hw (arch_smt_update K hw s).
Proof.
  intros H. apply arch_smt_update_mds_settles in H.
  unfold idle_settled, mmio_wants_idle_clear, mds_wants_idle_clear,
    arch_smt_update in *.
  destruct (arch_smt_update_mmio_frame
              (arch_smt_update_taa (arch_smt_update_mds K hw s)))
    as (-> & -> & -> & ->).
  destruct (arch_smt_update_taa_frame (arch_smt_update_mds K hw s))
    as (-> & -> & -> & ->).
  exact H.
Qed.

(** The selectors outside the triad leave the fields involved alone. *)
Lemma srbds_select_idle_frame (s : state) :
  mds_idle_clear (srbds_select_mitigation K hw s) = mds_idle_clear s /\
  mmio_mitigation (srbds_select_mitigation K hw s) = mmio_mitigation s.
Proof.
  unfold srbds_select_mitigation, update_srbds_msr. cases; auto.
Qed.

Lemma gds_select_idle_frame (s : state) :
  mds_idle_clear (gds_select_mitigation K hw s) = mds_idle_clear s /\
  mmio_mitigation (gds_select_mitigation K hw s) = mmio_mitigation s.
Proof.
  unfold gds_select_mitigation, update_gds_msr, gds_print. cases; auto.
Qed.

(** One run of the MMIO selector from a count of 0. *)
Lemma mmio_select_idle (s : state) :
  mds_idle_clear s = 0 ->
  mmio_mitigation s = MMIO_MITIGATION_OFF \/
  idle_selected K hw (mmio_select_mitigation K hw s).
Proof.
  intros H0. unfold idle_selected, mmio_wants_idle_clear, bool_count.
  unfold mmio_select_mitigation, static_key_slow_inc.
  destruct (mmio_mitigation s) eqn:E; [left; reflexivity | right | right];
    cases; rewrite ?E; st_simpl; lia.
Qed.

Lemma mmio_select_idle_off (s : state) :
  mmio_mitigation s = MMIO_MITIGATION_OFF ->
  mmio_mitigation (mmio_select_mitigation K hw s) = MMIO_MITIGATION_OFF /\
  mds_idle_clear (mmio_select_mitigation K hw s) = mds_idle_clear s.
Proof.
  intros E. unfold mmio_select_mitigation.
  destruct (negb _ || _); st_simpl; rewrite ?E; auto.
Qed.

Lemma idle_selected_off (s : state) :
  mmio_mitigation s = MMIO_MITIGATION_OFF -> mds_idle_clear s = 0 ->
  idle_selected K hw s.
Proof.
  unfold idle_selected, mmio_wants_idle_clear. intros -> ->. reflexivity.
Qed.

(** The selection phase of the triad, started with the idle switch off,
    ends with only MMIO Stale Data's request counted. *)
Lemma md_clear_select_idle (s : state) :
  mds_idle_clear s = 0 ->
  idle_selected K hw (md_clear_select_mitigation K hw s).
Proof.
  intros H0. unfold md_clear_select_mitigation.
  set (s2 := taa_select_mitigation K hw (mds_select_mitigation hw s)).
  assert (H2 : mds_idle_clear s2 = 0).
  { subst s2. rewrite (proj1 (proj2 (proj2 (taa_select_frame K hw _)))).
    rewrite (proj1 (proj2 (proj2 (mds_select_frame hw _)))). assumption. }
  clearbody s2.
  assert (H3 : idle_selected K hw (mmio_select_mitigation K hw s2)).
  { destruct (mmio_select_idle s2 H2) as [E | H]; [| assumption].
    destruct (mmio_select_idle_off s2 E) as (E' & Hi).
    apply idle_selected_off; congruence. }
  set (s3 := mmio_select_mitigation K hw s2) in *. clearbody s3.
  unfold md_clear_update_mitigation.
  assert (Hp : forall t, idle_selected K hw t -> idle_selected K hw (md_clear_print hw t)).
  { intros t Ht. unfold idle_selected, mmio_wants_idle_clear in *.
    destruct (md_clear_print_frame hw t) as (_ & _ & -> & _ & -> & _).
    assumption. }
  destruct (cpu_mitigations_off hw); [assumption|].
  destruct (negb (static_key_enabled (mds_user_clear s3))); [auto|].
  apply Hp. fold (reselect_mds hw s3).
  fold (reselect_taa K hw (reselect_mds hw s3)).
  fold (reselect_mmio K hw (reselect_taa K hw (reselect_mds hw s3))).
  assert (H4 : idle_selected K hw (reselect_taa K hw (reselect_mds hw s3))).
  { unfold idle_selected, mmio_wants_idle_clear in *.
    unfold reselect_taa, reselect_mds, when.
    repeat match goal with
      | |- context [if ?b then _ else _] => destruct b
      end;
      rewrite ?(proj1 (proj2 (proj2 (taa_select_frame K hw _)))),
        ?(proj1 (proj2 (taa_select_frame K hw _)));
      st_simpl;
      rewrite ?(proj1 (proj2 (proj2 (mds_select_frame hw _)))),
        ?(proj1 (proj2 (mds_select_frame hw _)));
      st_simpl; assumption. }
  set (s5 := reselect_taa K hw (reselect_mds hw s3)) in *. clearbody s5.
  unfold reselect_mmio, when.
  destruct (mmio_eqb (mmio_mitigation s5) MMIO_MITIGATION_OFF) eqn:E;
    cbn [andb]; [| assumption].
  destruct (boot_cpu_has_bug hw X86_BUG_MMIO_STALE_DATA); [| assumption].
  apply mmio_eqb_eq in E.
  assert (H5 : mds_idle_clear s5 = 0).
  { unfold idle_selected, mmio_wants_idle_clear in H4.
    rewrite E in H4. exact H4. }
  destruct (mmio_select_idle (set_mmio_mitigation MMIO_MITIGATION_VERW s5) H5)
    as [Habs | H]; [discriminate Habs | exact H].
Qed.

Lemma check_bugs_settled (s : state) :
  mds_idle_clear s = 0 -> idle_settled K hw (check_bugs K hw s).
Proof.
  intros H0. unfold check_bugs.
  apply arch_smt_update_settles, idle_selected_ready.
  unfold idle_selected, mmio_wants_idle_clear.
  rewrite (proj1 (gds_select_idle_frame _)), (proj2 (gds_select_idle_frame _)).
  rewrite (proj1 (srbds_select_idle_frame _)), (proj2 (srbds_select_idle_frame _)).
  apply md_clear_select_idle.
  pose proof (retbleed_select_counts K hw (spectre_v1_select_mitigation hw s)) as Hr.
  pose proof (spectre_v1_select_counts hw s) as Hv.
  unfold effect_counts in *. congruence.
Qed.

(** C5, as amended: after [arch_smt_update] has run, at boot and after
    every SMT topology change, [mds_idle_clear] counts 0 or 1 and is
    enabled exactly when MMIO Stale Data asks for the idle clear (its
    mitigation is not Off and the CPU lacks FBSDP_NO; SMT plays no part),
    or the MDS mitigation is not Off on an MSBDS-only part while SMT is
    active. *)
Theorem idle_clear_after_smt_update (s : state) :
  after_boot K hw s ->
  idle_settled K hw s /\
  static_key_enabled (mds_idle_clear s) =
    mmio_wants_idle_clear K hw s || mds_wants_idle_clear hw s.
Proof.
  intros H.
  assert (Hs : idle_settled K hw s).
  { induction H as [s Hc | s active H IH].
    - apply check_bugs_settled. unfold effect_counts in Hc.
      injection Hc as _ Hi _. exact Hi.
    - unfold smt_topology_change.
      apply arch_smt_update_settles, idle_settled_ready, IH. }
  split; [exact Hs|].
  unfold idle_settled, bool_count in Hs. rewrite Hs.
  destruct (_ || _); reflexivity.
Qed.

End IdleClear.

(** A CPU affected by MMIO Stale Data only, without FBSDP_NO, booted with
    SMT inactive: it is not in the MSBDS-only subset, and the idle clear is
    on all the same. *)
Lemma idle_clear_on_without_smt :
  let s := check_bugs x86_msr_index mmio_only
             (boot_state 0 false SPECTRE_V2_NONE) in
  boot_cpu_has mmio_only X86_BUG_MSBDS_ONLY = false /\
  sched_smt_active s = false /\
  static_key_enabled (mds_idle_clear s) = true /\
  static_key_enabled (mds_idle_clear s) <>
    boot_cpu_has mmio_only X86_BUG_MSBDS_ONLY && sched_smt_active s.
Proof. vm_compute. repeat split. discriminate. Qed.

Lemma idle_clear_after_smt_update_witness :
  let s := smt_topology_change x86_msr_index msbds_only false
             (smt_topology_change x86_msr_index msbds_only true
                (check_bugs x86_msr_index msbds_only
                   (boot_state 0 false SPECTRE_V2_NONE))) in
  static_key_enabled (mds_idle_clear s) =
    mmio_wants_idle_clear x86_msr_index msbds_only s ||
    mds_wants_idle_clear msbds_only s.
Proof.
  apply (idle_clear_after_smt_update x86_msr_index msbds_only).
  apply after_smt_change, after_smt_change, after_check_bugs.
  reflexivity.
Defined.

(** * Further properties of bugs.c *)

(** ** Accounting of the buffer-clear switches *)

Section ClearAccounting.

Variable K : msr_index.
Variable hw : cpu_facts.

Lemma mds_select_account (s : state) :
  mds_mitigation s <> MDS_MITIGATION_VMWERV ->
  mds_user_clear (mds_select_mitigation hw s) =
    mds_user_clear s + bool_count (mds_requests_clear (mds_select_mitigation hw s)).
Proof.
  intros Hm. unfold mds_requests_clear, mds_select_mitigation, bool_count,
    static_key_slow_inc.
  destruct (negb _ || _); st_simpl; [lia|].
  destruct (mds_mitigation s) eqn:E; st_simpl; rewrite ?E; st_simpl;
    try congruence; try lia.
  cases; rewrite ?E in *; st_simpl; try lia; discriminate.
Qed.

Lemma taa_select_account (s : state) :
  mds_user_clear (taa_select_mitigation K hw s) =
    mds_user_clear s +
    bool_count (taa_requests_clear (taa_select_mitigation K hw s)).
Proof.
  unfold taa_requests_clear, taa_select_mitigation, bool_count,
    static_key_slow_inc.
  destruct (negb (boot_cpu_has_bug hw X86_BUG_TAA)); st_simpl; [lia|].
  destruct (negb (boot_cpu_has hw X86_FEATURE_RTM)); st_simpl; [lia|].
  destruct (cpu_mitigations_off hw); st_simpl; [lia|].
  destruct (taa_mitigation s) eqn:Et, (mds_mitigation s) eqn:Em;
    st_simpl; rewrite ?Et; try lia; cases; try lia; congruence.
Qed.

Lemma mmio_select_account (s : state) :
  let s' := mmio_select_mitigation K hw s in
  mds_user_clear s' =
    mds_user_clear s +
    bool_count (mmio_requests_clear s' && mmio_shares_user_clear hw) /\
  mmio_stale_data_clear s' =
    mmio_stale_data_clear s +
    bool_count (mmio_requests_clear s' && negb (mmio_shares_user_clear hw)).
Proof.
  cbv zeta.
  unfold mmio_requests_clear, mmio_shares_user_clear, mmio_select_mitigation,
    bool_count, static_key_slow_inc.
  destruct (negb (boot_cpu_has_bug hw X86_BUG_MMIO_STALE_DATA) || _);
    st_simpl; [lia|].
  destruct (mmio_mitigation s) eqn:E; st_simpl; rewrite ?E; st_simpl;
    [lia | |];
    destruct (boot_cpu_has_bug hw X86_BUG_MDS ||
              boot_cpu_has_bug hw X86_BUG_TAA && boot_cpu_has hw X86_FEATURE_RTM);
    cases; try lia; congruence.
Qed.

Lemma mmio_select_mmio_frame (s : state) :
  mmio_stale_data_clear (mds_select_mitigation hw s) = mmio_stale_data_clear s /\
  mmio_stale_data_clear (taa_select_mitigation K hw s) = mmio_stale_data_clear s.
Proof.
  split; [apply (mds_select_frame hw s) | apply (taa_select_frame K hw s)].
Qed.

(** The first pass, from switches that are off. *)
Lemma md_clear_first_pass_accounted (s : state) :
  mds_user_clear s = 0 -> mmio_stale_data_clear s = 0 ->
  mds_mitigation s <> MDS_MITIGATION_VMWERV ->
  clear_accounted hw
    (mmio_select_mitigation K hw
       (taa_select_mitigation K hw (mds_select_mitigation hw s))).
Proof.
  intros Hu Hm Hv. unfold clear_accounted.
  set (s1 := mds_select_mitigation hw s).
  set (s2 := taa_select_mitigation K hw s1).
  destruct (mmio_select_account s2) as (A3 & B3). cbv zeta in A3, B3.
  rewrite A3, B3.
  unfold mds_requests_clear, taa_requests_clear.
  destruct (mmio_select_frame K hw s2) as (-> & ->).
  pose proof (taa_select_account s1) as A2. fold s2 in A2.
  unfold taa_requests_clear in A2.
  destruct (taa_select_frame K hw s1) as (F2 & _ & _ & G2). fold s2 in F2, G2.
  pose proof (mds_select_account s Hv) as A1. fold s1 in A1.
  unfold mds_requests_clear in A1.
  destruct (mds_select_frame hw s) as (_ & _ & _ & G1). fold s1 in G1.
  rewrite F2. split; lia.
Qed.

(** Each re-selection of the update pass keeps the accounts. *)
Lemma reselect_mds_accounted (s : state) :
  cpu_mitigations_off hw = false ->
  clear_accounted hw s -> clear_accounted hw (reselect_mds hw s).
Proof.
  intros Hoff (A & B). unfold reselect_mds, when.
  destruct (mds_eqb (mds_mitigation s) MDS_MITIGATION_OFF) eqn:E;
    cbn [andb]; [|split; assumption].
  destruct (boot_cpu_has_bug hw X86_BUG_MDS) eqn:Hb; [|split; assumption].
  set (t := set_mds_mitigation MDS_MITIGATION_FULL s).
  assert (Ht : mds_mitigation t <> MDS_MITIGATION_VMWERV) by (cbn; discriminate).
  pose proof (mds_select_account t Ht) as A1.
  destruct (mds_select_frame hw t) as (F1 & F2 & _ & F3).
  unfold clear_accounted, taa_requests_clear, mmio_requests_clear in *.
  rewrite F1, F2, F3, A1. subst t. st_simpl.
  unfold mds_requests_clear in A. rewrite E in A. cbn [negb bool_count] in A.
  split; lia.
Qed.

Lemma reselect_taa_accounted (s : state) :
  clear_accounted hw s -> clear_accounted hw (reselect_taa K hw s).
Proof.
  intros (A & B). unfold reselect_taa, when.
  destruct (taa_eqb (taa_mitigation s) TAA_MITIGATION_OFF) eqn:E;
    cbn [andb]; [|split; assumption].
  destruct (boot_cpu_has_bug hw X86_BUG_TAA) eqn:Hb; [|split; assumption].
  set (t := set_taa_mitigation TAA_MITIGATION_VERW s).
  pose proof (taa_select_account t) as A1.
  destruct (taa_select_frame K hw t) as (F1 & F2 & _ & F3).
  unfold clear_accounted, mds_requests_clear, mmio_requests_clear in *.
  rewrite F1, F2, F3, A1. subst t. st_simpl.
  apply taa_eqb_eq in E.
  unfold taa_requests_clear in A. rewrite E in A. cbn [bool_count] in A.
  split; lia.
Qed.

Lemma reselect_mmio_accounted (s : state) :
  clear_accounted hw s -> clear_accounted hw (reselect_mmio K hw s).
Proof.
  intros (A & B). unfold reselect_mmio, when.
  destruct (mmio_eqb (mmio_mitigation s) MMIO_MITIGATION_OFF) eqn:E;
    cbn [andb]; [|split; assumption].
  destruct (boot_cpu_has_bug hw X86_BUG_MMIO_STALE_DATA) eqn:Hb;
    [|split; assumption].
  set (t := set_mmio_mitigation MMIO_MITIGATION_VERW s).
  destruct (mmio_select_account t) as (A1 & B1). cbv zeta in A1, B1.
  destruct (mmio_select_frame K hw t) as (F1 & F2).
  unfold clear_accounted, mds_requests_clear, taa_requests_clear in *.
  rewrite F1, F2, A1, B1. subst t. st_simpl.
  unfold mmio_requests_clear in A, B. rewrite E in A, B.
  cbn [negb andb bool_count] in A, B.
  split; lia.
Qed.

Lemma md_clear_print_accounted (s : state) :
  clear_accounted hw s -> clear_accounted hw (md_clear_print hw s).
Proof.
  unfold clear_accounted, mds_requests_clear, taa_requests_clear,
    mmio_requests_clear.
  destruct (md_clear_print_frame hw s) as (-> & -> & -> & -> & _ & -> & _).
  auto.
Qed.

(** X1: after the whole MDS/TAA/MMIO selection phase, started with the
    switches off and an MDS choice the command line can give (Off or Full),
    [mds_user_clear] counts exactly the members whose final choice asks for
    the buffer clear, each once, and [mmio_stale_data_clear] counts MMIO
    Stale Data exactly when it does not share the MDS/TAA switch. *)
Theorem md_clear_select_accounted (s : state) :
  mds_user_clear s = 0 -> mmio_stale_data_clear s = 0 ->
  mds_mitigation s <> MDS_MITIGATION_VMWERV ->
  clear_accounted hw (md_clear_select_mitigation K hw s).
Proof.
  intros Hu Hm Hv. unfold md_clear_select_mitigation.
  pose proof (md_clear_first_pass_accounted s Hu Hm Hv) as H.
  set (s3 := mmio_select_mitigation K hw _) in *. clearbody s3.
  unfold md_clear_update_mitigation.
  destruct (cpu_mitigations_off hw) eqn:Hoff; [assumption|].
  destruct (negb (static_key_enabled (mds_user_clear s3)));
    [apply md_clear_print_accounted; assumption|].
  apply md_clear_print_accounted.
  fold (reselect_mds hw s3).
  fold (reselect_taa K hw (reselect_mds hw s3)).
  fold (reselect_mmio K hw (reselect_taa K hw (reselect_mds hw s3))).
  apply reselect_mmio_accounted, reselect_taa_accounted,
    reselect_mds_accounted; assumption.
Qed.

End ClearAccounting.

Lemma md_clear_select_accounted_witness :
  clear_accounted mds_taa_mmio
    (md_clear_select_mitigation x86_msr_index mds_taa_mmio
       (taa_and_mds_off mds_taa_mmio (boot_state 0 false SPECTRE_V2_NONE))).
Proof.
  apply (md_clear_select_accounted x86_msr_index mds_taa_mmio);
    [reflexivity | reflexivity | discriminate].
Defined.

(** ** The SMT feedback path, run any number of times *)

Section SmtFeedback.

Variable K : msr_index.
Variable hw : cpu_facts.

Lemma arch_smt_update_frame (s : state) :
  mds_mitigation (arch_smt_update K hw s) = mds_mitigation s /\
  mmio_mitigation (arch_smt_update K hw s) = mmio_mitigation s /\
  sched_smt_active (arch_smt_update K hw s) = sched_smt_active s.
Proof.
  unfold arch_smt_update.
  destruct (arch_smt_update_mmio_frame
              (arch_smt_update_taa (arch_smt_update_mds K hw s)))
    as (_ & -> & -> & ->).
  destruct (arch_smt_update_taa_frame (arch_smt_update_mds K hw s))
    as (_ & -> & -> & ->).
  apply arch_smt_update_mds_frame.
Qed.

Lemma smt_topology_change_frame (active : bool) (s : state) :
  mds_mitigation (smt_topology_change K hw active s) = mds_mitigation s /\
  mmio_mitigation (smt_topology_change K hw active s) = mmio_mitigation s /\
  sched_smt_active (smt_topology_change K hw active s) = active.
Proof.
  unfold smt_topology_change.
  destruct (arch_smt_update_frame (set_sched_smt_active active s))
    as (-> & -> & ->).
  auto.
Qed.

Lemma idle_ready_set_smt (active : bool) (s : state) :
  idle_ready K hw s -> idle_ready K hw (set_sched_smt_active active s).
Proof. unfold idle_ready, mmio_wants_idle_clear. st_simpl. auto. Qed.

Lemma smt_topology_change_settles (active : bool) (s : state) :
  idle_ready K hw s -> idle_settled K hw (smt_topology_change K hw active s).
Proof.
  intros H. unfold smt_topology_change.
  apply arch_smt_update_settles, idle_ready_set_smt, H.
Qed.

Lemma smt_topology_changes_ready (flips : list bool) (s : state) :
  idle_ready K hw s ->
  idle_ready K hw (smt_topology_changes K hw flips s) /\
  mds_mitigation (smt_topology_changes K hw flips s) = mds_mitigation s /\
  mmio_mitigation (smt_topology_changes K hw flips s) = mmio_mitigation s.
Proof.
  revert s. induction flips as [|b flips IH]; intros s H; cbn; [auto|].
  fold (smt_topology_changes K hw flips (smt_topology_change K hw b s)).
  destruct (smt_topology_change_frame b s) as (Fm & Fi & Fs).
  destruct (IH (smt_topology_change K hw b s)) as (R & -> & ->).
  - pose proof (smt_topology_change_settles b s H) as S.
    apply idle_settled_ready with (active := b) in S.
    unfold idle_ready, mmio_wants_idle_clear in *. st_simpl. exact S.
  - rewrite Fm, Fi. auto.
Qed.

(** X2: no drift.  From a state in which [mds_idle_clear] is as the
    selection phase or an earlier [arch_smt_update] leaves it, the count
    after any series of SMT topology changes is the count a single change
    to the last reported SMT state gives. *)
Theorem smt_topology_changes_no_drift (flips : list bool) (active : bool)
    (s : state) :
  idle_ready K hw s ->
  mds_idle_clear (smt_topology_changes K hw (flips ++ [active]) s) =
  mds_idle_clear (smt_topology_change K hw active s).
Proof.
  intros H. unfold smt_topology_changes. rewrite fold_left_app. cbn [fold_left].
  fold (smt_topology_changes K hw flips s).
  destruct (smt_topology_changes_ready flips s H) as (R & Fm & Fi).
  pose proof (smt_topology_change_settles active _ R) as S1.
  pose proof (smt_topology_change_settles active _ H) as S2.
  unfold idle_settled, mmio_wants_idle_clear, mds_wants_idle_clear in S1, S2.
  rewrite S1, S2.
  destruct (smt_topology_change_frame active s) as (-> & -> & ->).
  destruct (smt_topology_change_frame active
              (smt_topology_changes K hw flips s)) as (-> & -> & ->).
  rewrite Fm, Fi. reflexivity.
Qed.

(** The three warnings are different lines. *)
Lemma smt_messages_differ :
  String.eqb MDS_MSG_SMT TAA_MSG_SMT = false /\
  String.eqb MDS_MSG_SMT MMIO_MSG_SMT = false /\
  String.eqb TAA_MSG_SMT MDS_MSG_SMT = false /\
  String.eqb TAA_MSG_SMT MMIO_MSG_SMT = false /\
  String.eqb MMIO_MSG_SMT MDS_MSG_SMT = false /\
  String.eqb MMIO_MSG_SMT TAA_MSG_SMT = false.
Proof. vm_compute. repeat split. Qed.

Ltac count_simpl :=
  unfold count_printk in *; st_simpl;
  cbn [filter is_printk loglevel_eqb andb] in *;
  rewrite ?String.eqb_refl in *;
  repeat match goal with
    | |- context [String.eqb ?a ?b] =>
        first [ rewrite (proj1 smt_messages_differ)
              | rewrite (proj1 (proj2 smt_messages_differ))
              | rewrite (proj1 (proj2 (proj2 smt_messages_differ)))
              | rewrite (proj1 (proj2 (proj2 (proj2 smt_messages_differ))))
              | rewrite (proj1 (proj2 (proj2 (proj2 (proj2 smt_messages_differ)))))
              | rewrite (proj2 (proj2 (proj2 (proj2 (proj2 smt_messages_differ))))) ]
    end;
  cbn [List.length nat_count] in *.

Lemma update_mds_branch_idle_log (s : state) :
  ktrace (update_mds_branch_idle K hw s) = ktrace s /\
  mds_msg_smt_once (update_mds_branch_idle K hw s) = mds_msg_smt_once s /\
  taa_msg_smt_once (update_mds_branch_idle K hw s) = taa_msg_smt_once s /\
  mmio_msg_smt_once (update_mds_branch_idle K hw s) = mmio_msg_smt_once s.
Proof. unfold update_mds_branch_idle. cases; auto. Qed.

Lemma arch_smt_update_mds_latched (s : state) :
  smt_warnings_latched s -> smt_warnings_latched (arch_smt_update_mds K hw s).
Proof.
  unfold smt_warnings_latched, arch_smt_update_mds, count_printk.
  intros (A & B & C).
  destruct (mds_mitigation s); [auto | |];
    match goal with
    | |- context [update_mds_branch_idle K hw ?t] =>
        destruct (update_mds_branch_idle_log t) as (-> & -> & -> & ->)
    end;
    unfold when;
    destruct (sched_smt_active s && negb (boot_cpu_has hw X86_BUG_MSBDS_ONLY));
    cbn [andb]; auto;
    destruct (mds_msg_smt_once s) eqn:E; cbn [negb]; auto;
    count_simpl; rewrite ?E in *; cbn [nat_count] in *; repeat split; lia.
Qed.

Lemma arch_smt_update_taa_latched (s : state) :
  smt_warnings_latched s -> smt_warnings_latched (arch_smt_update_taa s).
Proof.
  unfold smt_warnings_latched, arch_smt_update_taa, count_printk, when.
  intros (A & B & C).
  destruct (taa_mitigation s); auto;
    destruct (sched_smt_active s); cbn [andb]; auto;
    destruct (taa_msg_smt_once s) eqn:E; cbn [negb]; auto;
    count_simpl; rewrite ?E in *; cbn [nat_count] in *; repeat split; lia.
Qed.

Lemma arch_smt_update_mmio_latched (s : state) :
  smt_warnings_latched s -> smt_warnings_latched (arch_smt_update_mmio s).
Proof.
  unfold smt_warnings_latched, arch_smt_update_mmio, count_printk, when.
  intros (A & B & C).
  destruct (mmio_mitigation s); auto;
    destruct (sched_smt_active s); cbn [andb]; auto;
    destruct (mmio_msg_smt_once s) eqn:E; cbn [negb]; auto;
    count_simpl; rewrite ?E in *; cbn [nat_count] in *; repeat split; lia.
Qed.

Lemma smt_topology_change_latched (active : bool) (s : state) :
  smt_warnings_latched s ->
  smt_warnings_latched (smt_topology_change K hw active s).
Proof.
  intros H. unfold smt_topology_change, arch_smt_update.
  apply arch_smt_update_mmio_latched, arch_smt_update_taa_latched,
    arch_smt_update_mds_latched.
  exact H.
Qed.

(** X3: warn once.  From a state whose log holds each SMT warning exactly
    when its once-latch is set (a fresh boot: nothing logged, no latch
    set), any series of SMT topology changes leaves every one of the three
    warnings in the log at most once. *)
Theorem smt_warnings_at_most_once (flips : list bool) (s : state) :
  smt_warnings_latched s ->
  let s' := smt_topology_changes K hw flips s in
  smt_warnings_latched s' /\
  (count_printk KERN_WARNING MDS_MSG_SMT s' <= 1)%nat /\
  (count_printk KERN_WARNING TAA_MSG_SMT s' <= 1)%nat /\
  (count_printk KERN_WARNING MMIO_MSG_SMT s' <= 1)%nat.
Proof.
  intros H. cbv zeta.
  assert (L : smt_warnings_latched (smt_topology_changes K hw flips s)).
  { revert s H. induction flips as [|b flips IH]; intros s H; cbn; [exact H|].
    apply IH, smt_topology_change_latched, H. }
  split; [exact L|].
  destruct L as (A & B & C). rewrite A, B, C.
  repeat split;
    match goal with |- (nat_count ?b <= 1)%nat => destruct b; cbn; lia end.
Qed.

End SmtFeedback.

Lemma smt_topology_changes_no_drift_witness :
  let s := md_clear_select_mitigation x86_msr_index msbds_only
             (boot_state 0 false SPECTRE_V2_NONE) in
  mds_idle_clear
    (smt_topology_changes x86_msr_index msbds_only
       ([true; false; true; false] ++ [true]) s) =
  mds_idle_clear (smt_topology_change x86_msr_index msbds_only true s).
Proof.
  intros s.
  apply (smt_topology_changes_no_drift x86_msr_index msbds_only).
  apply idle_selected_ready, md_clear_select_idle. reflexivity.
Defined.

Lemma smt_warnings_at_most_once_witness :
  let s' := smt_topology_changes x86_msr_index mds_taa_mmio
              [true; false; true; true; false; true]
              (md_clear_select_mitigation x86_msr_index mds_taa_mmio
                 (boot_state 0 false SPECTRE_V2_NONE)) in
  (count_printk KERN_WARNING MDS_MSG_SMT s' <= 1)%nat /\
  (count_printk KERN_WARNING TAA_MSG_SMT s' <= 1)%nat /\
  (count_printk KERN_WARNING MMIO_MSG_SMT s' <= 1)%nat.
Proof.
  intros s'.
  apply (smt_warnings_at_most_once x86_msr_index mds_taa_mmio
           [true; false; true; true; false; true]
           (md_clear_select_mitigation x86_msr_index mds_taa_mmio
              (boot_state 0 false SPECTRE_V2_NONE))).
  vm_compute. repeat split.
Defined.

(** ** The command-line parsers *)

Lemma split_commas_nonempty (str : string) : split_commas str <> [].
Proof.
  induction str as [|c str IH]; cbn; [discriminate|].
  destruct (Ascii.eqb c ","%char); [discriminate|].
  destruct (split_commas str); [contradiction | discriminate].
Qed.

(** Splitting at commas goes through a comma-joined pair. *)
Lemma split_commas_app (a b : string) :
  split_commas (a ++ "," ++ b)%string = split_commas a ++ split_commas b.
Proof.
  change (("," ++ b)%string) with (String "," b).
  induction a as [|c a IH]; cbn [String.append split_commas].
  - reflexivity.
  - rewrite IH. destruct (Ascii.eqb c ","%char) eqn:E; [reflexivity|].
    destruct (split_commas a) as [|tok toks] eqn:Ea; [|reflexivity].
    exfalso. apply (split_commas_nonempty a). assumption.
Qed.

(** X4: [retbleed=a,b] is [retbleed=a] followed by [retbleed=b]. *)
Theorem retbleed_parse_cmdline_app (a b : string) (s : state) :
  retbleed_parse_cmdline (Some (a ++ "," ++ b)%string) s =
  retbleed_parse_cmdline (Some b) (snd (retbleed_parse_cmdline (Some a) s)).
Proof.
  unfold retbleed_parse_cmdline. cbn [snd].
  rewrite split_commas_app, fold_left_app. reflexivity.
Qed.

Lemma retbleed_parse_token_spec (s : state) (tok : string) :
  ktrace (retbleed_parse_token s tok) =
    (if retbleed_known tok then ktrace s
     else retbleed_unknown_event tok :: ktrace s) /\
  retbleed_nosmt (retbleed_parse_token s tok) =
    (retbleed_nosmt s || String.eqb tok "nosmt").
Proof.
  destruct (String.eqb_spec tok "off") as [->|N1];
    [split; [reflexivity | apply eq_sym, orb_false_r]|].
  destruct (String.eqb_spec tok "auto") as [->|N2];
    [split; [reflexivity | apply eq_sym, orb_false_r]|].
  destruct (String.eqb_spec tok "unret") as [->|N3];
    [split; [reflexivity | apply eq_sym, orb_false_r]|].
  destruct (String.eqb_spec tok "ibpb") as [->|N4];
    [split; [reflexivity | apply eq_sym, orb_false_r]|].
  destruct (String.eqb_spec tok "nosmt") as [->|N5];
    [split; [reflexivity | apply eq_sym, orb_true_r]|].
  apply String.eqb_neq in N1, N2, N3, N4, N5.
  unfold retbleed_parse_token, retbleed_known, retbleed_option_names, streq.
  cbn [existsb]. rewrite N1, N2, N3, N4, N5. st_simpl.
  rewrite orb_false_r. split; reflexivity.
Qed.

(** X5: the log and the nosmt flag after [retbleed=str].  One error
    line per token that is not an option name, in the order of the tokens,
    and nothing else; the nosmt flag is set by a [nosmt] token and never
    cleared. *)
Theorem retbleed_parse_cmdline_log (str : string) (s : state) :
  let s' := snd (retbleed_parse_cmdline (Some str) s) in
  ktrace s' =
    rev (map retbleed_unknown_event (retbleed_unknown_tokens str)) ++ ktrace s /\
  retbleed_nosmt s' =
    (retbleed_nosmt s || existsb (fun tok => String.eqb tok "nosmt")
                                 (split_commas str)).
Proof.
  cbv zeta. unfold retbleed_parse_cmdline, retbleed_unknown_tokens. cbn [snd].
  generalize (split_commas str) as toks. intros toks. revert s.
  induction toks as [|tok toks IH]; intros s; cbn [fold_left filter existsb].
  - rewrite orb_false_r. auto.
  - destruct (IH (retbleed_parse_token s tok)) as (-> & ->).
    destruct (retbleed_parse_token_spec s tok) as (-> & ->).
    destruct (retbleed_known tok); cbn [negb map rev].
    + rewrite orb_assoc. auto.
    + rewrite <- app_assoc, orb_assoc. auto.
Qed.

(** What [spectre_v2_check_cmd] can return. *)
Lemma spectre_v2_check_cmd_sound (hw : cpu_facts) (o : v2_option) (s : state) :
  let cmd := fst (spectre_v2_check_cmd hw o s) in
  (v2_cmd_is_retpoline cmd = true -> CONFIG_RETPOLINE hw = true) /\
  (cmd = SPECTRE_V2_CMD_RETPOLINE_AMD ->
   x86_vendor hw = X86_VENDOR_AMD /\
   boot_cpu_has hw X86_FEATURE_LFENCE_RDTSC = true) /\
  (cmd = SPECTRE_V2_CMD_RETPOLINE ->
   ~ (boot_cpu_has_bug hw X86_BUG_RETBLEED = true /\
      x86_vendor hw = X86_VENDOR_INTEL)).
Proof.
  cbv zeta. unfold spectre_v2_check_cmd.
  destruct (CONFIG_RETPOLINE hw), (x86_vendor hw),
    (boot_cpu_has hw X86_FEATURE_LFENCE_RDTSC),
    (boot_cpu_has_bug hw X86_BUG_RETBLEED), (v2_option_cmd o);
    cbn [v2_cmd_is_retpoline negb andb vendor_eqb fst];
    repeat split; intros; try discriminate; try reflexivity;
    try (intros [? ?]; discriminate).
Qed.

(** X6: whatever the command line, [spectre_v2_parse_cmdline] returns a
    retpoline command only in a kernel built with retpolines,
    [retpoline,amd] only on an AMD CPU with a serializing LFENCE, and
    plain [retpoline] never on an Intel CPU affected by RETBleed. *)
Theorem spectre_v2_parse_cmdline_sound (hw : cpu_facts) (s : state) :
  let cmd := fst (spectre_v2_parse_cmdline hw s) in
  (v2_cmd_is_retpoline cmd = true -> CONFIG_RETPOLINE hw = true) /\
  (cmd = SPECTRE_V2_CMD_RETPOLINE_AMD ->
   x86_vendor hw = X86_VENDOR_AMD /\
   boot_cpu_has hw X86_FEATURE_LFENCE_RDTSC = true) /\
  (cmd = SPECTRE_V2_CMD_RETPOLINE ->
   ~ (boot_cpu_has_bug hw X86_BUG_RETBLEED = true /\
      x86_vendor hw = X86_VENDOR_INTEL)).
Proof.
  cbv zeta. unfold spectre_v2_parse_cmdline.
  destruct (_ || _); [cbn; repeat split; intros; discriminate|].
  destruct (cmdline_find_option hw "spectre_v2" 20) as (ret, arg).
  destruct (ret <? 0); [cbn; repeat split; intros; discriminate|].
  destruct (find _ mitigation_options) as [o|];
    [apply spectre_v2_check_cmd_sound | cbn; repeat split; intros; discriminate].
Qed.

(** The table lookups find every entry under its own name. *)
Lemma mitigation_options_lookup (o : v2_option) :
  In o mitigation_options ->
  find (fun o' => match_option (v2_option_name o)
                    (Z.of_nat (String.length (v2_option_name o)))
                    (v2_option_name o'))
       mitigation_options = Some o.
Proof.
  intros H. cbn [In mitigation_options] in H.
  repeat (destruct H as [<- | H]; [vm_compute; reflexivity|]).
  contradiction.
Qed.

Lemma ssb_mitigation_options_lookup (o : string * ssb_mitigation_cmd) :
  In o ssb_mitigation_options ->
  find (fun o' => match_option (fst o)
                    (Z.of_nat (String.length (fst o))) (fst o'))
       ssb_mitigation_options = Some o.
Proof.
  intros H. cbn [In ssb_mitigation_options] in H.
  repeat (destruct H as [<- | H]; [vm_compute; reflexivity|]).
  contradiction.
Qed.

(** X7: a known [spectre_v2=] option gives its table command or AUTO, and
    a downgrade to AUTO is always announced by exactly one log line, with
    one exception: [retpoline,amd] on a CPU that is not AMD's is replaced
    by AUTO without any message. *)
Theorem spectre_v2_known_option (hw : cpu_facts) (o : v2_option) (s : state) :
  In o mitigation_options ->
  cmdline_find_option_bool hw "nospectre_v2" = false ->
  cpu_mitigations_off hw = false ->
  cmdline_has hw "spectre_v2" (v2_option_name o) ->
  let r := spectre_v2_parse_cmdline hw s in
  fst r = v2_option_cmd o \/
  (fst r = SPECTRE_V2_CMD_AUTO /\
   ((exists lvl msg, ktrace (snd r) = Printk lvl msg :: ktrace s /\
                     lvl <> KERN_INFO) \/
    (v2_option_cmd o = SPECTRE_V2_CMD_RETPOLINE_AMD /\
     x86_vendor hw <> X86_VENDOR_AMD /\ snd r = s))).
Proof.
  intros Hin Hno Hoff Hcmd. cbv zeta. unfold spectre_v2_parse_cmdline.
  rewrite Hno, Hoff. cbn [orb]. rewrite Hcmd.
  assert (Hlt : (Z.of_nat (String.length (v2_option_name o)) <? 0) = false)
    by (apply Z.ltb_ge; lia).
  rewrite Hlt, (mitigation_options_lookup o Hin).
  unfold spectre_v2_check_cmd, spec2_print_if_secure, spec2_print_if_insecure,
    when.
  destruct (CONFIG_RETPOLINE hw), (x86_vendor hw) eqn:Ev,
    (boot_cpu_has hw X86_FEATURE_LFENCE_RDTSC),
    (boot_cpu_has_bug hw X86_BUG_RETBLEED), (v2_option_cmd o) eqn:Ec;
    cbn [v2_cmd_is_retpoline negb andb vendor_eqb fst snd];
    try (left; reflexivity);
    right; (split; [reflexivity|]);
    try (right; split; [reflexivity | split; [discriminate | reflexivity]]);
    left; st_simpl; eexists; eexists; (split; [reflexivity | discriminate]).
Qed.

(** X8: a known [spec_store_bypass_disable=] option gives exactly its
    table command and prints nothing. *)
Theorem ssb_known_option (hw : cpu_facts) (name : string)
    (cmd : ssb_mitigation_cmd) (s : state) :
  In (name, cmd) ssb_mitigation_options ->
  cmdline_find_option_bool hw "nospec_store_bypass_disable" = false ->
  cpu_mitigations_off hw = false ->
  cmdline_has hw "spec_store_bypass_disable" name ->
  __ssb_parse_cmdline hw s = (cmd, s).
Proof.
  intros Hin Hno Hoff Hcmd. unfold __ssb_parse_cmdline.
  rewrite Hno, Hoff. cbn [orb]. rewrite Hcmd.
  assert (Hlt : (Z.of_nat (String.length name) <? 0) = false)
    by (apply Z.ltb_ge; lia).
  rewrite Hlt.
  pose proof (ssb_mitigation_options_lookup (name, cmd) Hin) as Hf.
  cbn [fst] in Hf. rewrite Hf. reflexivity.
Qed.

Lemma spectre_v2_known_option_witness :
  let hw := with_option "spectre_v2" "retpoline" intel_retbleed in
  let r := spectre_v2_parse_cmdline hw (boot_state 0 false SPECTRE_V2_NONE) in
  fst r = SPECTRE_V2_CMD_AUTO /\
  exists lvl msg,
    ktrace (snd r) = [Printk lvl msg] /\ lvl <> KERN_INFO.
Proof.
  intros hw r.
  pose proof (spectre_v2_known_option hw
                {| v2_option_name := "retpoline";
                   v2_option_cmd := SPECTRE_V2_CMD_RETPOLINE;
                   v2_option_secure := false |}
                (boot_state 0 false SPECTRE_V2_NONE)
                (or_intror (or_intror (or_introl eq_refl)))
                eq_refl eq_refl eq_refl) as H.
  cbv zeta in H. destruct H as [Hc | (Ha & [Hl | (Hamd & _ & _)])].
  - exfalso. vm_compute in Hc. discriminate.
  - split; [exact Ha | exact Hl].
  - exfalso. discriminate Hamd.
Defined.

Lemma ssb_known_option_witness :
  __ssb_parse_cmdline
    (with_option "spec_store_bypass_disable" "prctl" intel_retbleed)
    (boot_state 0 false SPECTRE_V2_NONE)
  = (SPEC_STORE_BYPASS_CMD_PRCTL, boot_state 0 false SPECTRE_V2_NONE).
Proof.
  apply (ssb_known_option
           (with_option "spec_store_bypass_disable" "prctl" intel_retbleed)
           "prctl" SPEC_STORE_BYPASS_CMD_PRCTL);
    [cbn; auto 10 | reflexivity | reflexivity | reflexivity].
Defined.

(** ** MCU_OPT_CTRL: read-modify-write *)

Section McuOptCtrl.

Variable K : msr_index.
Variable hw : cpu_facts.

(** On a processor that honours every write this is [update_gds_msr]. *)
Lemma update_gds_msr_on_honoured (s : state) :
  update_gds_msr_on K store_honoured s = update_gds_msr K s.
Proof. reflexivity. Qed.

(** X9: [update_gds_msr] on a processor that may ignore the write.  The
    value it writes to MCU_OPT_CTRL differs from the value it read in the
    bits of GDS_MITG_DIS only, which are set for the Off choice and cleared
    for Full and Full (locked); the register then holds what the processor
    made of the write; and the function warns, unless it has warned before,
    exactly when that is not the value written.  For the remaining choices
    it does nothing. *)
Theorem update_gds_msr_bits (store : Z -> Z -> Z) (s : state) :
  let s' := update_gds_msr_on K store s in
  match gds_mitigation s with
  | GDS_MITIGATION_FORCE | GDS_MITIGATION_UCODE_NEEDED
  | GDS_MITIGATION_HYPERVISOR => s' = s
  | m =>
      exists v,
        (forall n, 0 <= n ->
           Z.testbit v n =
             match m with
             | GDS_MITIGATION_OFF =>
                 Z.testbit (mcu_opt_ctrl s) n || Z.testbit (GDS_MITG_DIS K) n
             | _ =>
                 Z.testbit (mcu_opt_ctrl s) n &&
                 negb (Z.testbit (GDS_MITG_DIS K) n)
             end) /\
        mcu_opt_ctrl s' = store (mcu_opt_ctrl s) v /\
        ktrace s' =
          (if negb (v =? store (mcu_opt_ctrl s) v) &&
              negb (gds_msr_warn_once s)
           then [WarnOn "mcu_ctrl != mcu_ctrl_after"] else []) ++
          Wrmsrl MSR_IA32_MCU_OPT_CTRL v :: ktrace s
  end.
Proof.
  cbv zeta. unfold update_gds_msr_on, wrmsrl_on, when.
  destruct (gds_mitigation s); try reflexivity; st_simpl;
    [ exists (Z.lor (mcu_opt_ctrl s) (GDS_MITG_DIS K))
    | exists (Z.land (mcu_opt_ctrl s) (Z.lnot (GDS_MITG_DIS K)))
    | exists (Z.land (mcu_opt_ctrl s) (Z.lnot (GDS_MITG_DIS K))) ];
    (split;
     [ intros n Hn;
       rewrite ?Z.lor_spec, ?Z.land_spec, ?Z.lnot_spec by assumption;
       reflexivity
     | destruct (negb (_ =? _) && negb (gds_msr_warn_once s));
       st_simpl; split; reflexivity ]).
Qed.


End McuOptCtrl.

Lemma update_gds_msr_bits_witness :
  let s := set_gds_mitigation GDS_MITIGATION_OFF
             (boot_state (GDS_MITG_LOCKED x86_msr_index) false
                SPECTRE_V2_NONE) in
  let s' := update_gds_msr_on x86_msr_index
              (store_gds_locked x86_msr_index) s in
  Z.testbit (mcu_opt_ctrl s') 4 = false /\
  In (WarnOn "mcu_ctrl != mcu_ctrl_after") (ktrace s').
Proof.
  intros s s'.
  pose proof (update_gds_msr_bits x86_msr_index
                (store_gds_locked x86_msr_index) s) as H.
  cbv zeta in H. fold s' in H.
  change (gds_mitigation s) with GDS_MITIGATION_OFF in H.
  destruct H as (v & Hb & Hr & Ht).
  assert (Hs : Z.testbit
                 (store_gds_locked x86_msr_index (mcu_opt_ctrl s) v) 4
               = false).
  { unfold store_gds_locked.
    rewrite Z.lor_spec, !Z.land_spec, Z.lnot_spec by lia.
    change (Z.testbit (GDS_MITG_DIS x86_msr_index) 4) with true.
    change (Z.testbit (mcu_opt_ctrl s) 4) with false.
    rewrite andb_false_r. reflexivity. }
  split; [rewrite Hr; exact Hs |].
  rewrite Ht.
  destruct (Z.eqb_spec v (store_gds_locked x86_msr_index (mcu_opt_ctrl s) v))
    as [E | E].
  - exfalso. rewrite <- E in Hs. rewrite (Hb 4 ltac:(lia)) in Hs.
    rewrite orb_true_r in Hs. discriminate Hs.
  - left. reflexivity.
Defined.


(** ** Consequences of the GDS selection *)

Section GdsMitigated.

Variable K : msr_index.
Variable hw : cpu_facts.

(** X11: what KVM learns from [gds_ucode_mitigated] after selection on
    an affected CPU, starting from a choice the initialiser or
    [gather_data_sampling=] can give: the microcode mitigation is in force
    exactly on bare metal with the GDS control, when the control is locked
    or nothing asked for Off. *)
Theorem gds_ucode_mitigated_after_select (s : state) :
  boot_cpu_has_bug hw X86_BUG_GDS = true ->
  gds_boot_choice (gds_mitigation s) = true ->
  gds_ucode_mitigated (gds_select_mitigation K hw s) =
    negb (boot_cpu_has hw X86_FEATURE_HYPERVISOR) &&
    tst (x86_read_arch_cap_msr hw) (ARCH_CAP_GDS_CTRL K) &&
    (gds_locked K s ||
     negb (cpu_mitigations_off hw || gds_eqb_off (gds_mitigation s))).
Proof.
  intros Hb Hc. unfold gds_ucode_mitigated, gds_select_mitigation, gds_print,
    gds_locked, when.
  rewrite Hb. cbn [negb].
  destruct (boot_cpu_has hw X86_FEATURE_HYPERVISOR); [reflexivity|].
  destruct (tst (x86_read_arch_cap_msr hw) (ARCH_CAP_GDS_CTRL K));
    cbn [negb andb].
  - assert (Hu : forall t, gds_mitigation (update_gds_msr K t) = gds_mitigation t).
    { intros t. unfold update_gds_msr, when.
      destruct (gds_mitigation t) eqn:E; st_simpl; rewrite ?Z.eqb_refl;
        st_simpl; auto. }
    st_simpl. rewrite Hu.
    destruct (cpu_mitigations_off hw); st_simpl;
      [| destruct (gds_mitigation s) eqn:E; try discriminate Hc; st_simpl;
         rewrite ?E ];
      destruct (tst (mcu_opt_ctrl s) (GDS_MITG_LOCKED K)); st_simpl;
      rewrite ?E; reflexivity.
  - destruct (cpu_mitigations_off hw); st_simpl;
      [reflexivity | destruct (gds_mitigation s) eqn:E; st_simpl;
                     rewrite ?E; reflexivity].
Qed.

End GdsMitigated.

Lemma gds_ucode_mitigated_after_select_witness :
  gds_ucode_mitigated
    (gds_select_mitigation x86_msr_index gds_locked_part
       (gds_locked_boot gds_locked_part)) = true.
Proof.
  apply (gds_ucode_mitigated_after_select x86_msr_index gds_locked_part
           (gds_locked_boot gds_locked_part));
    reflexivity.
Defined.

(** ** What the boot sequence never does *)

Lemma trace_extends_trans (P : event -> Prop) (a b c : list event) :
  trace_extends P a b -> trace_extends P b c -> trace_extends P a c.
Proof.
  intros Hab Hbc. induction Hbc as [|e tr He Hbc IH];
    [assumption | constructor; assumption].
Qed.

Lemma trace_extends_weaken (P Q : event -> Prop) (a b : list event) :
  (forall e, P e -> Q e) -> trace_extends P a b -> trace_extends Q a b.
Proof.
  intros HPQ H. induction H; constructor; auto.
Qed.

Lemma quiet_not_forced (e : event) : quiet_event e -> not_forced_smt_disable e.
Proof. destruct e; cbn; intros H; try contradiction; discriminate. Qed.

(** Close a goal [trace_extends P old (e1 :: ... :: old)]. *)
Ltac trace_closed :=
  st_simpl;
  repeat first
    [ apply trace_extends_refl
    | apply trace_extends_cons;
      [ first [ exact I | unfold not_forced_smt_disable; discriminate ] | ] ].

Section BootTrace.

Variable K : msr_index.
Variable hw : cpu_facts.

Lemma spectre_v1_select_unforced (s : state) :
  trace_extends not_forced_smt_disable (ktrace s) (ktrace (spectre_v1_select_mitigation hw s)).
Proof. unfold spectre_v1_select_mitigation. cases; trace_closed. Qed.

Lemma retbleed_cmd_auto_unforced (s : state) :
  trace_extends not_forced_smt_disable (ktrace s) (ktrace (retbleed_cmd_auto hw s)).
Proof. unfold retbleed_cmd_auto. cases; trace_closed. Qed.

Lemma retbleed_apply_unforced (s : state) :
  trace_extends not_forced_smt_disable (ktrace s) (ktrace (retbleed_apply K hw s)).
Proof.
  unfold retbleed_apply.
  destruct (retbleed_mitigation s);
    destruct (vendor_eqb (x86_vendor hw) X86_VENDOR_INTEL);
    cases; trace_closed.
Qed.

Lemma retbleed_select_unforced (s : state) :
  trace_extends not_forced_smt_disable (ktrace s) (ktrace (retbleed_select_mitigation K hw s)).
Proof.
  unfold retbleed_select_mitigation.
  destruct (negb _ || _); [constructor|].
  destruct (retbleed_cmd s); [constructor | | |];
    try destruct (boot_cpu_has hw X86_FEATURE_IBPB);
    (eapply trace_extends_trans; [| apply retbleed_apply_unforced]);
    try (eapply trace_extends_trans; [| apply retbleed_cmd_auto_unforced]);
    trace_closed.
Qed.

Lemma mds_select_unforced (s : state) :
  trace_extends not_forced_smt_disable (ktrace s) (ktrace (mds_select_mitigation hw s)).
Proof. unfold mds_select_mitigation. cases; trace_closed. Qed.

Lemma taa_select_unforced (s : state) :
  trace_extends not_forced_smt_disable (ktrace s) (ktrace (taa_select_mitigation K hw s)).
Proof. unfold taa_select_mitigation. cases; trace_closed. Qed.

Lemma mmio_select_unforced (s : state) :
  trace_extends not_forced_smt_disable (ktrace s) (ktrace (mmio_select_mitigation K hw s)).
Proof. unfold mmio_select_mitigation. cases; trace_closed. Qed.

Lemma md_clear_print_quiet (s : state) :
  trace_extends quiet_event (ktrace s) (ktrace (md_clear_print hw s)).
Proof. unfold md_clear_print. cases; trace_closed. Qed.

Lemma md_clear_update_unforced (s : state) :
  trace_extends not_forced_smt_disable (ktrace s) (ktrace (md_clear_update_mitigation K hw s)).
Proof.
  unfold md_clear_update_mitigation.
  destruct (cpu_mitigations_off hw); [constructor|].
  destruct (negb _);
    [apply (trace_extends_weaken _ _ _ _ quiet_not_forced),
       md_clear_print_quiet|].
  eapply trace_extends_trans;
    [| apply (trace_extends_weaken _ _ _ _ quiet_not_forced),
         md_clear_print_quiet].
  fold (reselect_mds hw s).
  fold (reselect_taa K hw (reselect_mds hw s)).
  fold (reselect_mmio K hw (reselect_taa K hw (reselect_mds hw s))).
  assert (H1 : forall t, trace_extends not_forced_smt_disable (ktrace t) (ktrace (reselect_mds hw t))).
  { intros t. unfold reselect_mds, when. destruct (_ && _); [|constructor].
    eapply trace_extends_trans; [| apply mds_select_unforced]. trace_closed. }
  assert (H2 : forall t, trace_extends not_forced_smt_disable (ktrace t) (ktrace (reselect_taa K hw t))).
  { intros t. unfold reselect_taa, when. destruct (_ && _); [|constructor].
    eapply trace_extends_trans; [| apply taa_select_unforced]. trace_closed. }
  assert (H3 : forall t, trace_extends not_forced_smt_disable (ktrace t) (ktrace (reselect_mmio K hw t))).
  { intros t. unfold reselect_mmio, when. destruct (_ && _); [|constructor].
    eapply trace_extends_trans; [| apply mmio_select_unforced]. trace_closed. }
  eapply trace_extends_trans; [| apply H3].
  eapply trace_extends_trans; [| apply H2].
  apply H1.
Qed.

Lemma md_clear_select_unforced (s : state) :
  trace_extends not_forced_smt_disable (ktrace s) (ktrace (md_clear_select_mitigation K hw s)).
Proof.
  unfold md_clear_select_mitigation.
  eapply trace_extends_trans; [| apply md_clear_update_unforced].
  eapply trace_extends_trans; [| apply mmio_select_unforced].
  eapply trace_extends_trans; [| apply taa_select_unforced].
  apply mds_select_unforced.
Qed.

(** The SRBDS selector and the SMT feedback only print and write the
    register. *)
Lemma srbds_select_quiet (s : state) :
  trace_extends quiet_event (ktrace s) (ktrace (srbds_select_mitigation K hw s)).
Proof.
  unfold srbds_select_mitigation, update_srbds_msr. cases; trace_closed.
Qed.

Lemma arch_smt_update_quiet (s : state) :
  trace_extends quiet_event (ktrace s) (ktrace (arch_smt_update K hw s)).
Proof.
  unfold arch_smt_update.
  assert (H1 : forall t, trace_extends quiet_event (ktrace t) (ktrace (arch_smt_update_mds K hw t))).
  { intros t. unfold arch_smt_update_mds, update_mds_branch_idle.
    destruct (mds_mitigation t); cases; trace_closed. }
  assert (H2 : forall t, trace_extends quiet_event (ktrace t) (ktrace (arch_smt_update_taa t))).
  { intros t. unfold arch_smt_update_taa.
    destruct (taa_mitigation t); cases; trace_closed. }
  assert (H3 : forall t, trace_extends quiet_event (ktrace t) (ktrace (arch_smt_update_mmio t))).
  { intros t. unfold arch_smt_update_mmio.
    destruct (mmio_mitigation t); cases; trace_closed. }
  eapply trace_extends_trans; [| apply H3].
  eapply trace_extends_trans; [| apply H2].
  apply H1.
Qed.

(** The GDS selector may clear AVX but asks nothing of the scheduler. *)
Lemma gds_select_unforced (s : state) :
  trace_extends not_forced_smt_disable (ktrace s) (ktrace (gds_select_mitigation K hw s)).
Proof.
  unfold gds_select_mitigation, update_gds_msr, gds_print.
  cases; trace_closed.
Qed.

Lemma gds_select_quiet_when_off (s : state) :
  cpu_mitigations_off hw = true ->
  trace_extends quiet_event (ktrace s) (ktrace (gds_select_mitigation K hw s)).
Proof.
  intros Hoff. unfold gds_select_mitigation, update_gds_msr, gds_print.
  rewrite Hoff. cases; trace_closed.
Qed.

Lemma smt_topology_changes_quiet (flips : list bool) (s : state) :
  trace_extends quiet_event (ktrace s) (ktrace (smt_topology_changes K hw flips s)).
Proof.
  revert s. induction flips as [|b flips IH]; intros s; cbn; [constructor|].
  eapply trace_extends_trans; [| apply IH].
  unfold smt_topology_change.
  apply (arch_smt_update_quiet (set_sched_smt_active b s)).
Qed.

(** X12: from boot through any series of SMT topology changes, the
    Spectre v1, RETBleed, MDS, TAA, MMIO Stale Data, SRBDS and GDS selectors
    and [arch_smt_update] never ask the scheduler for a forced SMT disable:
    every [cpu_smt_disable] they issue is the best-effort one. *)
Theorem check_bugs_never_forces_smt_off (flips : list bool) (s : state) :
  trace_extends not_forced_smt_disable (ktrace s)
    (ktrace (smt_topology_changes K hw flips (check_bugs K hw s))).
Proof.
  eapply trace_extends_trans;
    [| apply (trace_extends_weaken _ _ _ _ quiet_not_forced),
         smt_topology_changes_quiet].
  unfold check_bugs.
  eapply trace_extends_trans;
    [| apply (trace_extends_weaken _ _ _ _ quiet_not_forced),
         arch_smt_update_quiet].
  eapply trace_extends_trans; [| apply gds_select_unforced].
  eapply trace_extends_trans;
    [| apply (trace_extends_weaken _ _ _ _ quiet_not_forced),
         srbds_select_quiet].
  eapply trace_extends_trans; [| apply md_clear_select_unforced].
  eapply trace_extends_trans; [| apply retbleed_select_unforced].
  apply spectre_v1_select_unforced.
Qed.

(** X13: booted with [mitigations=off], [check_bugs], in its Spectre v1,
    RETBleed, MDS, TAA, MMIO Stale Data, SRBDS and GDS steps, leaves the
    three switches as they were, ends with Spectre v1 at None, MDS and MMIO at
    Off, TAA at Off (or TSX disabled on an affected CPU without RTM) and
    the RETBleed choice untouched, and neither asks for SMT to be disabled
    nor forces or clears a capability bit: all it does is print and write
    MCU_OPT_CTRL. *)
Theorem check_bugs_mitigations_off (s : state) :
  cpu_mitigations_off hw = true ->
  let s' := check_bugs K hw s in
  effect_counts s' = effect_counts s /\
  spectre_v1_mitigation s' = SPECTRE_V1_MITIGATION_NONE /\
  mds_mitigation s' = MDS_MITIGATION_OFF /\
  mmio_mitigation s' = MMIO_MITIGATION_OFF /\
  taa_mitigation s' =
    (if boot_cpu_has_bug hw X86_BUG_TAA && negb (boot_cpu_has hw X86_FEATURE_RTM)
     then TAA_MITIGATION_TSX_DISABLED else TAA_MITIGATION_OFF) /\
  retbleed_mitigation s' = retbleed_mitigation s /\
  trace_extends quiet_event (ktrace s) (ktrace s').
Proof.
  intros Hoff. cbv zeta. unfold check_bugs, md_clear_select_mitigation,
    md_clear_update_mitigation.
  rewrite Hoff.
  rewrite (spectre_v1_select_early hw s) by auto.
  rewrite (retbleed_select_early K hw) by auto.
  rewrite (mds_select_early hw) by auto.
  rewrite (taa_select_mitigations_off K hw) by auto.
  rewrite (mmio_select_early K hw) by auto.
  set (taa := if _ && _ then _ else _).
  set (s4 := set_mmio_mitigation _ _).
  assert (Hsel : forall t,
             let t' := gds_select_mitigation K hw (srbds_select_mitigation K hw t) in
             effect_counts t' = effect_counts t /\
             spectre_v1_mitigation t' = spectre_v1_mitigation t /\
             mds_mitigation t' = mds_mitigation t /\
             mmio_mitigation t' = mmio_mitigation t /\
             taa_mitigation t' = taa_mitigation t /\
             retbleed_mitigation t' = retbleed_mitigation t /\
             sched_smt_active t' = sched_smt_active t).
  { intros t. cbv zeta.
    rewrite gds_select_counts, srbds_select_counts.
    assert (G : forall u,
               spectre_v1_mitigation (gds_select_mitigation K hw u) = spectre_v1_mitigation u /\
               mds_mitigation (gds_select_mitigation K hw u) = mds_mitigation u /\
               mmio_mitigation (gds_select_mitigation K hw u) = mmio_mitigation u /\
               taa_mitigation (gds_select_mitigation K hw u) = taa_mitigation u /\
               retbleed_mitigation (gds_select_mitigation K hw u) = retbleed_mitigation u /\
               sched_smt_active (gds_select_mitigation K hw u) = sched_smt_active u).
    { intros u. unfold gds_select_mitigation, update_gds_msr, gds_print.
      cases; repeat split; reflexivity. }
    assert (R : spectre_v1_mitigation (srbds_select_mitigation K hw t) = spectre_v1_mitigation t /\
               mds_mitigation (srbds_select_mitigation K hw t) = mds_mitigation t /\
               mmio_mitigation (srbds_select_mitigation K hw t) = mmio_mitigation t /\
               taa_mitigation (srbds_select_mitigation K hw t) = taa_mitigation t /\
               retbleed_mitigation (srbds_select_mitigation K hw t) = retbleed_mitigation t /\
               sched_smt_active (srbds_select_mitigation K hw t) = sched_smt_active t).
    { unfold srbds_select_mitigation, update_srbds_msr.
      cases; repeat split; reflexivity. }
    destruct (G (srbds_select_mitigation K hw t)) as (-> & -> & -> & -> & -> & ->).
    destruct R as (-> & -> & -> & -> & -> & ->).
    repeat split; reflexivity. }
  destruct (Hsel s4) as (Hc & Hv & Hm & Hi & Ht & Hr & _).
  set (s6 := gds_select_mitigation K hw (srbds_select_mitigation K hw s4)) in *.
  assert (Hq6 : trace_extends quiet_event (ktrace s) (ktrace s6)).
  { subst s6. eapply trace_extends_trans;
      [| apply gds_select_quiet_when_off; assumption].
    eapply trace_extends_trans; [| apply srbds_select_quiet].
    subst s4. trace_closed. }
  assert (Hid : arch_smt_update K hw s6 = s6).
  { unfold arch_smt_update, arch_smt_update_mds, arch_smt_update_taa,
      arch_smt_update_mmio.
    rewrite Hm. subst s4. st_simpl. rewrite Ht. st_simpl.
    subst taa. destruct (_ && _); rewrite Hi; st_simpl; reflexivity. }
  rewrite Hid. subst s4. st_simpl.
  repeat split; try assumption.
Qed.

End BootTrace.

Lemma check_bugs_mitigations_off_witness :
  let hw := with_mitigations_off mds_taa_mmio in
  let s' := check_bugs x86_msr_index hw (boot_state 0 true SPECTRE_V2_NONE) in
  mds_mitigation s' = MDS_MITIGATION_OFF /\
  mds_user_clear s' = 0.
Proof.
  intros hw s'.
  destruct (check_bugs_mitigations_off x86_msr_index hw
              (boot_state 0 true SPECTRE_V2_NONE) eq_refl)
    as (Hc & _ & Hm & _).
  split; [exact Hm|].
  exact (f_equal (fun c : Z * Z * Z => fst (fst c)) Hc).
Defined.

(** ** Speculative Store Bypass *)

Ltac xt_simpl :=
  st_simpl;
  cbn [
    core ssb_cmd ssb_mode ssbd_userset_key x86_spec_ctrl_mask l1tf_mitigation
    x86_cache_bits l1tf_vmx_mitigation itlb_multihit_kvm_mitigation
    forced_caps msr_writes
    set_core set_ssb_cmd set_ssb_mode set_ssbd_userset_key
    set_x86_spec_ctrl_mask set_l1tf_mitigation set_x86_cache_bits
    set_forced_caps set_msr_writes on_core setup_force_cpu_cap_ext
    wrmsrl_ext when_ext set_x86_spec_ctrl_base
    mds_mitigation mds_nosmt taa_mitigation taa_nosmt mmio_mitigation
    mmio_nosmt srbds_mitigation srbds_off spectre_v1_mitigation
    spectre_v2_enabled gds_mitigation retbleed_mitigation retbleed_cmd
    retbleed_nosmt x86_spec_ctrl_base mds_user_clear mds_idle_clear
    mmio_stale_data_clear mcu_opt_ctrl sched_smt_active mds_msg_smt_once
    taa_msg_smt_once mmio_msg_smt_once gds_msr_warn_once ktrace
    ssb_user_settable existsb x86_cap_ext_beq negb andb orb fst snd
  ] in *;
  st_simpl.

Ltac xt_cases :=
  unfold when_ext, on_core, boot_cpu_has_ext in *;
  repeat (xt_simpl; try split_cond); xt_simpl.

Ltac xt_done :=
  try reflexivity; try congruence;
  try (exfalso;
       repeat match goal with
              | H : _ && false = true |- _ => rewrite andb_false_r in H
              end;
       congruence).

Section Ssb.

Variable K : msr_index.
Variable hw : cpu_facts.
Variable hx : cpu_facts_ext.

Lemma boot_cpu_has_ext_forced (c : x86_cap_ext) (x y : ext_state) :
  forced_caps y = forced_caps x -> boot_cpu_has_ext hx c y = boot_cpu_has_ext hx c x.
Proof. unfold boot_cpu_has_ext. intros ->. reflexivity. Qed.

Lemma boot_cpu_has_ext_cons (c d : x86_cap_ext) (x y : ext_state) :
  forced_caps y = d :: forced_caps x -> c <> d -> boot_cpu_has_ext hx c y = boot_cpu_has_ext hx c x.
Proof.
  unfold boot_cpu_has_ext. intros -> Hne. cbn [existsb].
  destruct (x86_cap_ext_beq c d) eqn:E; [| reflexivity].
  apply internal_x86_cap_ext_dec_bl in E. contradiction.
Qed.

Lemma ssb_select_forced (x : ext_state) :
  forced_caps (ssb_select_mitigation hx x) = forced_caps x \/
  forced_caps (ssb_select_mitigation hx x) =
    X86_FEATURE_SPEC_STORE_BYPASS_DISABLE :: forced_caps x.
Proof.
  unfold ssb_select_mitigation, __ssb_select_mitigation, ssb_print_mitigation,
    x86_amd_ssbd_enable.
  xt_cases; auto; xt_done.
Qed.

Lemma ssb_select_has (c : x86_cap_ext) (x : ext_state) :
  c <> X86_FEATURE_SPEC_STORE_BYPASS_DISABLE ->
  boot_cpu_has_ext hx c (ssb_select_mitigation hx x) = boot_cpu_has_ext hx c x.
Proof.
  intros Hne. destruct (ssb_select_forced x) as [H | H].
  - apply boot_cpu_has_ext_forced, H.
  - eapply boot_cpu_has_ext_cons; eauto.
Qed.

Lemma ssb_select_cmd (x : ext_state) :
  ssb_cmd (ssb_select_mitigation hx x) = ssb_cmd x.
Proof.
  unfold ssb_select_mitigation, __ssb_select_mitigation, ssb_print_mitigation,
    x86_amd_ssbd_enable.
  xt_cases; xt_done.
Qed.

(** What one run settles, from the state it starts in. *)
Lemma ssb_select_run (x : ext_state) :
  let mode :=
    if negb (boot_cpu_has_ext hx X86_FEATURE_SSBD x) then SPEC_STORE_BYPASS_NONE
    else if negb (boot_cpu_has_ext hx X86_BUG_SPEC_STORE_BYPASS x) &&
            match ssb_cmd x with
            | SPEC_STORE_BYPASS_CMD_NONE | SPEC_STORE_BYPASS_CMD_AUTO => true
            | _ => false
            end then SPEC_STORE_BYPASS_NONE
    else ssb_mode_of_cmd hx (ssb_cmd x) in
  let engaged :=
    match mode with SPEC_STORE_BYPASS_DISABLE => true | _ => false end in
  ssb_settled (ssb_select_mitigation hx x) =
    (mode,
     if negb (static_key_enabled (ssbd_userset_key x)) &&
        ssb_user_settable mode
     then static_key_slow_inc (ssbd_userset_key x) else ssbd_userset_key x,
     if engaged then Z.lor (x86_spec_ctrl_base (core x)) (SPEC_CTRL_SSBD hx)
     else x86_spec_ctrl_base (core x),
     if engaged && boot_cpu_has_ext hx X86_FEATURE_MSR_SPEC_CTRL x
     then Z.lor (x86_spec_ctrl_mask x) (SPEC_CTRL_SSBD hx)
     else x86_spec_ctrl_mask x).
Proof.
  cbv zeta.
  unfold ssb_select_mitigation, __ssb_select_mitigation, ssb_print_mitigation,
    x86_amd_ssbd_enable, ssb_settled.
  destruct (boot_cpu_has_ext hx X86_FEATURE_SSBD x); cbn [negb andb];
    [| solve [xt_cases; xt_done]].
  destruct (negb (boot_cpu_has_ext hx X86_BUG_SPEC_STORE_BYPASS x) && _);
    [solve [xt_cases; xt_done] |].
  destruct (ssb_mode_of_cmd hx (ssb_cmd x)) eqn:E;
    solve [xt_cases; xt_done].
Qed.

(** X14 (ssb_select_mitigation, which runs again on a late microcode
    load): a second run settles the mode, the [ssbd_userset_key] switch,
    [x86_spec_ctrl_base] and [x86_spec_ctrl_mask] as the first one did; in
    particular the switch, a reference count that starts non-negative, is
    raised once at most. *)
Theorem ssb_select_twice (x : ext_state) :
  0 <= ssbd_userset_key x ->
  ssb_settled (ssb_select_mitigation hx (ssb_select_mitigation hx x)) =
  ssb_settled (ssb_select_mitigation hx x).
Proof.
  intros Hk.
  rewrite (ssb_select_run (ssb_select_mitigation hx x)).
  rewrite !ssb_select_has by discriminate. rewrite ssb_select_cmd.
  pose proof (ssb_select_run x) as R. cbv zeta in R.
  set (mode := if negb (boot_cpu_has_ext hx X86_FEATURE_SSBD x) then _ else _) in *.
  unfold ssb_settled in *.
  injection R as Rm Rk Rb Rc. rewrite Rk, Rb, Rc.
  unfold static_key_enabled, static_key_slow_inc in *.
  f_equal; [f_equal; [f_equal |] |].
  - rewrite Rm. reflexivity.
  - destruct (ssb_user_settable mode); rewrite ?andb_true_r, ?andb_false_r;
      [| reflexivity].
    destruct (0 <? ssbd_userset_key x) eqn:E; cbn [negb].
    + rewrite E. reflexivity.
    + assert (ssbd_userset_key x = 0) by lia.
      replace (0 <? ssbd_userset_key x + 1) with true by (symmetry; lia).
      reflexivity.
  - destruct mode; cbn [andb]; try reflexivity.
    rewrite <- Z.lor_assoc, Z.lor_diag. reflexivity.
  - destruct mode; cbn [andb]; try reflexivity.
    destruct (boot_cpu_has_ext hx X86_FEATURE_MSR_SPEC_CTRL x); [| reflexivity].
    rewrite <- Z.lor_assoc, Z.lor_diag. reflexivity.
Qed.

(** X15 (__ssb_select_mitigation): the mitigation is engaged, the mode being
    SPEC_STORE_BYPASS_DISABLE, exactly when the CPU has SSBD and the
    command is "on", whether or not the CPU is affected.  Then the SSBD bit
    is set in [x86_spec_ctrl_base], the capability
    X86_FEATURE_SPEC_STORE_BYPASS_DISABLE is forced, and one register at most
    is written.  Otherwise the base, the mask, the capabilities and the
    registers are left alone. *)
Theorem ssb_select_engages (x : ext_state) :
  let x' := ssb_select_mitigation hx x in
  (ssb_mode x' = SPEC_STORE_BYPASS_DISABLE <->
   boot_cpu_has_ext hx X86_FEATURE_SSBD x = true /\ ssb_cmd x = SPEC_STORE_BYPASS_CMD_ON) /\
  (ssb_mode x' = SPEC_STORE_BYPASS_DISABLE ->
   x86_spec_ctrl_base (core x') =
     Z.lor (x86_spec_ctrl_base (core x)) (SPEC_CTRL_SSBD hx) /\
   forced_caps x' = X86_FEATURE_SPEC_STORE_BYPASS_DISABLE :: forced_caps x /\
   (msr_writes x' = msr_writes x \/
    exists w, msr_writes x' = w :: msr_writes x)) /\
  (ssb_mode x' <> SPEC_STORE_BYPASS_DISABLE ->
   x86_spec_ctrl_base (core x') = x86_spec_ctrl_base (core x) /\
   x86_spec_ctrl_mask x' = x86_spec_ctrl_mask x /\
   forced_caps x' = forced_caps x /\
   msr_writes x' = msr_writes x).
Proof.
  cbv zeta.
  unfold ssb_select_mitigation, __ssb_select_mitigation, ssb_print_mitigation,
    x86_amd_ssbd_enable, ssb_mode_of_cmd.
  destruct (boot_cpu_has_ext hx X86_FEATURE_SSBD x); cbn [negb andb].
  2:{ xt_cases; (split; [split; [discriminate | intros [? _]; discriminate] |]);
        (split; [discriminate | auto]). }
  destruct (ssb_cmd x), (boot_cpu_has_ext hx X86_BUG_SPEC_STORE_BYPASS x),
    (CONFIG_SECCOMP hx); cbn [negb andb];
    xt_cases;
    (split; [split; [try discriminate; auto | intros [_ ?]; try discriminate; auto] |]);
    (split; [try discriminate; intros _; eauto 6 | try (intros ?; congruence); auto]).
Qed.

(** X16 (ssb_select_mitigation, ssb_print_mitigation, cpu_show_common): on
    an affected CPU the selection logs one line, the prefix followed by
    what the sysfs file then shows; on a CPU that is not affected it logs
    nothing and the file reads "Not affected", also when the command "on"
    has engaged the mitigation. *)
Theorem ssb_log_agrees_with_sysfs (x : ext_state) :
  let x' := ssb_select_mitigation hx x in
  if boot_cpu_has_ext hx X86_BUG_SPEC_STORE_BYPASS x then
    ktrace (core x') =
      Printk KERN_INFO ("Speculative Store Bypass: " ++
                        cpu_show_spec_store_bypass K hw hx x')%string
      :: ktrace (core x)
  else
    ktrace (core x') = ktrace (core x) /\
    cpu_show_spec_store_bypass K hw hx x' = ("Not affected" ++ LF)%string.
Proof.
  cbv zeta. unfold cpu_show_spec_store_bypass, cpu_show_common,
    boot_cpu_has_bug_any.
  rewrite ssb_select_has by discriminate.
  unfold ssb_select_mitigation, __ssb_select_mitigation, ssb_print_mitigation,
    x86_amd_ssbd_enable.
  destruct (boot_cpu_has_ext hx X86_BUG_SPEC_STORE_BYPASS x) eqn:B;
    cbn [negb andb].
  - xt_cases; xt_done.
  - split; [| reflexivity].
    xt_cases; xt_done.
Qed.

End Ssb.

Lemma ssb_select_twice_witness :
  let x := set_ssb_cmd SPEC_STORE_BYPASS_CMD_SECCOMP
             (boot_ext (boot_state 0 false SPECTRE_V2_NONE)) in
  ssbd_userset_key (ssb_select_mitigation ssb_intel x) = 1 /\
  ssb_settled (ssb_select_mitigation ssb_intel
                 (ssb_select_mitigation ssb_intel x)) =
  ssb_settled (ssb_select_mitigation ssb_intel x).
Proof.
  split; [reflexivity |].
  apply (ssb_select_twice ssb_intel). vm_compute. discriminate.
Defined.

(** ** The speculation prctl *)

Section Prctl.

Variable P : prctl_abi.

Lemma prctl_controls_distinct :
  NoDup (prctl_controls P) ->
  PR_SPEC_ENABLE P <> PR_SPEC_DISABLE P /\
  PR_SPEC_ENABLE P <> PR_SPEC_FORCE_DISABLE P /\
  PR_SPEC_ENABLE P <> PR_SPEC_DISABLE_NOEXEC P /\
  PR_SPEC_DISABLE P <> PR_SPEC_FORCE_DISABLE P /\
  PR_SPEC_DISABLE P <> PR_SPEC_DISABLE_NOEXEC P /\
  PR_SPEC_FORCE_DISABLE P <> PR_SPEC_DISABLE_NOEXEC P.
Proof.
  unfold prctl_controls. intros H.
  inversion H as [| a l Ha H1]; subst.
  inversion H1 as [| b l' Hb H2]; subst.
  inversion H2 as [| c l'' Hc H3]; subst.
  cbn [In] in *. repeat split; intros E; rewrite ?E in *; tauto.
Qed.

Ltac eqb_cases :=
  repeat match goal with
         | |- context [?a =? ?b] =>
             let E := fresh "E" in
             destruct (Z.eqb_spec a b) as [E | E];
             try (exfalso; congruence)
         end.

Ltac task_simpl :=
  cbn [prctl_ret prctl_task prctl_updated_current prctl_fail prctl_done
       task_update_spec_tif spec_ssb_disable spec_ssb_force_disable
       spec_ssb_noexec tif_spec_force_update task_set_spec_ssb_disable
       task_clear_spec_ssb_disable task_set_spec_ssb_force_disable
       task_set_spec_ssb_noexec task_clear_spec_ssb_noexec
       ssb_user_settable] in *.

(** X17 (ssb_prctl_set, ssb_prctl_get): in the prctl and seccomp modes, on
    a task that is not force-disabled, each of the four controls is
    accepted and read back, together with PR_SPEC_PRCTL, by the next
    get. *)
Theorem ssb_prctl_round_trip (x : ext_state) (hx : cpu_facts_ext)
    (is_current : bool) (task : task_struct) (ctrl : Z) :
  NoDup (prctl_controls P) ->
  ssb_user_settable (ssb_mode x) = true ->
  spec_ssb_force_disable task = false ->
  In ctrl (prctl_controls P) ->
  let r := arch_prctl_spec_ctrl_set P (ssb_mode x) is_current task
             (PR_SPEC_STORE_BYPASS P) ctrl in
  prctl_ret r = 0 /\
  arch_prctl_spec_ctrl_get P hx x (prctl_task r) (PR_SPEC_STORE_BYPASS P) =
    Z.lor (PR_SPEC_PRCTL P) ctrl.
Proof.
  intros Hd Hm Hf Hin. cbv zeta.
  destruct (prctl_controls_distinct Hd) as (D1 & D2 & D3 & D4 & D5 & D6).
  unfold arch_prctl_spec_ctrl_set, arch_prctl_spec_ctrl_get, ssb_prctl_set,
    ssb_prctl_get.
  rewrite Z.eqb_refl.
  destruct (ssb_mode x); try discriminate Hm;
    (destruct Hin as [<- | [<- | [<- | [<- | []]]]];
     eqb_cases; rewrite ?Hf; task_simpl; rewrite ?Hf; split; reflexivity).
Qed.

Lemma prctl_set_keeps_force (mode : ssb_mitigation) (is_current : bool)
    (task : task_struct) (which ctrl : Z) :
  spec_ssb_force_disable task = true ->
  spec_ssb_force_disable
    (prctl_task (arch_prctl_spec_ctrl_set P mode is_current task which ctrl)) =
  true.
Proof.
  intros Hf.
  unfold arch_prctl_spec_ctrl_set, ssb_prctl_set.
  destruct mode; eqb_cases; rewrite ?Hf; task_simpl; auto.
Qed.

(** X18 (ssb_prctl_set, arch_prctl_spec_ctrl_set, ssb_prctl_get): a forced
    disable cannot be undone: after any series of prctl calls a
    force-disabled task is still force-disabled, a further PR_SPEC_ENABLE
    is refused with -EPERM in the prctl and seccomp modes, and the get
    reads PR_SPEC_PRCTL | PR_SPEC_FORCE_DISABLE. *)
Theorem prctl_force_disable_sticky (mode : ssb_mitigation) (is_current : bool)
    (calls : list (Z * Z)) (task : task_struct) (affected : bool) :
  spec_ssb_force_disable task = true ->
  let t := prctl_calls P mode is_current calls task in
  spec_ssb_force_disable t = true /\
  (ssb_user_settable mode = true ->
   prctl_ret (arch_prctl_spec_ctrl_set P mode is_current t
                (PR_SPEC_STORE_BYPASS P) (PR_SPEC_ENABLE P)) = - EPERM /\
   ssb_prctl_get P mode affected t =
     Z.lor (PR_SPEC_PRCTL P) (PR_SPEC_FORCE_DISABLE P)).
Proof.
  intros Hf. cbv zeta.
  assert (Ht : spec_ssb_force_disable
                 (prctl_calls P mode is_current calls task) = true).
  { unfold prctl_calls. revert task Hf.
    induction calls as [| c calls IH]; intros task Hf; [exact Hf |].
    cbn [fold_left]. apply IH, prctl_set_keeps_force, Hf. }
  split; [exact Ht |].
  intros Hm.
  unfold arch_prctl_spec_ctrl_set, ssb_prctl_set, ssb_prctl_get.
  rewrite !Z.eqb_refl, Ht.
  destruct mode; try discriminate Hm; split; reflexivity.
Qed.

(** X19 (ssb_prctl_set, arch_prctl_spec_ctrl_set, task_update_spec_tif): a
    call that fails returns -ENODEV, -ENXIO, -EPERM or -ERANGE and leaves
    the task as it was, without an update of the current CPU; a call that
    succeeds was for PR_SPEC_STORE_BYPASS in the prctl or seccomp mode,
    sets TIF_SPEC_FORCE_UPDATE, and updates the CPU exactly when the task
    is the current one. *)
Theorem prctl_set_outcome (mode : ssb_mitigation) (is_current : bool)
    (task : task_struct) (which ctrl : Z) :
  let r := arch_prctl_spec_ctrl_set P mode is_current task which ctrl in
  (prctl_ret r <> 0 ->
   In (prctl_ret r) [- ENODEV; - ENXIO; - EPERM; - ERANGE] /\
   prctl_task r = task /\ prctl_updated_current r = false) /\
  (prctl_ret r = 0 ->
   which = PR_SPEC_STORE_BYPASS P /\ ssb_user_settable mode = true /\
   In ctrl (prctl_controls P) /\
   tif_spec_force_update (prctl_task r) = true /\
   prctl_updated_current r = is_current).
Proof.
  cbv zeta.
  unfold arch_prctl_spec_ctrl_set, ssb_prctl_set, prctl_controls.
  destruct mode; eqb_cases;
    try destruct (spec_ssb_force_disable task);
    task_simpl; cbn [In];
    (split; [intros H; try (exfalso; apply H; reflexivity);
             repeat split; auto 6
            | intros H; try (exfalso; vm_compute in H; discriminate H);
              repeat split; auto 6]).
Qed.

(** X20 (arch_seccomp_spec_mitigate): in the seccomp mode a task that
    enters seccomp is force-disabled, whatever it had chosen, so that the
    get reads PR_SPEC_PRCTL | PR_SPEC_FORCE_DISABLE and PR_SPEC_ENABLE is
    refused from then on; in every other mode the task is left as it
    was. *)
Theorem seccomp_forces_disable (mode : ssb_mitigation) (is_current : bool)
    (task : task_struct) (affected : bool) :
  NoDup (prctl_controls P) ->
  let t := arch_seccomp_spec_mitigate P mode is_current task in
  match mode with
  | SPEC_STORE_BYPASS_SECCOMP =>
      spec_ssb_disable t = true /\ spec_ssb_noexec t = false /\
      ssb_prctl_get P mode affected t =
        Z.lor (PR_SPEC_PRCTL P) (PR_SPEC_FORCE_DISABLE P) /\
      prctl_ret (ssb_prctl_set P mode is_current t (PR_SPEC_ENABLE P)) =
        - EPERM
  | _ => t = task
  end.
Proof.
  intros Hd. cbv zeta.
  destruct (prctl_controls_distinct Hd) as (D1 & D2 & D3 & D4 & D5 & D6).
  unfold arch_seccomp_spec_mitigate, ssb_prctl_set, ssb_prctl_get.
  destruct mode; try reflexivity.
  eqb_cases. task_simpl. repeat split; reflexivity.
Qed.

End Prctl.

Lemma ssb_prctl_round_trip_witness :
  let x := set_ssb_mode SPEC_STORE_BYPASS_PRCTL
             (boot_ext (boot_state 0 false SPECTRE_V2_NONE)) in
  let r := arch_prctl_spec_ctrl_set linux_prctl_abi (ssb_mode x) true
             fresh_task 0 16 in
  prctl_ret r = 0 /\
  arch_prctl_spec_ctrl_get linux_prctl_abi ssb_intel x (prctl_task r) 0 =
    Z.lor 1 16.
Proof.
  apply (ssb_prctl_round_trip linux_prctl_abi
           (set_ssb_mode SPEC_STORE_BYPASS_PRCTL
              (boot_ext (boot_state 0 false SPECTRE_V2_NONE)))
           ssb_intel true fresh_task 16).
  - vm_compute. repeat constructor; cbn; intuition discriminate.
  - reflexivity.
  - reflexivity.
  - vm_compute. auto.
Defined.

Lemma prctl_force_disable_sticky_witness :
  let t := prctl_calls linux_prctl_abi SPEC_STORE_BYPASS_SECCOMP true
             [(0, 2); (0, 4); (0, 16); (1, 2)]
             (task_set_spec_ssb_force_disable fresh_task) in
  spec_ssb_force_disable t = true /\
  (ssb_user_settable SPEC_STORE_BYPASS_SECCOMP = true ->
   prctl_ret (arch_prctl_spec_ctrl_set linux_prctl_abi
                SPEC_STORE_BYPASS_SECCOMP true t 0 2) = - EPERM /\
   ssb_prctl_get linux_prctl_abi SPEC_STORE_BYPASS_SECCOMP true t =
     Z.lor 1 8).
Proof.
  apply (prctl_force_disable_sticky linux_prctl_abi SPEC_STORE_BYPASS_SECCOMP
           true [(0, 2); (0, 4); (0, 16); (1, 2)]
           (task_set_spec_ssb_force_disable fresh_task) true).
  reflexivity.
Defined.

Lemma seccomp_forces_disable_witness :
  let t := arch_seccomp_spec_mitigate linux_prctl_abi
             SPEC_STORE_BYPASS_SECCOMP false fresh_task in
  spec_ssb_disable t = true /\ spec_ssb_noexec t = false /\
  ssb_prctl_get linux_prctl_abi SPEC_STORE_BYPASS_SECCOMP true t = Z.lor 1 8 /\
  prctl_ret (ssb_prctl_set linux_prctl_abi SPEC_STORE_BYPASS_SECCOMP false t 2)
    = - EPERM.
Proof.
  apply (seccomp_forces_disable linux_prctl_abi SPEC_STORE_BYPASS_SECCOMP
           false fresh_task true).
  vm_compute. repeat constructor; cbn; intuition discriminate.
Defined.

(** ** L1TF *)

Section L1tf.

Variable F : intel_fam6.
Variable hw : cpu_facts.
Variable hx : cpu_facts_ext.

(** X21 (override_cache_bits): the cache bits of the boot CPU are only ever
    raised, and only to 44, on the family 6 models of the list; nothing
    else changes, a second call changes nothing, and on those models the
    result is 44 at least. *)
Theorem override_cache_bits_floor (x : ext_state) :
  let x' := override_cache_bits F hx x in
  x' = set_x86_cache_bits (x86_cache_bits x') x /\
  x86_cache_bits x <= x86_cache_bits x' /\
  override_cache_bits F hx x' = x' /\
  (x86_family hx = 6 -> In (x86_model hx) (cache_bits_models F) ->
   44 <= x86_cache_bits x') /\
  (x86_cache_bits x' <> x86_cache_bits x ->
   x86_family hx = 6 /\ In (x86_model hx) (cache_bits_models F) /\
   x86_cache_bits x' = 44).
Proof.
  cbv zeta. unfold override_cache_bits, when_ext.
  assert (Hsame : forall y : ext_state,
             y = set_x86_cache_bits (x86_cache_bits y) y)
    by (intros []; reflexivity).
  destruct (Z.eqb_spec (x86_family hx) 6) as [Ef | Ef]; cbn [negb].
  2:{ split; [apply Hsame | split; [apply Z.le_refl | split; [reflexivity |]]].
      split; [intros; contradiction |].
      intros H; exfalso; apply H; reflexivity. }
  destruct (existsb (Z.eqb (x86_model hx)) (cache_bits_models F)) eqn:Em.
  2:{ assert (Hn : ~ In (x86_model hx) (cache_bits_models F)).
      { intros Hin.
        assert (existsb (Z.eqb (x86_model hx)) (cache_bits_models F) = true).
        { apply existsb_exists. exists (x86_model hx).
          split; [exact Hin | apply Z.eqb_refl]. }
        congruence. }
      split; [apply Hsame | split; [apply Z.le_refl | split; [reflexivity |]]].
      split; [intros; contradiction |].
      intros H; exfalso; apply H; reflexivity. }
  assert (Hin : In (x86_model hx) (cache_bits_models F)).
  { apply existsb_exists in Em. destruct Em as (m & Hm & E).
    apply Z.eqb_eq in E. subst m. exact Hm. }
  destruct (Z.ltb_spec (x86_cache_bits x) 44) as [Hlt | Hge].
  - xt_simpl. replace (44 <? 44) with false by reflexivity.
    split; [reflexivity | split; [lia | split; [reflexivity |]]].
    split; [intros; lia | intros; auto].
  - rewrite (proj2 (Z.ltb_ge _ _) Hge).
    split; [apply Hsame | split; [apply Z.le_refl | split; [reflexivity |]]].
    split; [intros; lia |].
    intros H; exfalso; apply H; reflexivity.
Qed.

Lemma override_cache_bits_frame (x : ext_state) :
  core (override_cache_bits F hx x) = core x /\
  l1tf_mitigation (override_cache_bits F hx x) = l1tf_mitigation x /\
  forced_caps (override_cache_bits F hx x) = forced_caps x.
Proof.
  unfold override_cache_bits, when_ext.
  repeat split_cond; xt_simpl; auto.
Qed.

Lemma l1tf_cmdline_frame (str : option string) (x : ext_state) :
  core (snd (l1tf_cmdline hx str x)) = core x /\
  forced_caps (snd (l1tf_cmdline hx str x)) = forced_caps x /\
  x86_cache_bits (snd (l1tf_cmdline hx str x)) = x86_cache_bits x.
Proof.
  unfold l1tf_cmdline.
  repeat split_cond; xt_simpl; auto.
Qed.

(** X22 (l1tf_cmdline, l1tf_select_mitigation): on an affected CPU the
    global switch comes before the l1tf= option.  With mitigations=off the
    choice is Off; otherwise with mitigations=auto,nosmt it is flush,nosmt,
    also when l1tf=full,force was given; otherwise it is the choice of the
    option.  SMT is forced off when the final choice is full,force, and
    only then; under mitigations=off the selection sends no SMT request at
    all. *)
Theorem l1tf_global_switch (str : option string) (x : ext_state) :
  boot_cpu_has_ext hx X86_BUG_L1TF x = true ->
  let x1 := snd (l1tf_cmdline hx str x) in
  let x2 := l1tf_select_mitigation F hw hx x1 in
  l1tf_mitigation x2 =
    (if cpu_mitigations_off hw then L1TF_MITIGATION_OFF
     else if cpu_mitigations_auto_nosmt hw then L1TF_MITIGATION_FLUSH_NOSMT
     else l1tf_mitigation x1) /\
  (l1tf_mitigation x2 = L1TF_MITIGATION_FULL_FORCE ->
   exists warn,
     ktrace (core x2) = warn ++ CpuSmtDisable true :: ktrace (core x)) /\
  (l1tf_mitigation x2 <> L1TF_MITIGATION_FULL_FORCE ->
   trace_extends not_forced_smt_disable (ktrace (core x)) (ktrace (core x2))) /\
  (cpu_mitigations_off hw = true ->
   trace_extends quiet_event (ktrace (core x)) (ktrace (core x2))).
Proof.
  intros Hb. cbv zeta.
  destruct (l1tf_cmdline_frame str x) as (Hc & Hf & _).
  set (x1 := snd (l1tf_cmdline hx str x)) in *. clearbody x1.
  assert (Hb1 : boot_cpu_has_ext hx X86_BUG_L1TF x1 = true).
  { rewrite <- Hb. apply boot_cpu_has_ext_forced, Hf. }
  rewrite <- Hc. clear Hc Hf Hb.
  unfold l1tf_select_mitigation. rewrite Hb1. cbn [negb].
  destruct (override_cache_bits_frame x1) as (Oc & Om & _).
  set (x0 := override_cache_bits F hx x1) in *. clearbody x0.
  rewrite <- Oc, <- Om. clear Oc Om Hb1.
  destruct (cpu_mitigations_off hw), (cpu_mitigations_auto_nosmt hw);
    xt_cases;
    (split; [congruence |]);
    (split; [intros E; try discriminate E; try congruence;
             first [exists []; reflexivity
                   | eexists [_]; reflexivity] |]);
    (split; [intros E; try congruence;
             repeat (apply trace_extends_cons; [discriminate |]);
             apply trace_extends_refl |]);
    intros E; try discriminate E;
    repeat (apply trace_extends_cons; [exact I |]);
    apply trace_extends_refl.
Qed.

(** X23 (l1tf_select_mitigation, cpu_show_common, l1tf_show_state): after
    the selection on an affected CPU the l1tf file reads "Vulnerable"
    exactly when PTE inversion could not be enabled, the kernel having
    two-level page tables or RAM lying above MAX_PA/2; otherwise it reads
    "Mitigation: PTE Inversion", possibly followed by the VMX state,
    whatever the l1tf= option was, "off" included. *)
Theorem l1tf_sysfs_after_select (K : msr_index) (x : ext_state) :
  boot_cpu_has_ext hx X86_BUG_L1TF x = true ->
  boot_cpu_has_ext hx X86_FEATURE_L1TF_PTEINV x = false ->
  let x' := l1tf_select_mitigation F hw hx x in
  if l1tf_pteinv_blocked hx (override_cache_bits F hx x) then
    cpu_show_l1tf K hw hx x' = ("Vulnerable" ++ LF)%string
  else
    cpu_show_l1tf K hw hx x' = l1tf_show_state hx x' /\
    prefix L1TF_DEFAULT_MSG (cpu_show_l1tf K hw hx x') = true.
Proof.
  intros Hb Hp. cbv zeta.
  assert (Hshow : forall y, prefix L1TF_DEFAULT_MSG (l1tf_show_state hx y) = true).
  { intros y. unfold l1tf_show_state, smt_vulnerable_or_disabled.
    destruct (CONFIG_KVM_INTEL hx); [| reflexivity].
    destruct (l1tf_vmx_mitigation y), (sched_smt_active (core y));
      reflexivity. }
  unfold cpu_show_l1tf, cpu_show_common, boot_cpu_has_bug_any.
  assert (Hfc : forced_caps (l1tf_select_mitigation F hw hx x) =
                  (if l1tf_pteinv_blocked hx (override_cache_bits F hx x)
                   then forced_caps x
                   else X86_FEATURE_L1TF_PTEINV :: forced_caps x)).
  { unfold l1tf_select_mitigation, l1tf_pteinv_blocked. rewrite Hb.
    cbn [negb].
    destruct (override_cache_bits_frame x) as (_ & _ & Of).
    set (x0 := override_cache_bits F hx x) in *. clearbody x0.
    rewrite <- Of.
    assert (Hcb : forall f y, x86_cache_bits (on_core f y) = x86_cache_bits y)
      by reflexivity.
    assert (Hcm : forall m y,
               x86_cache_bits (set_l1tf_mitigation m y) = x86_cache_bits y)
      by reflexivity.
    destruct (PAGETABLE_LEVELS hx =? 2); cbn [orb].
    - xt_cases; reflexivity.
    - destruct (cpu_mitigations_off hw), (cpu_mitigations_auto_nosmt hw);
        xt_simpl;
        destruct (l1tf_mitigation x0); xt_simpl;
        rewrite ?Hcb, ?Hcm;
        destruct (e820_any_mapped_ram hx _ _); xt_simpl; reflexivity. }
  assert (Hbug : boot_cpu_has_ext hx X86_BUG_L1TF
                   (l1tf_select_mitigation F hw hx x) = true).
  { rewrite <- Hb. unfold boot_cpu_has_ext in *. rewrite Hfc.
    destruct (l1tf_pteinv_blocked hx _); reflexivity. }
  assert (Hpt : boot_cpu_has_ext hx X86_FEATURE_L1TF_PTEINV
                  (l1tf_select_mitigation F hw hx x) =
                negb (l1tf_pteinv_blocked hx (override_cache_bits F hx x))).
  { unfold boot_cpu_has_ext in *. rewrite Hfc.
    destruct (l1tf_pteinv_blocked hx _); [exact Hp | reflexivity]. }
  rewrite Hbug, Hpt. cbn [negb].
  destruct (l1tf_pteinv_blocked hx _); cbn [negb];
    [reflexivity | split; [reflexivity | apply Hshow]].
Qed.

End L1tf.

Lemma l1tf_global_switch_witness :
  let hw := machine X86_VENDOR_INTEL [] 0 in
  let x := boot_ext (boot_state 0 false SPECTRE_V2_NONE) in
  let x2 := l1tf_select_mitigation x86_intel_fam6 hw ssb_intel
              (snd (l1tf_cmdline ssb_intel (Some "full,force") x)) in
  l1tf_mitigation x2 = L1TF_MITIGATION_FULL_FORCE /\
  x86_cache_bits x2 = 44 /\
  In (CpuSmtDisable true) (ktrace (core x2)).
Proof.
  cbv zeta.
  destruct (l1tf_global_switch x86_intel_fam6
              (machine X86_VENDOR_INTEL [] 0) ssb_intel
              (Some "full,force")
              (boot_ext (boot_state 0 false SPECTRE_V2_NONE)) eq_refl)
    as (Hm & Hforce & _).
  split; [exact Hm |].
  split; [reflexivity |].
  destruct (Hforce Hm) as (warn & ->).
  apply in_or_app. right. left. reflexivity.
Defined.

Lemma l1tf_sysfs_after_select_witness :
  let hw := with_option "l1tf" "off" (machine X86_VENDOR_INTEL [] 0) in
  let x := snd (l1tf_cmdline ssb_intel (Some "off")
                  (boot_ext (boot_state 0 false SPECTRE_V2_NONE))) in
  let x' := l1tf_select_mitigation x86_intel_fam6 hw ssb_intel x in
  l1tf_mitigation x' = L1TF_MITIGATION_OFF /\
  prefix L1TF_DEFAULT_MSG (cpu_show_l1tf x86_msr_index hw ssb_intel x') = true.
Proof.
  cbv zeta. split; [reflexivity |].
  exact (proj2 (l1tf_sysfs_after_select x86_intel_fam6
                  (with_option "l1tf" "off" (machine X86_VENDOR_INTEL [] 0))
                  ssb_intel x86_msr_index
                  (snd (l1tf_cmdline ssb_intel (Some "off")
                          (boot_ext (boot_state 0 false SPECTRE_V2_NONE))))
                  eq_refl eq_refl)).
Defined.

(** ** The sysfs files *)

Section Sysfs.

Variable K : msr_index.
Variable hw : cpu_facts.
Variable hx : cpu_facts_ext.

Ltac show_unfold :=
  unfold cpu_show_common, boot_cpu_has_bug_any, l1tf_show_state,
    itlb_multihit_show_state, mds_show_state, tsx_async_abort_show_state,
    mmio_stale_data_show_state, srbds_show_state, retbleed_show_state,
    gds_show_state, stibp_state, ibpb_state, smt_vulnerable_or_disabled,
    spectre_v1_strings, spectre_v2_strings, ssb_strings, mds_strings,
    taa_strings, mmio_strings, srbds_strings, gds_strings, retbleed_strings,
    l1tf_vmx_states in *.

(** X24 (cpu_show_common and the show_state functions it calls): whatever
    the bug asked for and whatever the state, the text a sysfs file shows
    is one line: it ends in a newline and holds no other. *)
Theorem cpu_show_one_line (bug : x86_bug) (x : ext_state) :
  one_line (cpu_show_common K hw hx bug x) = true.
Proof.
  show_unfold.
  destruct bug as [[] | []];
    repeat (cbn [negb andb orb mds_eqb taa_eqb mmio_eqb vendor_eqb];
            try split_cond);
    reflexivity.
Qed.

Lemma after_boot_settled (s : state) :
  after_boot K hw s -> idle_settled K hw s.
Proof.
  intros H. induction H as [s Hc | s active H IH].
  - apply check_bugs_settled. unfold effect_counts in Hc.
    injection Hc as _ Hi _. exact Hi.
  - unfold smt_topology_change.
    apply arch_smt_update_settles, idle_settled_ready, IH.
Qed.

(** X25 (mds_show_state, update_mds_branch_idle, arch_smt_update): once
    [check_bugs] has run, and after any SMT topology change, the mds file
    does not say "SMT mitigated" unless the idle clear of the CPU buffers
    is switched on. *)
Theorem mds_smt_mitigated_truthful (s : state) :
  after_boot K hw s ->
  x86_hyper hx = false ->
  mds_show_state hw hx s =
    (mds_strings (mds_mitigation s) ++ "; SMT mitigated" ++ LF)%string ->
  static_key_enabled (mds_idle_clear s) = true.
Proof.
  intros Hb Hh Hshow.
  pose proof (after_boot_settled s Hb) as Hs.
  unfold idle_settled, mds_wants_idle_clear in Hs.
  unfold mds_show_state, smt_vulnerable_or_disabled in Hshow.
  rewrite Hh in Hshow.
  destruct (boot_cpu_has hw X86_BUG_MSBDS_ONLY);
    destruct (mds_mitigation s); destruct (sched_smt_active s);
    cbn [mds_eqb negb andb] in *;
    try (exfalso; vm_compute in Hshow; discriminate Hshow);
    rewrite Hs, orb_true_r; reflexivity.
Qed.

End Sysfs.

Lemma mds_smt_mitigated_truthful_witness :
  let s := smt_topology_change x86_msr_index msbds_only true
             (check_bugs x86_msr_index msbds_only
                (boot_state 0 false SPECTRE_V2_NONE)) in
  cpu_show_mds x86_msr_index msbds_only ssb_intel (boot_ext s) =
    ("Mitigation: Clear CPU buffers; SMT mitigated" ++ LF)%string /\
  static_key_enabled (mds_idle_clear s) = true.
Proof.
  cbv zeta. split; [vm_compute; reflexivity |].
  apply (mds_smt_mitigated_truthful x86_msr_index msbds_only ssb_intel).
  - apply after_smt_change, after_check_bugs. reflexivity.
  - reflexivity.
  - vm_compute. reflexivity.
Defined.

(** ** The whole boot sequence *)

Section BootExt.

Variable K : msr_index.
Variable F : intel_fam6.
Variable hw : cpu_facts.
Variable hx : cpu_facts_ext.

(** Two states that agree on their settings, as records. *)
Ltac same_settings H :=
  unfold settings in H;
  cbn [set_ktrace set_x86_spec_ctrl_base
       mds_mitigation mds_nosmt taa_mitigation taa_nosmt mmio_mitigation
       mmio_nosmt srbds_mitigation srbds_off spectre_v1_mitigation
       spectre_v2_enabled gds_mitigation retbleed_mitigation retbleed_cmd
       retbleed_nosmt x86_spec_ctrl_base mds_user_clear mds_idle_clear
       mmio_stale_data_clear mcu_opt_ctrl sched_smt_active mds_msg_smt_once
       taa_msg_smt_once mmio_msg_smt_once gds_msr_warn_once ktrace] in H;
  injection H; intros; subst; clear H.

Ltac settings_frame :=
  unfold settings, when; xt_cases; reflexivity.

Lemma mds_select_settings (s1 s2 : state) :
  settings s1 = settings s2 ->
  settings (mds_select_mitigation hw s1) = settings (mds_select_mitigation hw s2).
Proof.
  destruct s1, s2. intros H. same_settings H.
  unfold mds_select_mitigation. settings_frame.
Qed.

Lemma taa_select_settings (s1 s2 : state) :
  settings s1 = settings s2 ->
  settings (taa_select_mitigation K hw s1) =
  settings (taa_select_mitigation K hw s2).
Proof.
  destruct s1, s2. intros H. same_settings H.
  unfold taa_select_mitigation. settings_frame.
Qed.

Lemma mmio_select_settings (s1 s2 : state) :
  settings s1 = settings s2 ->
  settings (mmio_select_mitigation K hw s1) =
  settings (mmio_select_mitigation K hw s2).
Proof.
  destruct s1, s2. intros H. same_settings H.
  unfold mmio_select_mitigation. settings_frame.
Qed.

Lemma when_settings (c : state -> bool) (f : state -> state) :
  (forall a b, settings a = settings b -> c a = c b) ->
  (forall a b, settings a = settings b -> settings (f a) = settings (f b)) ->
  forall s1 s2, settings s1 = settings s2 ->
  settings (when (c s1) f s1) = settings (when (c s2) f s2).
Proof.
  intros Hc Hf s1 s2 H. unfold when. rewrite (Hc s1 s2 H).
  destruct (c s2); auto.
Qed.

Lemma md_clear_print_settings (s1 s2 : state) :
  settings s1 = settings s2 ->
  settings (md_clear_print hw s1) = settings (md_clear_print hw s2).
Proof.
  destruct s1, s2. intros H. same_settings H.
  unfold md_clear_print. settings_frame.
Qed.

Lemma set_choice_settings (s1 s2 : state) :
  settings s1 = settings s2 ->
  (forall v, settings (set_mds_mitigation v s1) =
             settings (set_mds_mitigation v s2)) /\
  (forall v, settings (set_taa_mitigation v s1) =
             settings (set_taa_mitigation v s2)) /\
  (forall v, settings (set_mmio_mitigation v s1) =
             settings (set_mmio_mitigation v s2)).
Proof.
  destruct s1, s2. intros H. same_settings H. repeat split.
Qed.

Lemma md_clear_update_settings (s1 s2 : state) :
  settings s1 = settings s2 ->
  settings (md_clear_update_mitigation K hw s1) =
  settings (md_clear_update_mitigation K hw s2).
Proof.
  intros H. unfold md_clear_update_mitigation.
  destruct (cpu_mitigations_off hw); [exact H |].
  rewrite (f_equal mds_user_clear H : mds_user_clear s1 = mds_user_clear s2).
  destruct (negb (static_key_enabled (mds_user_clear s2)));
    [apply md_clear_print_settings, H |].
  cbv zeta. apply md_clear_print_settings.
  apply (when_settings
           (fun s => mmio_eqb (mmio_mitigation s) MMIO_MITIGATION_OFF &&
                     boot_cpu_has_bug hw X86_BUG_MMIO_STALE_DATA)
           (fun s => mmio_select_mitigation K hw
                       (set_mmio_mitigation MMIO_MITIGATION_VERW s))).
  { intros a b E.
    rewrite (f_equal mmio_mitigation E : mmio_mitigation a = mmio_mitigation b).
    reflexivity. }
  { intros a b E. apply mmio_select_settings, set_choice_settings, E. }
  apply (when_settings
           (fun s => taa_eqb (taa_mitigation s) TAA_MITIGATION_OFF &&
                     boot_cpu_has_bug hw X86_BUG_TAA)
           (fun s => taa_select_mitigation K hw
                       (set_taa_mitigation TAA_MITIGATION_VERW s))).
  { intros a b E.
    rewrite (f_equal taa_mitigation E : taa_mitigation a = taa_mitigation b).
    reflexivity. }
  { intros a b E. apply taa_select_settings, set_choice_settings, E. }
  apply (when_settings
           (fun s => mds_eqb (mds_mitigation s) MDS_MITIGATION_OFF &&
                     boot_cpu_has_bug hw X86_BUG_MDS)
           (fun s => mds_select_mitigation hw
                       (set_mds_mitigation MDS_MITIGATION_FULL s))).
  { intros a b E.
    rewrite (f_equal mds_mitigation E : mds_mitigation a = mds_mitigation b).
    reflexivity. }
  { intros a b E. apply mds_select_settings, set_choice_settings, E. }
  exact H.
Qed.

Lemma md_clear_select_settings (s1 s2 : state) :
  settings s1 = settings s2 ->
  settings (md_clear_select_mitigation K hw s1) =
  settings (md_clear_select_mitigation K hw s2).
Proof.
  intros H. unfold md_clear_select_mitigation.
  apply md_clear_update_settings, mmio_select_settings, taa_select_settings,
    mds_select_settings, H.
Qed.

Lemma srbds_select_settings (s1 s2 : state) :
  settings s1 = settings s2 ->
  settings (srbds_select_mitigation K hw s1) =
  settings (srbds_select_mitigation K hw s2).
Proof.
  destruct s1, s2. intros H. same_settings H.
  unfold srbds_select_mitigation, update_srbds_msr. settings_frame.
Qed.

Lemma gds_select_settings (s1 s2 : state) :
  settings s1 = settings s2 ->
  settings (gds_select_mitigation K hw s1) =
  settings (gds_select_mitigation K hw s2).
Proof.
  destruct s1, s2. intros H. same_settings H.
  unfold gds_select_mitigation, update_gds_msr, gds_print. settings_frame.
Qed.

Lemma arch_smt_update_settings (s1 s2 : state) :
  settings s1 = settings s2 ->
  settings (arch_smt_update K hw s1) = settings (arch_smt_update K hw s2).
Proof.
  assert (H1 : forall t1 t2, settings t1 = settings t2 ->
             settings (arch_smt_update_mds K hw t1) =
             settings (arch_smt_update_mds K hw t2)).
  { intros [] [] H. same_settings H.
    unfold arch_smt_update_mds, update_mds_branch_idle. settings_frame. }
  assert (H2 : forall t1 t2, settings t1 = settings t2 ->
             settings (arch_smt_update_taa t1) =
             settings (arch_smt_update_taa t2)).
  { intros [] [] H. same_settings H.
    unfold arch_smt_update_taa. settings_frame. }
  assert (H3 : forall t1 t2, settings t1 = settings t2 ->
             settings (arch_smt_update_mmio t1) =
             settings (arch_smt_update_mmio t2)).
  { intros [] [] H. same_settings H.
    unfold arch_smt_update_mmio. settings_frame. }
  intros H. unfold arch_smt_update. apply H3, H2, H1, H.
Qed.

(** The two selectors that run before the SSB step do not read the log;
    RETBleed reads [x86_spec_ctrl_base]. *)
Ltac same_but_log H :=
  cbn [set_ktrace
       mds_mitigation mds_nosmt taa_mitigation taa_nosmt mmio_mitigation
       mmio_nosmt srbds_mitigation srbds_off spectre_v1_mitigation
       spectre_v2_enabled gds_mitigation retbleed_mitigation retbleed_cmd
       retbleed_nosmt x86_spec_ctrl_base mds_user_clear mds_idle_clear
       mmio_stale_data_clear mcu_opt_ctrl sched_smt_active mds_msg_smt_once
       taa_msg_smt_once mmio_msg_smt_once gds_msr_warn_once ktrace] in H;
  injection H; intros; subst; clear H.

Lemma spectre_v1_select_blind (s1 s2 : state) :
  set_ktrace [] s1 = set_ktrace [] s2 ->
  set_ktrace [] (spectre_v1_select_mitigation hw s1) =
  set_ktrace [] (spectre_v1_select_mitigation hw s2).
Proof.
  destruct s1, s2. intros H. same_but_log H.
  unfold spectre_v1_select_mitigation, smap_works_speculatively, when.
  xt_cases; reflexivity.
Qed.

Lemma retbleed_cmd_auto_blind (s1 s2 : state) :
  set_ktrace [] s1 = set_ktrace [] s2 ->
  set_ktrace [] (retbleed_cmd_auto hw s1) =
  set_ktrace [] (retbleed_cmd_auto hw s2).
Proof.
  destruct s1, s2. intros H. same_but_log H.
  unfold retbleed_cmd_auto, when. xt_cases; reflexivity.
Qed.

Lemma retbleed_apply_blind (s1 s2 : state) :
  set_ktrace [] s1 = set_ktrace [] s2 ->
  set_ktrace [] (retbleed_apply K hw s1) =
  set_ktrace [] (retbleed_apply K hw s2).
Proof.
  destruct s1, s2. intros H. same_but_log H.
  unfold retbleed_apply, when. xt_cases; reflexivity.
Qed.

Lemma set_retbleed_mitigation_blind (v : retbleed_mitigation_t)
    (s1 s2 : state) :
  set_ktrace [] s1 = set_ktrace [] s2 ->
  set_ktrace [] (set_retbleed_mitigation v s1) =
  set_ktrace [] (set_retbleed_mitigation v s2).
Proof.
  destruct s1, s2. intros H. same_but_log H. reflexivity.
Qed.

Lemma retbleed_select_blind (s1 s2 : state) :
  set_ktrace [] s1 = set_ktrace [] s2 ->
  set_ktrace [] (retbleed_select_mitigation K hw s1) =
  set_ktrace [] (retbleed_select_mitigation K hw s2).
Proof.
  intros H. unfold retbleed_select_mitigation.
  destruct (negb _ || _); [exact H |].
  rewrite (f_equal retbleed_cmd H : retbleed_cmd s1 = retbleed_cmd s2).
  destruct (retbleed_cmd s2).
  - exact H.
  - apply retbleed_apply_blind, retbleed_cmd_auto_blind, H.
  - apply retbleed_apply_blind, set_retbleed_mitigation_blind, H.
  - destruct (boot_cpu_has hw X86_FEATURE_IBPB).
    + apply retbleed_apply_blind, set_retbleed_mitigation_blind, H.
    + apply retbleed_apply_blind, retbleed_cmd_auto_blind. exact H.
Qed.

Lemma blind_settings (s1 s2 : state) :
  set_ktrace [] s1 = set_ktrace [] s2 -> settings s1 = settings s2.
Proof.
  intros H. exact (f_equal (set_x86_spec_ctrl_base 0) H).
Qed.

(** The SSB and L1TF steps change nothing of the settings. *)
Lemma ssb_parse_blind (x : ext_state) :
  set_ktrace [] (core (ssb_parse_cmdline hw x)) = set_ktrace [] (core x).
Proof.
  unfold ssb_parse_cmdline, __ssb_parse_cmdline.
  repeat (xt_simpl; try split_cond); xt_simpl; reflexivity.
Qed.

Lemma ssb_select_settings (x : ext_state) :
  settings (core (ssb_select_mitigation hx x)) = settings (core x).
Proof.
  unfold ssb_select_mitigation, __ssb_select_mitigation, ssb_print_mitigation,
    x86_amd_ssbd_enable, settings.
  destruct x as [[] ? ? ? ? ? ? ? ? ? ?].
  xt_cases; reflexivity.
Qed.

Lemma l1tf_select_settings (x : ext_state) :
  settings (core (l1tf_select_mitigation F hw hx x)) = settings (core x).
Proof.
  unfold l1tf_select_mitigation, override_cache_bits, settings.
  destruct x as [[] ? ? ? ? ? ? ? ? ? ?].
  xt_cases; reflexivity.
Qed.

(** X26 (check_bugs): the SSB and L1TF steps of the boot sequence do not
    disturb the other selections.  [check_bugs] with these steps in place
    ends with the settings of [check_bugs] without them: every choice,
    every switch, the MCU_OPT_CTRL register and the once-latches; they differ
    in the log and in [x86_spec_ctrl_base] only. *)
Theorem check_bugs_ext_conservative (x : ext_state) :
  settings (core (check_bugs_ext K F hw hx x)) =
  settings (check_bugs K hw (core x)).
Proof.
  unfold check_bugs_ext, check_bugs, on_core.
  cbn [core set_core].
  apply arch_smt_update_settings, gds_select_settings, srbds_select_settings,
    md_clear_select_settings.
  rewrite l1tf_select_settings, ssb_select_settings.
  cbn [core set_core].
  apply blind_settings, retbleed_select_blind, spectre_v1_select_blind,
    ssb_parse_blind.
Qed.

Lemma trace_extends_app (P : event -> Prop) (old tr : list event) :
  trace_extends P old tr -> exists l, tr = l ++ old.
Proof.
  intros H. induction H as [| e tr He H [l ->]].
  - exists []. reflexivity.
  - exists (e :: l). reflexivity.
Qed.

Lemma ssb_parse_unforced (x : ext_state) :
  trace_extends not_forced_smt_disable (ktrace (core x))
    (ktrace (core (ssb_parse_cmdline hw x))).
Proof.
  unfold ssb_parse_cmdline, __ssb_parse_cmdline.
  repeat (xt_simpl; try split_cond); xt_simpl; trace_closed.
Qed.

Lemma ssb_select_unforced (x : ext_state) :
  trace_extends not_forced_smt_disable (ktrace (core x))
    (ktrace (core (ssb_select_mitigation hx x))).
Proof.
  unfold ssb_select_mitigation, __ssb_select_mitigation, ssb_print_mitigation,
    x86_amd_ssbd_enable.
  xt_cases; trace_closed.
Qed.

Lemma ssb_parse_l1tf (x : ext_state) :
  l1tf_mitigation (ssb_parse_cmdline hw x) = l1tf_mitigation x /\
  forced_caps (ssb_parse_cmdline hw x) = forced_caps x.
Proof.
  unfold ssb_parse_cmdline, __ssb_parse_cmdline.
  repeat (xt_simpl; try split_cond); xt_simpl; split; reflexivity.
Qed.

Lemma ssb_select_l1tf (x : ext_state) :
  l1tf_mitigation (ssb_select_mitigation hx x) = l1tf_mitigation x.
Proof.
  unfold ssb_select_mitigation, __ssb_select_mitigation, ssb_print_mitigation,
    x86_amd_ssbd_enable.
  xt_cases; reflexivity.
Qed.

(** What the L1TF selector does to the choice and to the log. *)
Lemma l1tf_select_trace (x : ext_state) :
  let x' := l1tf_select_mitigation F hw hx x in
  l1tf_mitigation x' =
    (if boot_cpu_has_ext hx X86_BUG_L1TF x then
       if cpu_mitigations_off hw then L1TF_MITIGATION_OFF
       else if cpu_mitigations_auto_nosmt hw then L1TF_MITIGATION_FLUSH_NOSMT
       else l1tf_mitigation x
     else l1tf_mitigation x) /\
  (boot_cpu_has_ext hx X86_BUG_L1TF x = true /\
   l1tf_mitigation x' = L1TF_MITIGATION_FULL_FORCE ->
   exists warn,
     ktrace (core x') = warn ++ CpuSmtDisable true :: ktrace (core x)) /\
  (~ (boot_cpu_has_ext hx X86_BUG_L1TF x = true /\
      l1tf_mitigation x' = L1TF_MITIGATION_FULL_FORCE) ->
   trace_extends not_forced_smt_disable (ktrace (core x))
     (ktrace (core x'))).
Proof.
  cbv zeta. unfold l1tf_select_mitigation.
  destruct (boot_cpu_has_ext hx X86_BUG_L1TF x) eqn:Hb; cbn [negb].
  2:{ split; [reflexivity |].
      split; [intros [E _]; discriminate E | intros _; constructor]. }
  destruct (override_cache_bits_frame F hx x) as (Oc & Om & _).
  set (x0 := override_cache_bits F hx x) in *. clearbody x0.
  rewrite <- Oc, <- Om. clear Oc Om Hb.
  destruct (cpu_mitigations_off hw), (cpu_mitigations_auto_nosmt hw);
    xt_cases;
    (split; [congruence |]);
    (split; [intros [_ E]; try discriminate E; try congruence;
             first [exists []; reflexivity
                   | eexists [_]; reflexivity]
            | intros E;
              try (exfalso; apply E; split; [reflexivity | congruence]);
              repeat (apply trace_extends_cons; [discriminate |]);
              apply trace_extends_refl]).
Qed.

(** X27 (check_bugs, l1tf_select_mitigation): in the whole boot sequence the
    scheduler is asked for a forced SMT disable in one case only: the CPU is
    affected by L1TF and the L1TF choice ends as full,force, which needs
    l1tf=full,force without mitigations=off or mitigations=auto,nosmt.  In
    every other case each SMT request of the boot is the best-effort one. *)
Theorem check_bugs_ext_smt_force (x : ext_state) :
  let x' := check_bugs_ext K F hw hx x in
  let forced :=
    boot_cpu_has_ext hx X86_BUG_L1TF x = true /\
    l1tf_mitigation x' = L1TF_MITIGATION_FULL_FORCE in
  (forced ->
   cpu_mitigations_off hw = false /\ cpu_mitigations_auto_nosmt hw = false /\
   l1tf_mitigation x = L1TF_MITIGATION_FULL_FORCE /\
   exists a b,
     ktrace (core x') = a ++ CpuSmtDisable true :: b ++ ktrace (core x)) /\
  (~ forced ->
   trace_extends not_forced_smt_disable (ktrace (core x)) (ktrace (core x'))).
Proof.
  cbv zeta. unfold check_bugs_ext.
  set (x3 := on_core (retbleed_select_mitigation K hw)
               (on_core (spectre_v1_select_mitigation hw)
                  (ssb_parse_cmdline hw x))).
  set (x4 := ssb_select_mitigation hx x3).
  set (x5 := l1tf_select_mitigation F hw hx x4).
  assert (Tb : trace_extends not_forced_smt_disable (ktrace (core x))
                 (ktrace (core x4))).
  { eapply trace_extends_trans; [| apply ssb_select_unforced].
    unfold x3, on_core. cbn [core set_core].
    eapply trace_extends_trans; [| apply retbleed_select_unforced].
    eapply trace_extends_trans; [| apply spectre_v1_select_unforced].
    apply ssb_parse_unforced. }
  assert (Ta : trace_extends not_forced_smt_disable (ktrace (core x5))
                 (ktrace (core
                    (on_core (arch_smt_update K hw)
                       (on_core (gds_select_mitigation K hw)
                          (on_core (srbds_select_mitigation K hw)
                             (on_core (md_clear_select_mitigation K hw)
                                x5))))))).
  { unfold on_core. cbn [core set_core].
    eapply trace_extends_trans;
      [| eapply trace_extends_weaken;
         [apply quiet_not_forced | apply arch_smt_update_quiet]].
    eapply trace_extends_trans; [| apply gds_select_unforced].
    eapply trace_extends_trans;
      [| eapply trace_extends_weaken;
         [apply quiet_not_forced | apply srbds_select_quiet]].
    apply md_clear_select_unforced. }
  assert (Hm4 : l1tf_mitigation x4 = l1tf_mitigation x).
  { unfold x4. rewrite ssb_select_l1tf. unfold x3, on_core.
    cbn [l1tf_mitigation set_core]. apply ssb_parse_l1tf. }
  assert (Hb4 : boot_cpu_has_ext hx X86_BUG_L1TF x4 =
                boot_cpu_has_ext hx X86_BUG_L1TF x).
  { unfold x4. rewrite ssb_select_has by discriminate.
    apply boot_cpu_has_ext_forced. unfold x3, on_core.
    cbn [forced_caps set_core]. apply ssb_parse_l1tf. }
  change (l1tf_mitigation
            (on_core (arch_smt_update K hw)
               (on_core (gds_select_mitigation K hw)
                  (on_core (srbds_select_mitigation K hw)
                     (on_core (md_clear_select_mitigation K hw) x5)))))
    with (l1tf_mitigation x5).
  destruct (l1tf_select_trace x4) as (Hm & Hf & Hn). fold x5 in Hm, Hf, Hn.
  rewrite Hb4, Hm4 in Hm. rewrite Hb4 in Hf, Hn.
  split.
  - intros [Hb E].
    destruct (Hf (conj Hb E)) as (warn & Hw).
    destruct (trace_extends_app _ _ _ Tb) as (b & Hx4).
    destruct (trace_extends_app _ _ _ Ta) as (a & Hx9).
    rewrite Hm, Hb in E.
    destruct (cpu_mitigations_off hw); [discriminate E |].
    destruct (cpu_mitigations_auto_nosmt hw); [discriminate E |].
    repeat split; try exact E.
    exists (a ++ warn), b.
    rewrite Hx9, Hw, Hx4, <- app_assoc. reflexivity.
  - intros Hnot.
    eapply trace_extends_trans; [| exact Ta].
    eapply trace_extends_trans; [exact Tb | apply Hn, Hnot].
Qed.

End BootExt.
